(** * crosh: subscription parsing, node selection, engine configuration
      and engine supervision

    A shallow embedding of [internal/proxy/subscription.go] and
    [internal/proxy/xray.go].

    Conventions.
    - A Go [string] is a Rocq [string] (a sequence of bytes); a Go [int] is a
      [Z] of a 64-bit platform.
    - A Go [error] result is an [option error] ([None] is [nil]); a function
      returning [(T, error)] returns a [result T].
    - The file system is a finite map from paths to file contents.  The
      environment tells where [os.MkdirAll] and the [os.WriteFile] of the
      configuration fail; [os.Stat], [os.ReadFile] and [os.Remove] fail on a
      missing file only, and creating, opening for writing and renaming a
      file succeed.
    - White space is that of Go, in one, two or three bytes of UTF-8.
    - Decoders and encoders of third-party formats (JSON, YAML, zip) and the
      platform constants are parameters of the development. *)

From Stdlib Require Import ZArith List String Ascii Lia Bool DecimalString DecimalPos.
From stdpp Require Import base option list gmap strings.

Open Scope Z_scope.
Open Scope string_scope.

(** ** Errors *)

(** The [error] values the two files build.  [Errorf] is [fmt.Errorf] on a
    constant message, [Wrapf] the same with a trailing [%w], [ErrStatus] a
    message with a [%d] status code, [ErrUnsupportedType] the message
    [unsupported node type: %s], and [ErrLib] an error value handed back by a
    library call. *)
Inductive error : Type :=
| Errorf (msg : string)
| Wrapf (msg : string) (cause : error)
| ErrStatus (msg : string) (code : Z)
| ErrUnsupportedType (t : string)
| ErrLib (origin : string).

Inductive result (A : Type) : Type :=
| Ok (a : A)
| Err (e : error).
Arguments Ok {A} a.
Arguments Err {A} e.

Definition is_ok {A} (r : result A) : bool :=
  match r with Ok _ => true | Err _ => false end.

(** ** The part of Go's [strings] package the parser uses *)

Definition byte_is (c : ascii) (n : N) : bool := N.eqb (N_of_ascii c) n.

(** The white space of Go, [unicode.IsSpace] in [strings] and the table
    [space] in [fmt], as it stands in a text encoded in UTF-8.  In one byte:
    tab, line feed, vertical tab, form feed, carriage return, space. *)
Definition asciiSpace (c : ascii) : bool :=
  let n := N_of_ascii c in
  (N.leb 9 n && N.leb n 13) || N.eqb n 32.

(** In two bytes: U+0085 and U+00A0. *)
Definition spaceRune2 (b1 b2 : ascii) : bool :=
  byte_is b1 194 && (byte_is b2 133 || byte_is b2 160).

(** In three bytes: U+1680, U+2000 to U+200A, U+2028, U+2029, U+202F,
    U+205F and U+3000. *)
Definition spaceRune3 (b1 b2 b3 : ascii) : bool :=
  (byte_is b1 225 && byte_is b2 154 && byte_is b3 128) ||
  (byte_is b1 226 && byte_is b2 128 &&
   ((N.leb 128 (N_of_ascii b3) && N.leb (N_of_ascii b3) 138) ||
    byte_is b3 168 || byte_is b3 169 || byte_is b3 175)) ||
  (byte_is b1 226 && byte_is b2 129 && byte_is b3 159) ||
  (byte_is b1 227 && byte_is b2 128 && byte_is b3 128).

(** The text without the white-space characters it starts with.  With
    [backwards] the text is read from its last byte, so that the bytes of a
    character come in reverse. *)
Fixpoint trimRunes (backwards : bool) (s : string) : string :=
  match s with
  | EmptyString => EmptyString
  | String c r =>
      if asciiSpace c then trimRunes backwards r
      else
        match r with
        | EmptyString => s
        | String c1 r1 =>
            if (if backwards then spaceRune2 c1 c else spaceRune2 c c1)
            then trimRunes backwards r1
            else
              match r1 with
              | EmptyString => s
              | String c2 r2 =>
                  if (if backwards then spaceRune3 c2 c1 c else spaceRune3 c c1 c2)
                  then trimRunes backwards r2
                  else s
              end
        end
  end.

Fixpoint reverseOnto (s acc : string) : string :=
  match s with
  | EmptyString => acc
  | String c r => reverseOnto r (String c acc)
  end.

Definition reverse (s : string) : string := reverseOnto s EmptyString.

Definition TrimLeft (s : string) : string := trimRunes false s.

Definition TrimRight (s : string) : string := reverse (trimRunes true (reverse s)).

Definition TrimSpace (s : string) : string := TrimRight (TrimLeft s).

Fixpoint HasPrefix (s p : string) {struct p} : bool :=
  match p, s with
  | EmptyString, _ => true
  | String a p', String b s' => Ascii.eqb a b && HasPrefix s' p'
  | String _ _, EmptyString => false
  end.

Fixpoint drop_bytes (n : nat) (s : string) : string :=
  match n, s with
  | S n', String _ r => drop_bytes n' r
  | _, _ => s
  end.

Definition TrimPrefix (s p : string) : string :=
  if HasPrefix s p then drop_bytes (String.length p) s else s.

Fixpoint Contains (s sub : string) : bool :=
  HasPrefix s sub ||
  match s with
  | EmptyString => false
  | String _ r => Contains r sub
  end.

(** [strings.Cut] on a one-byte separator: the text before and after the
    first occurrence of [sep]. *)
Fixpoint Cut (sep : ascii) (s : string) : option (string * string) :=
  match s with
  | EmptyString => None
  | String c r =>
      if Ascii.eqb c sep then Some (EmptyString, r)
      else match Cut sep r with
           | Some (a, b) => Some (String c a, b)
           | None => None
           end
  end.

(** [strings.SplitN(s, sep, 2)] on a one-byte separator. *)
Definition SplitN2 (s : string) (sep : ascii) : list string :=
  match Cut sep s with
  | Some (a, b) => [a; b]
  | None => [s]
  end.

(** [strings.Split(s, sep)] on a one-byte separator. *)
Fixpoint Split (s : string) (sep : ascii) : list string :=
  match s with
  | EmptyString => [EmptyString]
  | String c r =>
      if Ascii.eqb c sep then EmptyString :: Split r sep
      else match Split r sep with
           | h :: t => String c h :: t
           | [] => [String c EmptyString]
           end
  end.

Definition LF : ascii := ascii_of_N 10.

(** ** [fmt.Sscanf(s, "%d", &v)] *)

Definition isDigit (c : ascii) : bool :=
  let n := N_of_ascii c in N.leb 48 n && N.leb n 57.

Definition digitVal (c : ascii) : Z := Z.of_N (N_of_ascii c) - 48.

(** [SkipSpace] of the scanner, which reads the text character by
    character: a line feed is an error in [Sscanf]. *)
Fixpoint SkipSpace (s : string) : option string :=
  match s with
  | String c r =>
      if byte_is c 10 then None
      else if asciiSpace c then SkipSpace r
      else
        match r with
        | EmptyString => Some s
        | String c1 r1 =>
            if spaceRune2 c c1 then SkipSpace r1
            else
              match r1 with
              | EmptyString => Some s
              | String c2 r2 => if spaceRune3 c c1 c2 then SkipSpace r2 else Some s
              end
        end
  | EmptyString => Some s
  end.

(** The longest prefix made of decimal digits and underscores
    ([scanNumber] on the digit set of the verb [d]), and what follows. *)
Fixpoint scanNumber (s : string) : string * string :=
  match s with
  | String c r =>
      if isDigit c || byte_is c 95 then
        let (tok, rest) := scanNumber r in (String c tok, rest)
      else (EmptyString, s)
  | EmptyString => (EmptyString, EmptyString)
  end.

(** [strconv.ParseInt(tok, 10, 64)] on the unsigned part of a token: an
    underscore is a syntax error in base 10. *)
Fixpoint parseDigits (acc : Z) (tok : string) : option Z :=
  match tok with
  | EmptyString => Some acc
  | String c r => if isDigit c then parseDigits (10 * acc + digitVal c) r else None
  end.

Definition minInt64 : Z := - 2 ^ 63.
Definition maxInt64 : Z := 2 ^ 63 - 1.

(** The integer [%d] reads at the start of [s], when it reads one. *)
Definition scanInt (s : string) : option Z :=
  match SkipSpace s with
  | None => None
  | Some s1 =>
      let '(neg, s2) :=
        match s1 with
        | String c r =>
            if byte_is c 45 then (true, r)
            else if byte_is c 43 then (false, r)
            else (false, s1)
        | EmptyString => (false, s1)
        end in
      let (tok, _) := scanNumber s2 in
      match tok with
      | EmptyString => None
      | _ =>
          match parseDigits 0 tok with
          | None => None
          | Some v =>
              let z := if neg then - v else v in
              if Z.leb minInt64 z && Z.leb z maxInt64 then Some z else None
          end
      end
  end.

(** [v := v0; fmt.Sscanf(s, "%d", &v)]: the variable keeps its value when the
    scan fails, the error being dropped by the callers. *)
Definition Sscanf_d (s : string) (v0 : Z) : Z :=
  match scanInt s with
  | Some z => z
  | None => v0
  end.

(** ** [net/url]: [QueryUnescape] and [ParseQuery] *)

Definition ishex (c : ascii) : bool :=
  let n := N_of_ascii c in
  (N.leb 48 n && N.leb n 57) || (N.leb 97 n && N.leb n 102) || (N.leb 65 n && N.leb n 70).

Definition unhex (c : ascii) : N :=
  let n := N_of_ascii c in
  if N.leb 48 n && N.leb n 57 then (n - 48)%N
  else if N.leb 97 n && N.leb n 102 then (n - 97 + 10)%N
  else if N.leb 65 n && N.leb n 70 then (n - 65 + 10)%N
  else 0%N.

(** First pass of [unescape]: every [%] is followed by two hex digits. *)
Fixpoint escapes_ok (s : string) : bool :=
  match s with
  | EmptyString => true
  | String c r =>
      if byte_is c 37 then
        match r with
        | String h1 (String h2 r') => ishex h1 && ishex h2 && escapes_ok r'
        | _ => false
        end
      else escapes_ok r
  end.

(** Second pass, in query mode: [%XX] is a byte and [+] a space. *)
Fixpoint unescape_bytes (s : string) : string :=
  match s with
  | EmptyString => EmptyString
  | String c r =>
      if byte_is c 37 then
        match r with
        | String h1 (String h2 r') =>
            String (ascii_of_N (unhex h1 * 16 + unhex h2)) (unescape_bytes r')
        | _ => EmptyString
        end
      else if byte_is c 43 then String (ascii_of_N 32) (unescape_bytes r)
      else String c (unescape_bytes r)
  end.

Definition QueryUnescape (s : string) : result string :=
  if escapes_ok s then Ok (unescape_bytes s) else Err (ErrLib "url.EscapeError").

(** [name, _ = url.QueryUnescape(s)]: the empty string on an error. *)
Definition QueryUnescape_ (s : string) : string :=
  match QueryUnescape s with
  | Ok v => v
  | Err _ => EmptyString
  end.

(** One step of the loop of [parseQuery] on the piece [key] between two
    ampersands. *)
Definition parseQuery_step (m : gmap string (list string)) (key : string)
  : gmap string (list string) :=
  if Contains key ";" then m
  else if String.eqb key "" then m
  else
    let '(key, value) :=
      match Cut (ascii_of_N 61) key with
      | Some (k, v) => (k, v)
      | None => (key, "")
      end in
    match QueryUnescape key with
    | Err _ => m
    | Ok key =>
        match QueryUnescape value with
        | Err _ => m
        | Ok value => <[key := (default [] (m !! key) ++ [value])%list]> m
        end
    end.

(** [query, _ := url.ParseQuery(s)]: the loop cuts [s] at each ampersand in
    turn, which visits the pieces of [Split s "&"] in order. *)
Definition ParseQuery (s : string) : gmap string (list string) :=
  fold_left parseQuery_step (Split s (ascii_of_N 38)) ∅.

(** ** [encoding/base64]: [StdEncoding] and [URLEncoding] *)

Inductive Encoding := StdEncoding | URLEncoding.

(** The value of a character of the alphabet of [enc]. *)
Definition decodeMap (enc : Encoding) (c : ascii) : option N :=
  let n := N_of_ascii c in
  if N.leb 65 n && N.leb n 90 then Some (n - 65)%N
  else if N.leb 97 n && N.leb n 122 then Some (n - 97 + 26)%N
  else if N.leb 48 n && N.leb n 57 then Some (n - 48 + 52)%N
  else match enc with
       | StdEncoding =>
           if N.eqb n 43 then Some 62%N else if N.eqb n 47 then Some 63%N else None
       | URLEncoding =>
           if N.eqb n 45 then Some 62%N else if N.eqb n 95 then Some 63%N else None
       end.

Definition isPad (c : ascii) : bool := byte_is c 61.

Fixpoint dropNewlines (s : string) : string :=
  match s with
  | EmptyString => EmptyString
  | String c r =>
      if byte_is c 10 || byte_is c 13 then dropNewlines r
      else String c (dropNewlines r)
  end.

Definition byteAt (n : N) (shift : N) : ascii :=
  ascii_of_N (N.land (N.shiftr n shift) 255).

(** The quanta of a padded encoding, carriage returns and line feeds
    removed: four characters give three bytes, a final [xx==] one byte and
    a final [xxx=] two; trailing bits are not checked (no [Strict]). *)
Fixpoint decodeQuanta (enc : Encoding) (s : string) : option string :=
  match s with
  | EmptyString => Some EmptyString
  | String a (String b (String c (String d r))) =>
      match decodeMap enc a, decodeMap enc b with
      | Some va, Some vb =>
          if isPad c then
            if isPad d && String.eqb r "" then
              let n := (N.shiftl va 18 + N.shiftl vb 12)%N in
              Some (String (byteAt n 16) EmptyString)
            else None
          else
            match decodeMap enc c with
            | None => None
            | Some vc =>
                if isPad d then
                  if String.eqb r "" then
                    let n := (N.shiftl va 18 + N.shiftl vb 12 + N.shiftl vc 6)%N in
                    Some (String (byteAt n 16) (String (byteAt n 8) EmptyString))
                  else None
                else
                  match decodeMap enc d with
                  | None => None
                  | Some vd =>
                      let n := (N.shiftl va 18 + N.shiftl vb 12 + N.shiftl vc 6 + vd)%N in
                      match decodeQuanta enc r with
                      | Some rest =>
                          Some (String (byteAt n 16) (String (byteAt n 8)
                                  (String (byteAt n 0) rest)))
                      | None => None
                      end
                  end
            end
      | _, _ => None
      end
  | _ => None
  end.

Definition DecodeString (enc : Encoding) (s : string) : result string :=
  match decodeQuanta enc (dropNewlines s) with
  | Some b => Ok b
  | None => Err (ErrLib "base64.CorruptInputError")
  end.

(** ** The node model *)

Module Node.
Record t : Type := mk {
  Name : string;
  Type_ : string;
  Server : string;
  Port : Z;
  UUID : string;
  Password : string;
  Network : string;
  Security : string;
  TLS : string;
  SNI : string;
  Latency : Z
}.

(** [Node{}] *)
Definition zero : t := mk "" "" "" 0 "" "" "" "" "" "" 0.

Definition with_Name (v : string) (n : t) : t :=
  mk v (Type_ n) (Server n) (Port n) (UUID n) (Password n) (Network n) (Security n) (TLS n) (SNI n) (Latency n).
Definition with_Type (v : string) (n : t) : t :=
  mk (Name n) v (Server n) (Port n) (UUID n) (Password n) (Network n) (Security n) (TLS n) (SNI n) (Latency n).
Definition with_Server (v : string) (n : t) : t :=
  mk (Name n) (Type_ n) v (Port n) (UUID n) (Password n) (Network n) (Security n) (TLS n) (SNI n) (Latency n).
Definition with_Port (v : Z) (n : t) : t :=
  mk (Name n) (Type_ n) (Server n) v (UUID n) (Password n) (Network n) (Security n) (TLS n) (SNI n) (Latency n).
Definition with_UUID (v : string) (n : t) : t :=
  mk (Name n) (Type_ n) (Server n) (Port n) v (Password n) (Network n) (Security n) (TLS n) (SNI n) (Latency n).
Definition with_Password (v : string) (n : t) : t :=
  mk (Name n) (Type_ n) (Server n) (Port n) (UUID n) v (Network n) (Security n) (TLS n) (SNI n) (Latency n).
Definition with_Network (v : string) (n : t) : t :=
  mk (Name n) (Type_ n) (Server n) (Port n) (UUID n) (Password n) v (Security n) (TLS n) (SNI n) (Latency n).
Definition with_Security (v : string) (n : t) : t :=
  mk (Name n) (Type_ n) (Server n) (Port n) (UUID n) (Password n) (Network n) v (TLS n) (SNI n) (Latency n).
Definition with_TLS (v : string) (n : t) : t :=
  mk (Name n) (Type_ n) (Server n) (Port n) (UUID n) (Password n) (Network n) (Security n) v (SNI n) (Latency n).
Definition with_SNI (v : string) (n : t) : t :=
  mk (Name n) (Type_ n) (Server n) (Port n) (UUID n) (Password n) (Network n) (Security n) (TLS n) v (Latency n).
Definition with_Latency (v : Z) (n : t) : t :=
  mk (Name n) (Type_ n) (Server n) (Port n) (UUID n) (Password n) (Network n) (Security n) (TLS n) (SNI n) v.
End Node.

Abbreviation Node := Node.t.

Record Subscription : Type := mkSubscription {
  URL : string;
  Nodes : list Node
}.

Module YAMLProxy.
Record t : Type := mk {
  Name : string;
  Server : string;
  Port : Z;
  Type_ : string;
  Password : string;
  UUID : string;
  Cipher : string;
  SNI : string;
  Network : string;
  SkipCertVerify : bool;
  UDP : bool
}.
End YAMLProxy.

Abbreviation YAMLProxy := YAMLProxy.t.

(** A value of type [interface{}] in a decoded JSON object, as far as the
    type assertions of [parseVMessURL] tell values apart: a [string], a
    [float64] (kept as the integer [int(v)] converts it to, the only use the
    code makes of it), or anything else. *)
Inductive iface : Type :=
| IString (s : string)
| IFloat64 (toInt : Z)
| IOther.

Definition assertString (v : option iface) : option string :=
  match v with Some (IString s) => Some s | _ => None end.

Definition assertFloat64 (v : option iface) : option Z :=
  match v with Some (IFloat64 z) => Some z | _ => None end.

(** ** JSON documents, archives and HTTP *)

(** The values the configuration generator builds: a
    [map[string]interface{}] is a finite map, a [[]map[string]interface{}]
    an array of values and a [[]string] a list of strings. *)
#[local] Unset Elimination Schemes.
Inductive JValue : Type :=
| JString (s : string)
| JInt (z : Z)
| JBool (b : bool)
| JStrings (l : list string)
| JArray (l : list JValue)
| JObject (m : gmap string JValue).
#[local] Set Elimination Schemes.

(** A map literal. *)
Definition object (fields : list (string * JValue)) : JValue :=
  JObject (list_to_map fields).

(** [v[k]] on a document that is an object. *)
Definition field (k : string) (v : JValue) : option JValue :=
  match v with
  | JObject m => m !! k
  | _ => None
  end.

(** [v[i]] on a document that is an array. *)
Definition item (i : nat) (v : JValue) : option JValue :=
  match v with
  | JArray l => l !! i
  | _ => None
  end.

(** What [client.Get(url)] gives: an error, or a response with its status
    code and body; [BodyFails] tells that reading the body ends in an error
    ([io.Copy] or [io.ReadAll] fails). *)
Inductive HTTPResult : Type :=
| RequestFailed
| Response (StatusCode : Z) (Body : string) (BodyFails : bool).

(** What a member of a zip archive gives when it is extracted: [Open] fails,
    the copy of its bytes fails, or its bytes. *)
Inductive ZipData : Type :=
| OpenFails
| CopyFails
| Data (bytes : string).

Record ZipFile : Type := mkZipFile {
  zipName : string;
  zipData : ZipData
}.

(** The anonymous struct [fetchReleaseInfo] decodes a release into. *)
Record Release : Type := mkRelease {
  TagName : string;
  Assets : list string
}.

(** ** The environment

    The third-party decoders and encoders, the network and the platform
    constants the code relies on. *)
Record Env : Type := mkEnv {
  (** [json.Unmarshal(data, &m)] for [m] a [map[string]interface{}]: the
      decoded object, or [None] on an error. *)
  json_Unmarshal : string -> option (gmap string iface);
  (** [yaml.Unmarshal(data, &config)] for [config] a [YAMLConfig]: the
      [Proxies] field of the result, or [None] on an error. *)
  yaml_Unmarshal : string -> option (list YAMLProxy);
  (** [json.MarshalIndent(config, "", "  ")], or [None] on an error. *)
  json_MarshalIndent : JValue -> option string;
  (** [json.NewDecoder(body).Decode(&release)], or [None] on an error. *)
  json_DecodeRelease : string -> option Release;
  (** [zip.OpenReader] on the bytes of a file: the members of the archive in
      order, or [None] on an error. *)
  zip_OpenReader : string -> option (list ZipFile);
  (** [client.Get(url)] *)
  http_Get : string -> HTTPResult;
  (** The directories [os.MkdirAll(dir, 0755)] cannot create, and the paths
      [os.WriteFile(path, data, 0644)] cannot open for writing: the call
      then returns an error and changes no file. *)
  os_MkdirAll_fails : string -> bool;
  os_WriteFile_fails : string -> bool;
  (** [runtime.GOOS] and [runtime.GOARCH] *)
  GOOS : string;
  GOARCH : string
}.

(** ** The link parsers of [subscription.go] *)

(** [for k, v := range query { if len(v) > 0 { params[k] = v[0] } }] *)
Definition firstValues (query : gmap string (list string)) : gmap string string :=
  omap head query.

Definition parseVLessURL (vlessURL : string) : result Node :=
  let vlessURL := TrimPrefix vlessURL "vless://" in
  let '(name, vlessURL) :=
    match SplitN2 vlessURL "#" with
    | [p0; p1] => (QueryUnescape_ p1, p0)
    | _ => ("", vlessURL)
    end in
  let '(params, vlessURL) :=
    match SplitN2 vlessURL "?" with
    | [p0; p1] => (firstValues (ParseQuery p1), p0)
    | _ => (∅, vlessURL)
    end in
  match SplitN2 vlessURL "@" with
  | [uuid; hostport] =>
      match SplitN2 hostport ":" with
      | [server; portText] =>
          let port := Sscanf_d portText 0 in
          let node := Node.mk name "vless" server port uuid "" "" "" "" "" 0 in
          let node :=
            match params !! "type" with
            | Some v => Node.with_Network v node
            | None => node
            end in
          let node :=
            match params !! "security" with
            | Some v => Node.with_Security v node
            | None => node
            end in
          Ok node
      | _ => Err (Errorf "invalid vless server:port format")
      end
  | _ => Err (Errorf "invalid vless URL format")
  end.

Definition parseTrojanURL (trojanURL : string) : result Node :=
  let trojanURL := TrimPrefix trojanURL "trojan://" in
  let '(name, trojanURL) :=
    match SplitN2 trojanURL "#" with
    | [p0; p1] => (QueryUnescape_ p1, p0)
    | _ => ("", trojanURL)
    end in
  let trojanURL :=
    match SplitN2 trojanURL "?" with
    | [p0; _] => p0
    | _ => trojanURL
    end in
  match SplitN2 trojanURL "@" with
  | [password; hostport] =>
      match SplitN2 hostport ":" with
      | [server; portText] =>
          let port := Sscanf_d portText 0 in
          Ok (Node.mk name "trojan" server port "" password "" "" "" "" 0)
      | _ => Err (Errorf "invalid trojan server:port format")
      end
  | _ => Err (Errorf "invalid trojan URL format")
  end.

(** The two decoding attempts on the credential segment of an [ss://] link:
    [StdEncoding] first and, when that fails, [URLEncoding]. *)
Definition decodeCredentials (segment : string) : result string :=
  match DecodeString StdEncoding segment with
  | Ok decoded => Ok decoded
  | Err _ =>
      match DecodeString URLEncoding segment with
      | Ok decoded => Ok decoded
      | Err e => Err (Wrapf "failed to decode shadowsocks credentials" e)
      end
  end.

Definition parseShadowsocksURL (ssURL : string) : result Node :=
  let ssURL := TrimPrefix ssURL "ss://" in
  let '(name, ssURL) :=
    match SplitN2 ssURL "#" with
    | [p0; p1] => (QueryUnescape_ p1, p0)
    | _ => ("", ssURL)
    end in
  match SplitN2 ssURL "@" with
  | [segment; hostport] =>
      match decodeCredentials segment with
      | Err e => Err e
      | Ok decoded =>
          match SplitN2 decoded ":" with
          | [method; password] =>
              match SplitN2 hostport ":" with
              | [server; portText] =>
                  let port := Sscanf_d portText 0 in
                  Ok (Node.mk name "ss" server port "" password "" method "" "" 0)
              | _ => Err (Errorf "invalid shadowsocks server:port format")
              end
          | _ => Err (Errorf "invalid shadowsocks credentials format")
          end
      end
  | _ => Err (Errorf "invalid shadowsocks URL format")
  end.

(** ** Latency probing and node selection *)

(** What [net.DialTimeout] and the clock give one call of [TestLatency]:
    an error, or a connection together with [time.Since(start)], a
    [time.Duration] (an [int64] count of nanoseconds). *)
Inductive DialOutcome : Type :=
| DialError
| Connected (elapsed : Z).

Definition validDial (o : DialOutcome) : Prop :=
  match o with
  | DialError => True
  | Connected d => minInt64 <= d <= maxInt64
  end.

(** [Duration.Milliseconds]: integer division, truncated towards zero. *)
Definition Milliseconds (d : Z) : Z := Z.quot d 1000000.

(** [func (n *Node) TestLatency() error]: the node after the call and the
    error returned. *)
Definition TestLatency (n : Node) (o : DialOutcome) : Node * option error :=
  match o with
  | DialError => (Node.with_Latency (-1) n, Some (ErrLib "net.DialTimeout"))
  | Connected d => (Node.with_Latency (Milliseconds d) n, None)
  end.

(** [int(^uint(0) >> 1)] *)
Definition maxInt : Z := Z.shiftr (2 ^ 64 - 1) 1.

(** The loop of [SelectFastestNode] from index [i] on: [dial j] is what the
    probe of [s.Nodes[j]] meets; [fastestNode], a pointer into [s.Nodes], is
    the index it points at. *)
Fixpoint selectLoop (dial : nat -> DialOutcome) (i : nat) (nodes : list Node)
    (minLatency : Z) (fastestNode : option nat) : list Node * option nat :=
  match nodes with
  | [] => ([], fastestNode)
  | n :: rest =>
      let (n', err) := TestLatency n (dial i) in
      let '(minLatency', fastestNode') :=
        match err with
        | Some _ => (minLatency, fastestNode)
        | None =>
            if Z.leb 0 (Node.Latency n') && Z.ltb (Node.Latency n') minLatency
            then (Node.Latency n', Some i)
            else (minLatency, fastestNode)
        end in
      let (rest', r) := selectLoop dial (S i) rest minLatency' fastestNode' in
      (n' :: rest', r)
  end.

(** [SelectFastestNode], a method of a pointer to [Subscription]: the
    subscription after the call (the probes write the latencies into it) and
    the index of the node the returned pointer designates. *)
Definition SelectFastestNode (dial : nat -> DialOutcome) (s : Subscription)
  : Subscription * result nat :=
  match Nodes s with
  | [] => (s, Err (Errorf "no nodes available"))
  | _ =>
      let (nodes', fastestNode) := selectLoop dial 0 (Nodes s) maxInt None in
      let s' := mkSubscription (URL s) nodes' in
      match fastestNode with
      | None => (s', Err (Errorf "no reachable nodes found"))
      | Some i => (s', Ok i)
      end
  end.

(** ** [path/filepath] on a Unix platform *)

Definition SLASH : ascii := ascii_of_N 47.

Fixpoint joinSlash (elems : list string) : string :=
  match elems with
  | [] => ""
  | [e] => e
  | e :: rest => e ++ "/" ++ joinSlash rest
  end.

(** One element of a path in [Clean]; [stack] holds the elements kept so
    far, the last one first. *)
Definition cleanStep (rooted : bool) (stack : list string) (e : string) : list string :=
  if String.eqb e "" || String.eqb e "." then stack
  else if String.eqb e ".." then
    match stack with
    | top :: below => if String.eqb top ".." then e :: stack else below
    | [] => if rooted then [] else [e]
    end
  else e :: stack.

Definition Clean (path : string) : string :=
  let rooted := HasPrefix path "/" in
  let body := joinSlash (rev (fold_left (cleanStep rooted) (Split path SLASH) [])) in
  if rooted then "/" ++ body
  else if String.eqb body "" then "." else body.

(** The text before and after the last occurrence of [sep]. *)
Fixpoint CutLast (sep : ascii) (s : string) : option (string * string) :=
  match s with
  | EmptyString => None
  | String c r =>
      match CutLast sep r with
      | Some (a, b) => Some (String c a, b)
      | None => if Ascii.eqb c sep then Some (EmptyString, r) else None
      end
  end.

Fixpoint trimSlashes (s : string) : string :=
  match s with
  | EmptyString => EmptyString
  | String c r =>
      match trimSlashes r with
      | EmptyString => if Ascii.eqb c SLASH then EmptyString else String c EmptyString
      | r' => String c r'
      end
  end.

Definition Dir (path : string) : string :=
  Clean (match CutLast SLASH path with
         | Some (a, _) => a ++ "/"
         | None => ""
         end).

Definition Base (path : string) : string :=
  if String.eqb path "" then "."
  else
    let path := trimSlashes path in
    let path :=
      match CutLast SLASH path with
      | Some (_, b) => b
      | None => path
      end in
    if String.eqb path "" then "/" else path.

(** [filepath.Join(a, b)] *)
Definition Join (a b : string) : string :=
  if negb (String.eqb a "") then Clean (a ++ "/" ++ b)
  else if negb (String.eqb b "") then Clean b
  else "".

Definition HasSuffix (s suffix : string) : bool :=
  Nat.leb (String.length suffix) (String.length s) &&
  String.eqb (drop_bytes (String.length s - String.length suffix) s) suffix.

(** ** The engine manager of [xray.go] *)

Record XraySource : Type := mkXraySource {
  SourceName : string;
  APIURL : string;
  DownloadURL : string
}.

Definition xraySources : list XraySource :=
  [ mkXraySource "Cloudflare CDN (crosh mirror)"
      "https://crosh.boomyao.com/xray/VERSION"
      "https://crosh.boomyao.com/xray";
    mkXraySource "Official GitHub"
      "https://api.github.com/repos/XTLS/Xray-core/releases/latest"
      "https://github.com/XTLS/Xray-core/releases/download" ].

(** An [exec.Cmd], as far as the manager looks into it: its [Process]
    field, [nil] or the handle of a process, given by its identifier. *)
Record Cmd : Type := mkCmd {
  Process : option Z
}.

Record XrayManager : Type := mkXrayManager {
  xrayPath : string;
  configPath : string;
  cmd : option Cmd;
  localPort : Z
}.

Definition NewXrayManager (xrayPath : string) (localPort : Z) : XrayManager :=
  mkXrayManager xrayPath (Join (Dir xrayPath) "config.json") None localPort.

(** The operating system, as the manager sees it: the files and the
    identifiers of the processes that can be signalled. *)
Record OS : Type := mkOS {
  files : gmap string string;
  procs : gset Z
}.

(** [Process.Kill]: an error when the process is gone. *)
Definition Kill (pid : Z) (ps : gset Z) : gset Z * option error :=
  if decide (pid ∈ ps) then (ps ∖ {[pid]}, None)
  else (ps, Some (ErrLib "os: process already finished")).

(** ** The code that runs in an environment *)

Section Model.

Variable E : Env.

(** *** [subscription.go] *)

Definition parseVMessURL (vmessURL : string) : result Node :=
  let encoded := TrimPrefix vmessURL "vmess://" in
  match DecodeString StdEncoding encoded with
  | Err e => Err (Wrapf "failed to decode vmess URL" e)
  | Ok decoded =>
      match json_Unmarshal E decoded with
      | None => Err (Wrapf "failed to parse vmess config" (ErrLib "json.Unmarshal"))
      | Some vmessConfig =>
          let node := Node.with_Type "vmess" Node.zero in
          let node :=
            match assertString (vmessConfig !! "ps") with
            | Some v => Node.with_Name v node | None => node end in
          let node :=
            match assertString (vmessConfig !! "add") with
            | Some v => Node.with_Server v node | None => node end in
          let node :=
            match assertFloat64 (vmessConfig !! "port") with
            | Some v => Node.with_Port v node | None => node end in
          let node :=
            match assertString (vmessConfig !! "id") with
            | Some v => Node.with_UUID v node | None => node end in
          let node :=
            match assertString (vmessConfig !! "net") with
            | Some v => Node.with_Network v node | None => node end in
          let node :=
            match assertString (vmessConfig !! "tls") with
            | Some v => Node.with_TLS v node | None => node end in
          Ok node
      end
  end.

(** The body of the loop of [parseYAMLSubscription] for one proxy entry:
    the node appended, if any. *)
Definition yamlNode (proxy : YAMLProxy) : option Node :=
  if String.eqb (YAMLProxy.Server proxy) "" || Z.eqb (YAMLProxy.Port proxy) 0 then None
  else
    let node :=
      Node.mk (YAMLProxy.Name proxy) (YAMLProxy.Type_ proxy) (YAMLProxy.Server proxy)
        (YAMLProxy.Port proxy) "" "" "" "" "" "" 0 in
    let t := YAMLProxy.Type_ proxy in
    Some
      (if String.eqb t "trojan" then
         let node := Node.with_Password (YAMLProxy.Password proxy) node in
         let node := Node.with_SNI (YAMLProxy.SNI proxy) node in
         if String.eqb (YAMLProxy.SNI proxy) "" then
           Node.with_SNI (YAMLProxy.Server proxy) node
         else node
       else if String.eqb t "vmess" then
         Node.with_Network (YAMLProxy.Network proxy) (Node.with_UUID (YAMLProxy.UUID proxy) node)
       else if String.eqb t "vless" then
         Node.with_Network (YAMLProxy.Network proxy) (Node.with_UUID (YAMLProxy.UUID proxy) node)
       else if String.eqb t "ss" || String.eqb t "shadowsocks" then
         Node.with_Security (YAMLProxy.Cipher proxy)
           (Node.with_Password (YAMLProxy.Password proxy) node)
       else node).

Definition parseYAMLSubscription (content : string) : result (list Node) :=
  match yaml_Unmarshal E content with
  | None => Err (Wrapf "failed to parse YAML" (ErrLib "yaml.Unmarshal"))
  | Some [] => Err (Errorf "no proxies found in YAML config")
  | Some proxies =>
      match omap yamlNode proxies with
      | [] => Err (Errorf "no valid proxy nodes found in YAML config")
      | nodes => Ok nodes
      end
  end.

(** The body of the loop of [parseSubscription] over the lines: [nodes]
    after the iteration on [line]. *)
Definition parseLine (nodes : list Node) (line : string) : list Node :=
  let line := TrimSpace line in
  let keep (r : result Node) : list Node :=
    match r with
    | Ok node => (nodes ++ [node])%list
    | Err _ => nodes
    end in
  if String.eqb line "" then nodes
  else if HasPrefix line "vmess://" then keep (parseVMessURL line)
  else if HasPrefix line "vless://" then keep (parseVLessURL line)
  else if HasPrefix line "trojan://" then keep (parseTrojanURL line)
  else if HasPrefix line "ss://" then keep (parseShadowsocksURL line)
  else nodes.

(** The second half of [parseSubscription]: the content read as a list of
    links, one per line. *)
Definition parseLinkList (content : string) : result (list Node) :=
  match fold_left parseLine (Split content LF) [] with
  | [] => Err (Errorf "no valid nodes found in subscription")
  | nodes => Ok nodes
  end.

(** The test that sends [parseSubscription] to the YAML parser first. *)
Definition looksLikeYAML (content : string) : bool :=
  Contains content "proxies:" || Contains content "- {name:".

Definition parseSubscription (content : string) : result (list Node) :=
  let viaYAML :=
    if looksLikeYAML content then
      match parseYAMLSubscription content with
      | Ok (n :: rest) => Some (n :: rest)
      | _ => None
      end
    else None in
  match viaYAML with
  | Some nodes => Ok nodes
  | None => parseLinkList content
  end.

(** *** [xray.go]: the configuration generator *)

Definition generateRoutingRules : JValue :=
  object
    [ ("domainStrategy", JString "IPIfNonMatch");
      ("rules", JArray
         [ object [ ("type", JString "field");
                    ("ip", JStrings ["geoip:private"]);
                    ("outboundTag", JString "direct") ];
           object [ ("type", JString "field");
                    ("ip", JStrings ["geoip:cn"]);
                    ("outboundTag", JString "direct") ];
           object [ ("type", JString "field");
                    ("domain", JStrings ["geosite:cn"]);
                    ("outboundTag", JString "direct") ] ]) ].

Definition generateDirectOutbound : JValue :=
  object
    [ ("tag", JString "direct");
      ("protocol", JString "freedom");
      ("settings", object []) ].

(** The part the four generators share: the SOCKS inbound, the two
    outbounds and the routing rules around [proxyOutbound]. *)
Definition configAround (x : XrayManager) (proxyOutbound : JValue) : JValue :=
  object
    [ ("inbounds", JArray
         [ object [ ("port", JInt (localPort x));
                    ("protocol", JString "socks");
                    ("settings", object [ ("udp", JBool true) ]) ] ]);
      ("outbounds", JArray [ proxyOutbound; generateDirectOutbound ]);
      ("routing", generateRoutingRules) ].

Definition generateVMessConfig (x : XrayManager) (node : Node) : JValue :=
  configAround x
    (object
       [ ("tag", JString "proxy");
         ("protocol", JString "vmess");
         ("settings", object
            [ ("vnext", JArray
                 [ object
                     [ ("address", JString (Node.Server node));
                       ("port", JInt (Node.Port node));
                       ("users", JArray
                          [ object [ ("id", JString (Node.UUID node));
                                     ("alterId", JInt 0);
                                     ("security", JString "auto") ] ]) ] ]) ]) ]).

Definition generateVLessConfig (x : XrayManager) (node : Node) : JValue :=
  configAround x
    (object
       [ ("tag", JString "proxy");
         ("protocol", JString "vless");
         ("settings", object
            [ ("vnext", JArray
                 [ object
                     [ ("address", JString (Node.Server node));
                       ("port", JInt (Node.Port node));
                       ("users", JArray
                          [ object [ ("id", JString (Node.UUID node));
                                     ("encryption", JString "none") ] ]) ] ]) ]) ]).

Definition generateTrojanConfig (x : XrayManager) (node : Node) : JValue :=
  let sni := if String.eqb (Node.SNI node) "" then Node.Server node else Node.SNI node in
  configAround x
    (object
       [ ("tag", JString "proxy");
         ("protocol", JString "trojan");
         ("settings", object
            [ ("servers", JArray
                 [ object [ ("address", JString (Node.Server node));
                            ("port", JInt (Node.Port node));
                            ("password", JString (Node.Password node)) ] ]) ]);
         ("streamSettings", object
            [ ("network", JString "tcp");
              ("security", JString "tls");
              ("tlsSettings", object
                 [ ("serverName", JString sni);
                   ("allowInsecure", JBool false);
                   ("alpn", JStrings ["h2"; "http/1.1"]);
                   ("disableSystemRoot", JBool false);
                   ("enableSessionResumption", JBool true) ]) ]) ]).

Definition generateShadowsocksConfig (x : XrayManager) (node : Node) : JValue :=
  configAround x
    (object
       [ ("tag", JString "proxy");
         ("protocol", JString "shadowsocks");
         ("settings", object
            [ ("servers", JArray
                 [ object [ ("address", JString (Node.Server node));
                            ("port", JInt (Node.Port node));
                            ("method", JString (Node.Security node));
                            ("password", JString (Node.Password node)) ] ]) ]) ]).

(** The [switch] of [GenerateConfig]: the document of a supported type. *)
Definition dispatchConfig (x : XrayManager) (node : Node) : option JValue :=
  let t := Node.Type_ node in
  if String.eqb t "vmess" then Some (generateVMessConfig x node)
  else if String.eqb t "vless" then Some (generateVLessConfig x node)
  else if String.eqb t "trojan" then Some (generateTrojanConfig x node)
  else if String.eqb t "ss" then Some (generateShadowsocksConfig x node)
  else None.

(** [GenerateConfig]: the files after the call and the error returned. *)
Definition GenerateConfig (x : XrayManager) (node : Node) (fs : gmap string string)
  : gmap string string * option error :=
  match dispatchConfig x node with
  | None => (fs, Some (ErrUnsupportedType (Node.Type_ node)))
  | Some config =>
      match json_MarshalIndent E config with
      | None => (fs, Some (Wrapf "failed to marshal config" (ErrLib "json.MarshalIndent")))
      | Some data =>
          if os_WriteFile_fails E (configPath x) then
            (fs, Some (Wrapf "failed to write config" (ErrLib "os.WriteFile")))
          else (<[configPath x := data]> fs, None)
      end
  end.

(** *** [xray.go]: acquiring the binary and the data files *)

Definition getXrayPlatformNames : string * string :=
  let os := GOOS E in
  let arch := GOARCH E in
  let osName := if String.eqb os "darwin" then "macos" else os in
  let archName :=
    if String.eqb arch "amd64" then "64"
    else if String.eqb arch "386" then "32"
    else if String.eqb arch "arm64" then "arm64-v8a"
    else if String.eqb arch "arm" then "arm32-v7a"
    else if String.eqb arch "mips64" || String.eqb arch "mips64le" then "mips64"
    else if String.eqb arch "mips" || String.eqb arch "mipsle" then "mips32"
    else arch in
  (osName, archName).

Definition getDefaultAssetName : string :=
  let (osName, archName) := getXrayPlatformNames in
  "Xray-" ++ osName ++ "-" ++ archName ++ ".zip".

Definition getVersionFromCDN (source : XraySource) : result (string * string) :=
  match http_Get E (APIURL source) with
  | RequestFailed => Err (ErrLib "http.Client.Get")
  | Response status body bodyFails =>
      if negb (Z.eqb status 200) then Err (ErrStatus "HTTP" status)
      else if bodyFails then Err (ErrLib "io.ReadAll")
      else
        let version := TrimSpace body in
        let (osName, archName) := getXrayPlatformNames in
        Ok (version, "Xray-" ++ osName ++ "-" ++ archName ++ ".zip")
  end.

Definition fetchReleaseInfo (apiURL : string) : result (string * string) :=
  match http_Get E apiURL with
  | RequestFailed => Err (ErrLib "http.Client.Get")
  | Response status body bodyFails =>
      if negb (Z.eqb status 200) then Err (ErrStatus "API returned status" status)
      else
        match (if bodyFails then None else json_DecodeRelease E body) with
        | None => Err (ErrLib "json.Decoder.Decode")
        | Some release =>
            let version := TagName release in
            let (osName, archName) := getXrayPlatformNames in
            let assetPattern := "Xray-" ++ osName ++ "-" ++ archName in
            match find (fun name => Contains name assetPattern && HasSuffix name ".zip")
                    (Assets release) with
            | Some name => Ok (version, name)
            | None => Err (Errorf "no suitable binary found")
            end
        end
  end.

Definition getVersionFromGitHub (source : XraySource) : result (string * string) :=
  fetchReleaseInfo (APIURL source).

(** The loop of [getLatestReleaseInfo] and the three values returned;
    [lastErr] is [nil] on entry. *)
Fixpoint releaseInfoLoop (sources : list XraySource) (lastErr : option error)
  : string * string * option error :=
  match sources with
  | [] => ("", "", lastErr)
  | source :: rest =>
      let r :=
        if Contains (SourceName source) "Cloudflare" then getVersionFromCDN source
        else getVersionFromGitHub source in
      match r with
      | Ok (version, assetName) => (version, assetName, None)
      | Err e => releaseInfoLoop rest (Some e)
      end
  end.

Definition getLatestReleaseInfo : string * string * option error :=
  releaseInfoLoop xraySources None.

Definition extractXrayFromZip (x : XrayManager) (zipPath : string)
    (fs : gmap string string) : gmap string string * option error :=
  match fs !! zipPath ≫= zip_OpenReader E with
  | None => (fs, Some (Wrapf "failed to open zip" (ErrLib "zip.OpenReader")))
  | Some members =>
      match find (fun f => let name := Base (zipName f) in
                           String.eqb name "xray" || String.eqb name "xray-core") members with
      | None => (fs, Some (Errorf "xray binary not found in zip"))
      | Some xrayFile =>
          let tmpFile := xrayPath x ++ ".tmp" in
          match zipData xrayFile with
          | OpenFails => (fs, Some (Wrapf "failed to open file in zip" (ErrLib "zip.File.Open")))
          | CopyFails =>
              (delete tmpFile fs, Some (Wrapf "failed to copy file" (ErrLib "io.Copy")))
          | Data bytes =>
              (<[xrayPath x := bytes]> (delete tmpFile fs), None)
          end
      end
  end.

Definition downloadFromURL (x : XrayManager) (downloadURL : string)
    (fs : gmap string string) : gmap string string * option error :=
  match http_Get E downloadURL with
  | RequestFailed => (fs, Some (Wrapf "request failed" (ErrLib "http.Client.Get")))
  | Response status body bodyFails =>
      if negb (Z.eqb status 200) then (fs, Some (ErrStatus "HTTP" status))
      else
        let tmpZip := xrayPath x ++ ".tmp.zip" in
        if bodyFails then
          (delete tmpZip fs, Some (Wrapf "failed to save file" (ErrLib "io.Copy")))
        else
          let (fs', err) := extractXrayFromZip x tmpZip (<[tmpZip := body]> fs) in
          match err with
          | Some e => (delete tmpZip fs', Some (Wrapf "failed to extract" e))
          | None => (delete tmpZip fs', None)
          end
  end.

(** The loop of [Download] over the sources: the files and [lastErr] when
    the loop is left, by [break] or at the end of the list. *)
Fixpoint downloadLoop (x : XrayManager) (version assetName : string)
    (sources : list XraySource) (fs : gmap string string) (lastErr : option error)
  : gmap string string * option error :=
  match sources with
  | [] => (fs, lastErr)
  | source :: rest =>
      let downloadURL := DownloadURL source ++ "/" ++ version ++ "/" ++ assetName in
      let (fs', err) := downloadFromURL x downloadURL fs in
      match err with
      | None => (fs', lastErr)
      | Some e => downloadLoop x version assetName rest fs' (Some e)
      end
  end.

Definition downloadGeoFile (url targetPath : string) (fs : gmap string string)
  : gmap string string * option error :=
  match http_Get E url with
  | RequestFailed => (fs, Some (Wrapf "request failed" (ErrLib "http.Client.Get")))
  | Response status body bodyFails =>
      if negb (Z.eqb status 200) then (fs, Some (ErrStatus "HTTP" status))
      else
        let tmpFile := targetPath ++ ".tmp" in
        if bodyFails then
          (delete tmpFile fs, Some (Wrapf "failed to save file" (ErrLib "io.Copy")))
        else (<[targetPath := body]> (delete tmpFile fs), None)
  end.

Record GeoFile : Type := mkGeoFile {
  geoName : string;
  geoSources : list string;
  geoFilename : string
}.

Definition geoFiles : list GeoFile :=
  [ mkGeoFile "geoip.dat"
      [ "https://crosh.boomyao.com/xray/geoip.dat";
        "https://github.com/Loyalsoldier/v2ray-rules-dat/releases/latest/download/geoip.dat" ]
      "geoip.dat";
    mkGeoFile "geosite.dat"
      [ "https://crosh.boomyao.com/xray/geosite.dat";
        "https://github.com/Loyalsoldier/v2ray-rules-dat/releases/latest/download/geosite.dat" ]
      "geosite.dat" ].

(** The inner loop of [downloadGeoData] over the sources of one file. *)
Fixpoint geoSourceLoop (targetPath : string) (sources : list string)
    (fs : gmap string string) (lastErr : option error)
  : gmap string string * option error :=
  match sources with
  | [] => (fs, lastErr)
  | source :: rest =>
      let (fs', err) := downloadGeoFile source targetPath fs in
      match err with
      | None => (fs', lastErr)
      | Some e => geoSourceLoop targetPath rest fs' (Some e)
      end
  end.

(** The outer loop of [downloadGeoData] over the files. *)
Fixpoint geoFileLoop (dataDir : string) (todo : list GeoFile) (fs : gmap string string)
  : gmap string string * option error :=
  match todo with
  | [] => (fs, None)
  | geoFile :: rest =>
      let targetPath := Join dataDir (geoFilename geoFile) in
      match fs !! targetPath with
      | Some _ => geoFileLoop dataDir rest fs
      | None =>
          let (fs', lastErr) := geoSourceLoop targetPath (geoSources geoFile) fs None in
          match lastErr with
          | Some e => (fs', Some (Wrapf ("failed to download " ++ geoName geoFile) e))
          | None => geoFileLoop dataDir rest fs'
          end
      end
  end.

Definition downloadGeoData (x : XrayManager) (fs : gmap string string)
  : gmap string string * option error :=
  geoFileLoop (Dir (xrayPath x)) geoFiles fs.

(** [Download]: the files after the call and the error returned.  The
    directories are not part of the model of the file system, so a call of
    [os.MkdirAll] that succeeds has no effect here. *)
Definition Download (x : XrayManager) (fs : gmap string string)
  : gmap string string * option error :=
  let '(fs1, failure) :=
    match fs !! xrayPath x with
    | Some _ => (fs, None)
    | None =>
        if os_MkdirAll_fails E (Dir (xrayPath x)) then
          (fs, Some (Wrapf "failed to create directory" (ErrLib "os.MkdirAll")))
        else
          let '(version, assetName) :=
            match getLatestReleaseInfo with
            | (_, _, Some _) => ("v1.8.4", getDefaultAssetName)
            | (version, assetName, None) => (version, assetName)
            end in
          let (fs', lastErr) := downloadLoop x version assetName xraySources fs None in
          match lastErr with
          | Some e => (fs', Some (Wrapf "failed to download from all sources" e))
          | None => (fs', None)
          end
    end in
  match failure with
  | Some e => (fs1, Some e)
  | None =>
      let (fs2, _) := downloadGeoData x fs1 in
      (fs2, None)
  end.

(** *** [xray.go]: stopping the engine *)

Definition pidFile (x : XrayManager) : string := Join (Dir (xrayPath x)) "xray.pid".

(** The process behind [x.cmd], when [x.cmd != nil && x.cmd.Process != nil]. *)
Definition processHandle (x : XrayManager) : option Z :=
  match cmd x with
  | Some c => Process c
  | None => None
  end.

(** [Stop]: the manager and the operating system after the call, and the
    error returned. *)
Definition Stop (x : XrayManager) (os : OS) : XrayManager * OS * option error :=
  match processHandle x with
  | Some pid =>
      match Kill pid (procs os) with
      | (_, Some e) => (x, os, Some (Wrapf "failed to stop Xray-core" e))
      | (ps, None) =>
          (mkXrayManager (xrayPath x) (configPath x) None (localPort x),
           mkOS (delete (pidFile x) (files os)) ps,
           None)
      end
  | None =>
      let ps :=
        match files os !! pidFile x with
        | Some data =>
            let pid := Sscanf_d data 0 in
            if Z.ltb 0 pid then fst (Kill pid (procs os)) else procs os
        | None => procs os
        end in
      (x, mkOS (delete (pidFile x) (files os)) ps, None)
  end.

End Model.

(** ** Vocabulary of the statements *)

(** The nodes of a subscription after the probes of [SelectFastestNode], the
    probe of the node at index [i + k] meeting [dial (i + k)]. *)
Fixpoint probeAll (dial : nat -> DialOutcome) (i : nat) (nodes : list Node) : list Node :=
  match nodes with
  | [] => []
  | n :: rest => fst (TestLatency n (dial i)) :: probeAll dial (S i) rest
  end.

(** The state of the scan after the nodes from index [i] on, started with
    the bound [minLatency] and the candidate [fastest]: either no node beats
    the bound and the candidate stands, or the candidate is the first of the
    nodes of least latency among the reachable ones, below the bound. *)
Definition scanOutcome (i : nat) (probed : list Node) (minLatency : Z)
    (fastest r : option nat) : Prop :=
  (r = fastest /\
   forall m, m ∈ probed -> 0 <= Node.Latency m -> minLatency <= Node.Latency m)
  \/
  (exists k n,
     r = Some (i + k)%nat /\ probed !! k = Some n /\
     0 <= Node.Latency n < minLatency /\
     (forall j m, probed !! j = Some m -> 0 <= Node.Latency m ->
                  Node.Latency n <= Node.Latency m) /\
     (forall j m, (j < k)%nat -> probed !! j = Some m -> 0 <= Node.Latency m ->
                  Node.Latency n < Node.Latency m)).

(** The outcomes of a run of probes given as a list, in the order of the
    nodes. *)
Definition dialOf (outcomes : list DialOutcome) : nat -> DialOutcome :=
  fun i => default DialError (outcomes !! i).

(** A connection established after [ms] milliseconds. *)
Definition after_ms (ms : Z) : DialOutcome := Connected (ms * 1000000).

(** The byte [c] occurs in [s]. *)
Fixpoint hasByte (c : ascii) (s : string) : bool :=
  match s with
  | EmptyString => false
  | String a r => Ascii.eqb a c || hasByte c r
  end.

(** The bytes [DecodeString] lets through: the alphabet, the padding
    character, and the line ends it skips. *)
Definition base64Byte (enc : Encoding) (c : ascii) : bool :=
  match decodeMap enc c with
  | Some _ => true
  | None => isPad c || byte_is c 10 || byte_is c 13
  end.

(** A well-formed node in the words of the specification: a non-empty
    server and a port between 1 and 65535. *)
Definition wellFormed (n : Node) : Prop :=
  Node.Server n <> "" /\ 1 <= Node.Port n <= 65535.

(** What the loop of [parseYAMLSubscription] checks of an entry it keeps. *)
Definition hasServerAndPort (n : Node) : Prop :=
  Node.Server n <> "" /\ Node.Port n <> 0.

(** The nodes the loop of [parseSubscription] over the lines collects. *)
Definition linkNodes (E : Env) (content : string) : list Node :=
  fold_left (parseLine E) (Split content LF) [].

(** The two interpretations in the words of the specification, to compare
    [parseSubscription] with.

    The YAML marker: the content holds [proxies:] or the mark of an inline
    list. *)
Definition hasYAMLMarker (content : string) : bool :=
  Contains content "proxies:" || Contains content "- {name:".

(** The usable proxies of a YAML document: the entries with a non-empty
    server and a port other than zero, in the order of the document; none
    when the document does not decode. *)
Definition usableProxies (E : Env) (content : string) : list YAMLProxy :=
  match yaml_Unmarshal E content with
  | Some proxies =>
      filter (fun p => YAMLProxy.Server p <> "" /\ YAMLProxy.Port p <> 0) proxies
  | None => []
  end.

(** The link parser a link is dispatched to by its scheme. *)
Definition linkParser (E : Env) (link : string) : option (string -> result Node) :=
  if HasPrefix link "vmess://" then Some (parseVMessURL E)
  else if HasPrefix link "vless://" then Some parseVLessURL
  else if HasPrefix link "trojan://" then Some parseTrojanURL
  else if HasPrefix link "ss://" then Some parseShadowsocksURL
  else None.

(** The node of one line of a link list: the line without the white space
    around it is dispatched by its scheme; an empty line, a line of no known
    scheme and a line its parser rejects give no node. *)
Definition lineNode (E : Env) (line : string) : option Node :=
  let link := TrimSpace line in
  if String.eqb link "" then None
  else
    match linkParser E link with
    | Some parse =>
        match parse link with
        | Ok node => Some node
        | Err _ => None
        end
    | None => None
    end.

(** What the link-list interpretation answers: the nodes of the lines, in
    the order of the lines, or the parse error when there is none. *)
Definition linkListResult (E : Env) (content : string) : result (list Node) :=
  match omap (lineNode E) (Split content LF) with
  | [] => Err (Errorf "no valid nodes found in subscription")
  | nodes => Ok nodes
  end.

(** U+3000, the ideographic space, in UTF-8. *)
Definition ideographicSpace : string :=
  String (ascii_of_N 227) (String (ascii_of_N 128) (String (ascii_of_N 128) "")).

(** The version and the asset name [Download] settles on: those of the
    release information or, when no source gives it, the defaults. *)
Definition releaseChoice (E : Env) : string * string :=
  match getLatestReleaseInfo E with
  | (_, _, Some _) => ("v1.8.4", getDefaultAssetName E)
  | (version, assetName, None) => (version, assetName)
  end.

(** The types [GenerateConfig] has a case for. *)
Definition supportedType (t : string) : bool :=
  String.eqb t "vmess" || String.eqb t "vless" || String.eqb t "trojan" || String.eqb t "ss".

(** The TLS settings of the first outbound of a configuration document. *)
Definition tlsSettings (config : JValue) : option JValue :=
  ((field "outbounds" config ≫= item 0%nat) ≫= field "streamSettings") ≫= field "tlsSettings".

(** ** An environment for the examples

    A Linux machine on amd64.  The mirror serves the version file and the
    data files but answers 404 for the archive; the upstream site serves the
    archive.  One YAML document and one archive are known to the decoders. *)

Definition sampleYAML : string :=
  "proxies:
  - {name: hk, server: hk.example.com, port: 8388, type: shadowsocks, cipher: aes-256-gcm, password: pw}
  - {name: far, server: far.example.com, port: 70000, type: trojan, password: pw}".

Definition sampleProxies : list YAMLProxy :=
  [ YAMLProxy.mk "hk" "hk.example.com" 8388 "shadowsocks" "pw" "" "aes-256-gcm" "" "" false false;
    YAMLProxy.mk "far" "far.example.com" 70000 "trojan" "pw" "" "" "" "" false false ].

(** The nodes the YAML parser makes of [sampleProxies]. *)
Definition sampleNodes : list Node := omap yamlNode sampleProxies.

(** A subscription that mentions the YAML marker in a first line of text and
    carries one link. *)
Definition sampleLinks : string :=
  "remarks, not proxies: one link follows
vless://uuid-1@host.example:443?type=ws&security=tls#n+1".

Definition sampleArchive : string := "PK:README.md,xray".

Definition sampleGet (url : string) : HTTPResult :=
  if String.eqb url "https://crosh.boomyao.com/xray/VERSION" then Response 200 "v1.8.4
" false
  else if String.eqb url "https://crosh.boomyao.com/xray/v1.8.4/Xray-linux-64.zip" then
    Response 404 "not found" false
  else if String.eqb url "https://github.com/XTLS/Xray-core/releases/download/v1.8.4/Xray-linux-64.zip" then
    Response 200 sampleArchive false
  else if String.eqb url "https://crosh.boomyao.com/xray/geoip.dat" then Response 200 "geoip" false
  else if String.eqb url "https://crosh.boomyao.com/xray/geosite.dat" then Response 200 "geosite" false
  else RequestFailed.

Definition sampleEnv : Env :=
  {| json_Unmarshal := fun data => if String.eqb data "{}" then Some ∅ else None;
     yaml_Unmarshal := fun data => if String.eqb data sampleYAML then Some sampleProxies else None;
     json_MarshalIndent := fun _ => Some "{ }";
     json_DecodeRelease := fun _ => None;
     zip_OpenReader := fun bytes =>
       if String.eqb bytes sampleArchive then
         Some [ mkZipFile "README.md" (Data "Xray"); mkZipFile "xray" (Data "ELF") ]
       else None;
     http_Get := sampleGet;
     os_MkdirAll_fails := fun _ => false;
     os_WriteFile_fails := fun _ => false;
     GOOS := "linux";
     GOARCH := "amd64" |}.

(** ** More of the two files: fetching, starting, reporting *)

(** [fmt.Sprintf("%d", v)] *)
Definition Sprintf_d (v : Z) : string := NilEmpty.string_of_int (Z.to_int v).

Section Fetching.

Variable E : Env.

(** [FetchSubscription] *)
Definition FetchSubscription (subscriptionURL : string) : result Subscription :=
  match http_Get E subscriptionURL with
  | RequestFailed => Err (Wrapf "failed to fetch subscription" (ErrLib "http.Client.Get"))
  | Response status body bodyFails =>
      if negb (Z.eqb status 200) then Err (ErrStatus "subscription returned status" status)
      else if bodyFails then
        Err (Wrapf "failed to read subscription data" (ErrLib "io.ReadAll"))
      else
        let decoded :=
          match DecodeString StdEncoding body with
          | Ok d => d
          | Err _ => body
          end in
        match parseSubscription E decoded with
        | Err e => Err e
        | Ok nodes => Ok (mkSubscription subscriptionURL nodes)
        end
  end.

(** [LoadFromFile], on the files of the machine. *)
Definition LoadFromFile (filePath : string) (fs : gmap string string)
  : result Subscription :=
  match fs !! filePath with
  | None => Err (Wrapf "failed to read file" (ErrLib "os.ReadFile"))
  | Some data =>
      match parseYAMLSubscription E data with
      | Err e => Err (Wrapf "failed to parse YAML file" e)
      | Ok nodes => Ok (mkSubscription filePath nodes)
      end
  end.

End Fetching.

Definition logFile (x : XrayManager) : string := Join (Dir (xrayPath x)) "xray.log".

Section Lifecycle.

(** [signals pid] tells whether [Signal(os.Signal(nil))] on the process
    [pid] returns a [nil] error. *)
Variable signals : Z -> bool.

(** [IsRunning] *)
Definition IsRunning (x : XrayManager) (os : OS) : bool :=
  match processHandle x with
  | Some pid => signals pid
  | None =>
      match files os !! pidFile x with
      | None => false
      | Some data => signals (Sscanf_d data 0)
      end
  end.

(** [Start]; [spawned] is what [x.cmd.Start()] gives, the identifier of the
    new process or [None] for an error.  The log file is created when it does
    not exist; what the engine writes to it is not part of the model. *)
Definition Start (spawned : option Z) (x : XrayManager) (os : OS)
  : XrayManager * OS * option error :=
  match files os !! xrayPath x with
  | None => (x, os, Some (Errorf "xray-core not found, please run download first"))
  | Some _ =>
      if IsRunning x os then (x, os, Some (Errorf "xray-core is already running"))
      else
        let fs1 :=
          match files os !! logFile x with
          | Some _ => files os
          | None => <[logFile x := ""]> (files os)
          end in
        match spawned with
        | None =>
            (mkXrayManager (xrayPath x) (configPath x) (Some (mkCmd None)) (localPort x),
             mkOS fs1 (procs os),
             Some (Wrapf "failed to start Xray-core" (ErrLib "exec.Cmd.Start")))
        | Some pid =>
            (mkXrayManager (xrayPath x) (configPath x) (Some (mkCmd (Some pid))) (localPort x),
             mkOS (<[pidFile x := Sprintf_d pid]> fs1) ({[pid]} ∪ procs os),
             None)
        end
  end.

End Lifecycle.

(** [GetProxyEnvVars] *)
Definition GetProxyEnvVars (x : XrayManager) : gmap string string :=
  let proxyURL := "socks5://127.0.0.1:" ++ Sprintf_d (localPort x) in
  list_to_map
    [ ("HTTP_PROXY", proxyURL); ("HTTPS_PROXY", proxyURL); ("ALL_PROXY", proxyURL);
      ("http_proxy", proxyURL); ("https_proxy", proxyURL); ("all_proxy", proxyURL) ].

(** ** More vocabulary *)

(** A node without its measurement. *)
Definition forgetLatency (n : Node) : Node := Node.with_Latency 0 n.

(** The test [extractXrayFromZip] applies to the members of an archive. *)
Definition isXrayMember (f : ZipFile) : bool :=
  let name := Base (zipName f) in
  String.eqb name "xray" || String.eqb name "xray-core".

(** The two outbounds and the inbound of a configuration document. *)
Definition proxyOutbound (config : JValue) : option JValue :=
  field "outbounds" config ≫= item 0%nat.

Definition directOutbound (config : JValue) : option JValue :=
  field "outbounds" config ≫= item 1%nat.

Definition socksInbound (config : JValue) : option JValue :=
  field "inbounds" config ≫= item 0%nat.

(** The list of servers of the proxy outbound: [vnext] for vmess and vless,
    [servers] for trojan and shadowsocks. *)
Definition proxyServer (key : string) (config : JValue) : option JValue :=
  ((proxyOutbound config ≫= field "settings") ≫= field key) ≫= item 0%nat.

(** The value of [outboundTag] in each routing rule. *)
Definition ruleTags (config : JValue) : list (option JValue) :=
  match field "routing" config ≫= field "rules" with
  | Some (JArray rules) => map (field "outboundTag") rules
  | _ => []
  end.

(** The protocol name the generator gives a supported node type. *)
Definition protocolOf (t : string) : string :=
  if String.eqb t "ss" then "shadowsocks" else t.

(** ** Two more environments for the examples *)

(** A machine without network. *)
Definition offlineEnv : Env :=
  {| json_Unmarshal := fun _ => None;
     yaml_Unmarshal := fun _ => None;
     json_MarshalIndent := fun _ => Some "{ }";
     json_DecodeRelease := fun _ => None;
     zip_OpenReader := fun _ => None;
     http_Get := fun _ => RequestFailed;
     os_MkdirAll_fails := fun _ => false;
     os_WriteFile_fails := fun _ => false;
     GOOS := "linux";
     GOARCH := "arm64" |}.

(** A machine that reaches the upstream releases API only; the release
    lists a digest before the archive and a second archive for the platform
    after it. *)
Definition upstreamEnv : Env :=
  {| json_Unmarshal := fun _ => None;
     yaml_Unmarshal := fun _ => None;
     json_MarshalIndent := fun _ => Some "{ }";
     json_DecodeRelease := fun body =>
       if String.eqb body "release" then
         Some (mkRelease "v1.8.6"
                 [ "Xray-freebsd-64.zip"; "Xray-linux-64.zip.dgst"; "Xray-linux-64.zip";
                   "Xray-linux-64-v2.zip" ])
       else None;
     zip_OpenReader := fun _ => None;
     http_Get := fun url =>
       if String.eqb url "https://api.github.com/repos/XTLS/Xray-core/releases/latest"
       then Response 200 "release" false
       else RequestFailed;
     os_MkdirAll_fails := fun _ => false;
     os_WriteFile_fails := fun _ => false;
     GOOS := "linux";
     GOARCH := "amd64" |}.

(** The machine of the examples with a file system that takes no new
    directory and no configuration file. *)
Definition lockedEnv : Env :=
  {| json_Unmarshal := json_Unmarshal sampleEnv;
     yaml_Unmarshal := yaml_Unmarshal sampleEnv;
     json_MarshalIndent := json_MarshalIndent sampleEnv;
     json_DecodeRelease := json_DecodeRelease sampleEnv;
     zip_OpenReader := zip_OpenReader sampleEnv;
     http_Get := sampleGet;
     os_MkdirAll_fails := fun _ => true;
     os_WriteFile_fails := fun _ => true;
     GOOS := "linux";
     GOARCH := "amd64" |}.

(** A machine whose mirror pads its version file: an ideographic space
    before the version, a carriage return and a line feed after it. *)
Definition paddedEnv : Env :=
  {| json_Unmarshal := fun _ => None;
     yaml_Unmarshal := fun _ => None;
     json_MarshalIndent := fun _ => Some "{ }";
     json_DecodeRelease := fun _ => None;
     zip_OpenReader := fun _ => None;
     http_Get := fun url =>
       if String.eqb url "https://crosh.boomyao.com/xray/VERSION"
       then Response 200
              (ideographicSpace ++ "v1.8.6" ++ String (ascii_of_N 13) (String LF "")) false
       else RequestFailed;
     os_MkdirAll_fails := fun _ => false;
     os_WriteFile_fails := fun _ => false;
     GOOS := "linux";
     GOARCH := "amd64" |}.

(** * Properties *)

(** ** The latency prober *)

Lemma TestLatency_fields n o :
  let n' := fst (TestLatency n o) in
  Node.Name n' = Node.Name n /\ Node.Type_ n' = Node.Type_ n /\
  Node.Server n' = Node.Server n /\ Node.Port n' = Node.Port n.
Proof. destruct o; simpl; auto. Qed.

Lemma TestLatency_error_iff n o :
  snd (TestLatency n o) = None <-> exists d, o = Connected d.
Proof.
  destruct o; simpl; split; try discriminate; eauto.
  intros [d Hd]; discriminate.
Qed.

Lemma Milliseconds_below_maxInt d :
  d <= maxInt64 -> Milliseconds d < maxInt.
Proof.
  intros Hd. unfold Milliseconds.
  assert (Hmax : maxInt = maxInt64) by reflexivity.
  rewrite Hmax. unfold maxInt64 in *.
  destruct (Z_lt_le_dec d 0) as [Hneg | Hpos].
  - assert (Z.quot d 1000000 <= 0) by (apply Z.quot_le_upper_bound; lia). lia.
  - assert (Z.quot d 1000000 <= d).
    { rewrite Z.quot_div_nonneg by lia.
      apply Z.div_le_upper_bound; lia. }
    assert (Z.quot d 1000000 < 2 ^ 63 - 1 \/ d = 2 ^ 63 - 1) as [? | ->] by lia; [lia |].
    vm_compute. reflexivity.
Qed.

(** A probed node never reaches the initial value of [minLatency]. *)
Lemma TestLatency_below_maxInt n o :
  validDial o -> Node.Latency (fst (TestLatency n o)) < maxInt.
Proof.
  destruct o as [| d]; simpl.
  - intros _. vm_compute. reflexivity.
  - intros [_ Hd]. now apply Milliseconds_below_maxInt.
Qed.

(** C9, as the code has it: [TestLatency] records the outcome on the node
    and hands the error of a failed connection back to its caller.  On a
    failure the latency becomes the sentinel -1 and the error returned is not
    [nil]; on a connection established after a duration [d] the latency
    becomes [d] in milliseconds, rounded towards zero, the error is [nil], and
    the latency is not negative when [d] is not.  The other fields of the
    node are left as they were. *)
Theorem TestLatency_records_outcome (n : Node) (o : DialOutcome) :
  (o = DialError ->
     Node.Latency (fst (TestLatency n o)) = -1 /\
     snd (TestLatency n o) <> None) /\
  (forall d, o = Connected d -> 0 <= d ->
     Node.Latency (fst (TestLatency n o)) = Z.quot d 1000000 /\
     0 <= Node.Latency (fst (TestLatency n o)) /\
     snd (TestLatency n o) = None) /\
  Node.with_Latency (Node.Latency n) (fst (TestLatency n o)) = n.
Proof.
  split; [| split].
  - intros ->. simpl. split; [reflexivity | discriminate].
  - intros d -> Hd. simpl. unfold Milliseconds.
    repeat split. apply Z.quot_pos; lia.
  - destruct n, o; reflexivity.
Qed.

(** At a node, a refused connection and a connection after 42.7 ms. *)
Lemma TestLatency_records_outcome_witness :
  (Node.Latency (fst (TestLatency Node.zero DialError)) = -1 /\
   snd (TestLatency Node.zero DialError) <> None) /\
  (Node.Latency (fst (TestLatency Node.zero (Connected 42700000))) = Z.quot 42700000 1000000 /\
   0 <= Node.Latency (fst (TestLatency Node.zero (Connected 42700000))) /\
   snd (TestLatency Node.zero (Connected 42700000)) = None).
Proof.
  split.
  - apply (proj1 (TestLatency_records_outcome Node.zero DialError)). reflexivity.
  - apply (proj1 (proj2 (TestLatency_records_outcome Node.zero (Connected 42700000))) 42700000).
    + reflexivity.
    + lia.
Defined.

(** The claim of the specification that the probe never raises to its
    caller fails on a refused connection: the error comes back. *)
Lemma TestLatency_returns_the_dial_error :
  snd (TestLatency Node.zero DialError) = Some (ErrLib "net.DialTimeout") /\
  ~ (forall n o, snd (TestLatency n o) = None).
Proof.
  split; [reflexivity |].
  intros H. specialize (H Node.zero DialError). discriminate.
Qed.

(** ** The node selector *)

Lemma probeAll_latency_bound dial nodes : forall i m,
  (forall j, validDial (dial j)) ->
  m ∈ probeAll dial i nodes -> Node.Latency m < maxInt.
Proof.
  induction nodes as [| n rest IH]; intros i m Hdial Hin; simpl in Hin.
  - inversion Hin.
  - apply elem_of_cons in Hin as [-> | Hin].
    + apply TestLatency_below_maxInt, Hdial.
    + eapply IH; eauto.
Qed.

Lemma selectLoop_scan dial nodes : forall i minLatency fastest,
  fst (selectLoop dial i nodes minLatency fastest) = probeAll dial i nodes /\
  scanOutcome i (probeAll dial i nodes) minLatency fastest
    (snd (selectLoop dial i nodes minLatency fastest)).
Proof.
  induction nodes as [| n rest IH]; intros i minLatency fastest.
  - simpl. split; [reflexivity |]. left. split; [reflexivity |].
    intros m Hin. inversion Hin.
  - cbn [selectLoop probeAll].
    destruct (TestLatency n (dial i)) as [n' err] eqn:Hprobe. cbn [fst].
    set (beats := Z.leb 0 (Node.Latency n') && Z.ltb (Node.Latency n') minLatency).
    assert (Hstate :
      (match err with
       | Some _ => (minLatency, fastest)
       | None => if beats then (Node.Latency n', Some i) else (minLatency, fastest)
       end) = if beats then (Node.Latency n', Some i) else (minLatency, fastest)).
    { destruct err as [e |]; [| reflexivity].
      destruct n, (dial i); simpl in Hprobe; inversion Hprobe; subst.
      subst beats. simpl. reflexivity. }
    fold beats. rewrite Hstate. clear Hstate.
    destruct beats eqn:Hbeats; subst beats.
    + apply andb_true_iff in Hbeats as [Hlo Hhi].
      apply Z.leb_le in Hlo. apply Z.ltb_lt in Hhi.
      specialize (IH (S i) (Node.Latency n') (Some i)) as [IHnodes IHscan].
      destruct (selectLoop dial (S i) rest (Node.Latency n') (Some i)) as [rest' r].
      cbn [fst snd] in *. subst rest'. split; [reflexivity |].
      right. destruct IHscan as [[-> Hall] | (k & m0 & -> & Hk & Hm0 & Hmin & Hfirst)].
      * exists 0%nat, n'. rewrite Nat.add_0_r.
        split_and!; [reflexivity | reflexivity | lia | lia | | intros j m Hlt; lia].
        intros [| j] m Hj Hm; simpl in Hj.
        -- inversion Hj; subst. lia.
        -- apply Hall; auto. eapply list_elem_of_lookup_2; eauto.
      * exists (S k), m0.
        split_and!; [f_equal; lia | exact Hk | lia | lia | | ].
        -- intros [| j] m Hj Hm; simpl in Hj.
           ++ inversion Hj; subst. lia.
           ++ eapply Hmin; eauto.
        -- intros [| j] m Hlt Hj Hm; simpl in Hj.
           ++ inversion Hj; subst. lia.
           ++ eapply Hfirst; eauto. lia.
    + apply andb_false_iff in Hbeats.
      assert (Hn' : 0 <= Node.Latency n' -> minLatency <= Node.Latency n').
      { intros Hpos. destruct Hbeats as [H | H].
        - apply Z.leb_gt in H. lia.
        - apply Z.ltb_ge in H. lia. }
      specialize (IH (S i) minLatency fastest) as [IHnodes IHscan].
      destruct (selectLoop dial (S i) rest minLatency fastest) as [rest' r].
      cbn [fst snd] in *. subst rest'. split; [reflexivity |].
      destruct IHscan as [[-> Hall] | (k & m0 & -> & Hk & Hm0 & Hmin & Hfirst)].
      * left. split; [reflexivity |].
        intros m Hin Hm. apply elem_of_cons in Hin as [-> | Hin]; auto.
      * right. exists (S k), m0.
        split_and!; [f_equal; lia | exact Hk | lia | lia | | ].
        -- intros [| j] m Hj Hm; simpl in Hj.
           ++ inversion Hj; subst. lia.
           ++ eapply Hmin; eauto.
        -- intros [| j] m Hlt Hj Hm; simpl in Hj.
           ++ inversion Hj; subst. lia.
           ++ eapply Hfirst; eauto. lia.
Qed.

Lemma SelectFastestNode_probes dial s :
  Nodes (fst (SelectFastestNode dial s)) = probeAll dial 0 (Nodes s).
Proof.
  unfold SelectFastestNode.
  destruct (Nodes s) as [| n rest] eqn:Hnodes; [simpl; exact Hnodes |].
  pose proof (selectLoop_scan dial (n :: rest) 0 maxInt None) as [Hfst _].
  destruct (selectLoop dial 0 (n :: rest) maxInt None) as [nodes' [k |]];
    simpl in *; exact Hfst.
Qed.

(** C1.  [SelectFastestNode] probes the nodes in source order, the node at
    index [j] meeting the outcome [dial j], and writes the latencies into the
    subscription.  When it returns a node, at index [k], that node is
    reachable (its latency is not negative), no reachable node has a smaller
    latency, and every reachable node before it has a strictly larger one: it
    is the first node at the minimum.  It fails exactly when no probed node
    is reachable, which covers the subscription with zero nodes.  When the
    probes give 50 ms, a failure and 10 ms it returns the third node; when
    they give 10 ms, a failure and 10 ms it returns the first. *)
Theorem SelectFastestNode_first_minimum :
  (forall (dial : nat -> DialOutcome) (s : Subscription),
     (forall j, validDial (dial j)) ->
     let probed := probeAll dial 0 (Nodes s) in
     Nodes (fst (SelectFastestNode dial s)) = probed /\
     match snd (SelectFastestNode dial s) with
     | Ok k =>
         exists n,
           probed !! k = Some n /\ 0 <= Node.Latency n /\
           (forall j m, probed !! j = Some m -> 0 <= Node.Latency m ->
                        Node.Latency n <= Node.Latency m) /\
           (forall j m, (j < k)%nat -> probed !! j = Some m -> 0 <= Node.Latency m ->
                        Node.Latency n < Node.Latency m)
     | Err _ => forall m, m ∈ probed -> Node.Latency m < 0
     end) /\
  (forall dial url,
     SelectFastestNode dial (mkSubscription url []) =
       (mkSubscription url [], Err (Errorf "no nodes available"))) /\
  (forall url n1 n2 n3,
     snd (SelectFastestNode (dialOf [after_ms 50; DialError; after_ms 10])
            (mkSubscription url [n1; n2; n3])) = Ok 2%nat) /\
  (forall url n1 n2 n3,
     snd (SelectFastestNode (dialOf [after_ms 10; DialError; after_ms 10])
            (mkSubscription url [n1; n2; n3])) = Ok 0%nat).
Proof.
  split_and!; try reflexivity.
  intros dial s Hdial probed. split; [apply SelectFastestNode_probes |].
  subst probed. unfold SelectFastestNode.
  destruct (Nodes s) as [| n0 rest] eqn:Hnodes.
  { simpl. intros m Hin. inversion Hin. }
  pose proof (selectLoop_scan dial (n0 :: rest) 0 maxInt None) as [_ Hscan].
  pose proof (probeAll_latency_bound dial (n0 :: rest) 0) as Hbound.
  destruct (selectLoop dial 0 (n0 :: rest) maxInt None) as [nodes' r].
  cbn [snd] in Hscan.
  destruct Hscan as [[-> Hall] | (k & n & -> & Hk & Hn & Hmin & Hfirst)].
  - cbn [snd]. intros m Hin.
    specialize (Hall m Hin). specialize (Hbound m Hdial Hin). lia.
  - cbn [snd]. exists n. split_and!; [exact Hk | lia | exact Hmin | exact Hfirst].
Qed.

(** Three nodes whose probes take 50 ms, fail, and take 10 ms: the node at
    index 2 is returned. *)
Lemma SelectFastestNode_first_minimum_witness :
  let dial := dialOf [after_ms 50; DialError; after_ms 10] in
  let probed := probeAll dial 0%nat [Node.zero; Node.zero; Node.zero] in
  (forall j, validDial (dial j)) /\
  exists n,
    probed !! 2%nat = Some n /\ 0 <= Node.Latency n /\
    (forall j m, probed !! j = Some m -> 0 <= Node.Latency m ->
                 Node.Latency n <= Node.Latency m) /\
    (forall j m, (j < 2)%nat -> probed !! j = Some m -> 0 <= Node.Latency m ->
                 Node.Latency n < Node.Latency m).
Proof.
  intros dial probed.
  assert (H : forall j, validDial (dial j)).
  { intros [| [| [| j]]]; simpl; unfold minInt64, maxInt64; try lia; exact I. }
  split; [exact H |].
  exact (proj2 (proj1 SelectFastestNode_first_minimum dial
                  (mkSubscription "feed" [Node.zero; Node.zero; Node.zero]) H)).
Defined.

(** ** The subscription parser *)

Section ParserFacts.

Variable E : Env.

Lemma parseLine_app nodes line :
  parseLine E nodes line = (nodes ++ parseLine E [] line)%list.
Proof.
  unfold parseLine.
  repeat match goal with
         | |- context [if ?b then _ else _] => destruct b
         | |- context [match ?r with Ok _ => _ | Err _ => _ end] => destruct r
         end; simpl; now rewrite ?app_nil_r.
Qed.

(** The link list keeps the order of the lines. *)
Lemma linkNodes_in_line_order content :
  linkNodes E content = flat_map (parseLine E []) (Split content LF).
Proof.
  unfold linkNodes.
  enough (H : forall lines acc,
             fold_left (parseLine E) lines acc =
             (acc ++ flat_map (parseLine E []) lines)%list) by apply (H _ []).
  induction lines as [| line lines IH]; intros acc; simpl.
  - now rewrite app_nil_r.
  - rewrite IH, (parseLine_app acc line), <- app_assoc. reflexivity.
Qed.

Lemma parseLinkList_nodes content :
  parseLinkList E content =
    match linkNodes E content with
    | [] => Err (Errorf "no valid nodes found in subscription")
    | nodes => Ok nodes
    end.
Proof. reflexivity. Qed.

Lemma yamlNode_checked proxy node :
  yamlNode proxy = Some node ->
  hasServerAndPort node /\
  Node.Server node = YAMLProxy.Server proxy /\
  Node.Port node = YAMLProxy.Port proxy /\
  Node.Type_ node = YAMLProxy.Type_ proxy.
Proof.
  unfold yamlNode, hasServerAndPort.
  destruct (String.eqb (YAMLProxy.Server proxy) "") eqn:Hserver; [discriminate |].
  destruct (Z.eqb (YAMLProxy.Port proxy) 0) eqn:Hport; [discriminate |].
  apply String.eqb_neq in Hserver. apply Z.eqb_neq in Hport.
  simpl. intros [= <-].
  repeat match goal with
         | |- context [if ?b then _ else _] => destruct b
         end; simpl; auto.
Qed.

(** C3, as the code has it.  Every node of a successful YAML
    interpretation has a non-empty server and a port other than zero, both
    taken from an entry of the document; the entries with an empty server or
    a zero port are dropped, and the result is not empty.  The port is not
    compared with 65535, and the link parsers check neither field. *)
Theorem parseYAMLSubscription_nodes_checked (content : string) (nodes : list Node) :
  parseYAMLSubscription E content = Ok nodes ->
  nodes <> [] /\
  Forall hasServerAndPort nodes /\
  exists proxies,
    yaml_Unmarshal E content = Some proxies /\
    nodes = omap yamlNode proxies /\
    map Node.Server nodes =
      map YAMLProxy.Server
        (filter (fun p => YAMLProxy.Server p <> "" /\ YAMLProxy.Port p <> 0) proxies).
Proof.
  unfold parseYAMLSubscription.
  destruct (yaml_Unmarshal E content) as [proxies |]; [| discriminate].
  destruct proxies as [| p ps]; [discriminate |].
  destruct (omap yamlNode (p :: ps)) as [| n ns] eqn:Hnodes; [discriminate |].
  intros [= <-]. split; [discriminate |]. rewrite <- Hnodes. clear Hnodes.
  split.
  - apply Forall_forall. intros node Hin.
    apply list_elem_of_omap in Hin as (proxy & _ & Hnode).
    now apply yamlNode_checked in Hnode.
  - exists (p :: ps). split; [reflexivity |]. split; [reflexivity |].
    generalize (p :: ps). clear. intros proxies.
    induction proxies as [| q qs IH]; [reflexivity |].
    rewrite filter_cons. cbn [omap list_omap].
    destruct (yamlNode q) as [node |] eqn:Hq.
    + destruct (yamlNode_checked _ _ Hq) as ([Hs Hp] & Hserver & Hport & _).
      rewrite Hserver, Hport in *.
      rewrite decide_True by auto. cbn [map]. rewrite Hserver. f_equal. exact IH.
    + unfold yamlNode in Hq.
      destruct (String.eqb (YAMLProxy.Server q) "") eqn:Hserver.
      * apply String.eqb_eq in Hserver.
        rewrite decide_False by tauto. exact IH.
      * destruct (Z.eqb (YAMLProxy.Port q) 0) eqn:Hport; [| discriminate].
        apply Z.eqb_eq in Hport.
        rewrite decide_False by tauto. exact IH.
Qed.

Lemma parseLine_lineNode line :
  parseLine E [] line =
    match lineNode E line with
    | Some node => [node]
    | None => []
    end.
Proof.
  unfold parseLine, lineNode, linkParser.
  destruct (String.eqb (TrimSpace line) ""); [reflexivity |].
  destruct (HasPrefix (TrimSpace line) "vmess://");
    [destruct (parseVMessURL E (TrimSpace line)); reflexivity |].
  destruct (HasPrefix (TrimSpace line) "vless://");
    [destruct (parseVLessURL (TrimSpace line)); reflexivity |].
  destruct (HasPrefix (TrimSpace line) "trojan://");
    [destruct (parseTrojanURL (TrimSpace line)); reflexivity |].
  destruct (HasPrefix (TrimSpace line) "ss://");
    [destruct (parseShadowsocksURL (TrimSpace line)); reflexivity |].
  reflexivity.
Qed.

(** The loop over the lines collects the nodes of the lines, in order. *)
Lemma linkNodes_lineNode content :
  linkNodes E content = omap (lineNode E) (Split content LF).
Proof.
  rewrite linkNodes_in_line_order.
  induction (Split content LF) as [| line lines IH]; [reflexivity |].
  cbn [flat_map omap list_omap]. rewrite IH, parseLine_lineNode.
  destruct (lineNode E line); reflexivity.
Qed.

Lemma parseLinkList_linkListResult content :
  parseLinkList E content = linkListResult E content.
Proof.
  rewrite parseLinkList_nodes. unfold linkListResult.
  now rewrite linkNodes_lineNode.
Qed.

(** The loop over the entries of a YAML document makes one node of each
    usable entry and none of the others. *)
Lemma yamlNode_usable proxies :
  Forall2 (fun p n => yamlNode p = Some n)
    (filter (fun p => YAMLProxy.Server p <> "" /\ YAMLProxy.Port p <> 0) proxies)
    (omap yamlNode proxies).
Proof.
  induction proxies as [| q qs IH]; [constructor |].
  rewrite filter_cons. cbn [omap list_omap].
  destruct (yamlNode q) as [node |] eqn:Hq.
  - destruct (yamlNode_checked _ _ Hq) as ([Hs Hp] & Hserver & Hport & _).
    rewrite Hserver, Hport in *.
    rewrite decide_True by auto. constructor; [exact Hq | exact IH].
  - unfold yamlNode in Hq.
    destruct (String.eqb (YAMLProxy.Server q) "") eqn:Hserver.
    + apply String.eqb_eq in Hserver.
      rewrite decide_False by tauto. exact IH.
    + destruct (Z.eqb (YAMLProxy.Port q) 0) eqn:Hport; [| discriminate].
      apply Z.eqb_eq in Hport.
      rewrite decide_False by tauto. exact IH.
Qed.

(** What the YAML interpretation gives [parseSubscription]: the nodes of the
    usable proxies when there are some. *)
Lemma parseYAMLSubscription_usable content :
  match parseYAMLSubscription E content with
  | Ok nodes =>
      nodes <> [] /\
      Forall2 (fun p n => yamlNode p = Some n) (usableProxies E content) nodes
  | Err _ => usableProxies E content = []
  end.
Proof.
  unfold parseYAMLSubscription, usableProxies.
  destruct (yaml_Unmarshal E content) as [proxies |]; [| reflexivity].
  pose proof (yamlNode_usable proxies) as H.
  destruct proxies as [| p ps]; [reflexivity |].
  destruct (omap yamlNode (p :: ps)) as [| n ns].
  - now inversion H.
  - split; [discriminate | exact H].
Qed.


End ParserFacts.


(** The YAML document of the examples: both entries are kept. *)
Lemma parseYAMLSubscription_nodes_checked_witness :
  parseYAMLSubscription sampleEnv sampleYAML = Ok sampleNodes /\
  Forall hasServerAndPort sampleNodes.
Proof.
  assert (H : parseYAMLSubscription sampleEnv sampleYAML = Ok sampleNodes)
    by (vm_compute; reflexivity).
  split; [exact H |].
  exact (proj1 (proj2 (parseYAMLSubscription_nodes_checked sampleEnv sampleYAML sampleNodes H))).
Defined.

(** The claim that every parsed node is well-formed fails on both
    interpretations: the link [vless://u@:0] gives a node with an empty
    server and the port 0, and the YAML document of the examples a node
    with the port 70000. *)
Lemma parse_yields_malformed_nodes :
  (exists n,
     parseSubscription sampleEnv "vless://u@:0" = Ok [n] /\
     Node.Server n = "" /\ Node.Port n = 0 /\ ~ wellFormed n) /\
  (exists n1 n2,
     parseSubscription sampleEnv sampleYAML = Ok [n1; n2] /\
     Node.Port n2 = 70000 /\ ~ wellFormed n2).
Proof.
  split.
  - eexists. split; [vm_compute; reflexivity |].
    split; [reflexivity |]. split; [reflexivity |].
    intros [Hserver _]. apply Hserver. reflexivity.
  - eexists. eexists. split; [vm_compute; reflexivity |].
    split; [reflexivity |].
    intros [_ [_ Hport]]. simpl in Hport. lia.
Qed.

(** ** Shadowsocks links *)

Lemma append_nil_l (s : string) : "" ++ s = s.
Proof. reflexivity. Qed.

Lemma append_cons (c : ascii) (a b : string) : String c a ++ b = String c (a ++ b).
Proof. reflexivity. Qed.

Lemma append_empty_r (s : string) : s ++ "" = s.
Proof.
  induction s as [| c s IH]; [reflexivity |].
  now rewrite append_cons, IH.
Qed.

Lemma append_assoc (a b c : string) : (a ++ b) ++ c = a ++ b ++ c.
Proof.
  induction a as [| x a IH]; [reflexivity |].
  now rewrite !append_cons, IH.
Qed.

Lemma hasByte_app c a b : hasByte c (a ++ b) = hasByte c a || hasByte c b.
Proof.
  induction a as [| x a IH]; [reflexivity |].
  rewrite append_cons. simpl. now rewrite IH, orb_assoc.
Qed.

Lemma Cut_absent c s : hasByte c s = false -> Cut c s = None.
Proof.
  induction s as [| x s IH]; simpl; [reflexivity |].
  intros H. apply orb_false_iff in H as [Hx Hs].
  now rewrite Hx, IH.
Qed.

Lemma Cut_app_absent c a b :
  hasByte c a = false ->
  Cut c (a ++ b) =
    match Cut c b with
    | Some (x, y) => Some (a ++ x, y)
    | None => None
    end.
Proof.
  induction a as [| x a IH].
  - intros _. rewrite append_nil_l. destruct (Cut c b) as [[u v] |]; reflexivity.
  - simpl. intros H. apply orb_false_iff in H as [Hx Ha].
    rewrite ?append_cons. simpl. rewrite Hx, IH by exact Ha.
    destruct (Cut c b) as [[u v] |]; reflexivity.
Qed.

(** The first occurrence of the separator is where [SplitN] cuts. *)
Lemma SplitN2_first c a b :
  hasByte c a = false -> SplitN2 (a ++ String c b) c = [a; b].
Proof.
  intros H. unfold SplitN2. rewrite Cut_app_absent by exact H.
  simpl. rewrite Ascii.eqb_refl. simpl. now rewrite append_empty_r.
Qed.

Lemma byte_other c a (P : ascii -> bool) :
  P c = false -> P a = true -> Ascii.eqb a c = false.
Proof.
  intros Hc Ha. destruct (Ascii.eqb a c) eqn:Heq; [| reflexivity].
  apply Ascii.eqb_eq in Heq. subst. congruence.
Qed.

Lemma decodeQuanta_bytes enc c :
  base64Byte enc c = false ->
  forall n s, (String.length s <= n)%nat ->
    decodeQuanta enc s <> None -> hasByte c s = false.
Proof.
  intros Hc. induction n as [| n IH]; intros s Hlen Hdec.
  - destruct s; [reflexivity | simpl in Hlen; lia].
  - destruct s as [| a [| b [| c' [| d r]]]]; try (simpl in Hdec; congruence).
    + reflexivity.
    + assert (Hin : forall y, base64Byte enc y = true -> Ascii.eqb y c = false)
        by (intros y; apply (byte_other c y (base64Byte enc) Hc)).
      assert (Hmap : forall y v, decodeMap enc y = Some v -> Ascii.eqb y c = false)
        by (intros y v Hy; apply Hin; unfold base64Byte; now rewrite Hy).
      assert (Hpad : forall y, isPad y = true -> Ascii.eqb y c = false)
        by (intros y Hy; apply Hin; unfold base64Byte; rewrite Hy;
            now destruct (decodeMap enc y)).
      assert (Hr : decodeQuanta enc r <> None -> hasByte c r = false).
      { apply IH. simpl in Hlen. lia. }
      cbn [decodeQuanta] in Hdec. cbn [hasByte].
      destruct (decodeMap enc a) as [va |] eqn:Ha; [| congruence].
      destruct (decodeMap enc b) as [vb |] eqn:Hb; [| congruence].
      rewrite (Hmap _ _ Ha), (Hmap _ _ Hb). cbn [orb].
      destruct (isPad c') eqn:Hc'.
      * destruct (isPad d) eqn:Hd; [| simpl in Hdec; congruence].
        destruct (String.eqb r "") eqn:Hnil; [| simpl in Hdec; congruence].
        apply String.eqb_eq in Hnil. subst r.
        rewrite (Hpad _ Hc'), (Hpad _ Hd). reflexivity.
      * destruct (decodeMap enc c') as [vc |] eqn:Hvc; [| congruence].
        rewrite (Hmap _ _ Hvc). cbn [orb].
        destruct (isPad d) eqn:Hd.
        -- destruct (String.eqb r "") eqn:Hnil; [| congruence].
           apply String.eqb_eq in Hnil. subst r.
           rewrite (Hpad _ Hd). reflexivity.
        -- destruct (decodeMap enc d) as [vd |] eqn:Hvd; [| congruence].
           rewrite (Hmap _ _ Hvd). cbn [orb].
           apply Hr. destruct (decodeQuanta enc r); congruence.
Qed.

Lemma hasByte_dropNewlines c s :
  byte_is c 10 = false -> byte_is c 13 = false ->
  hasByte c (dropNewlines s) = hasByte c s.
Proof.
  intros H10 H13. induction s as [| x s IH]; simpl; [reflexivity |].
  destruct (byte_is x 10 || byte_is x 13) eqn:Hx; simpl; rewrite IH.
  - assert (Ascii.eqb x c = false) as ->; [| reflexivity].
    apply (byte_other c x (fun y => byte_is y 10 || byte_is y 13)); [| exact Hx].
    now rewrite H10, H13.
  - reflexivity.
Qed.

(** A segment that decodes holds no byte from outside the encoding. *)
Lemma DecodeString_bytes enc c s :
  base64Byte enc c = false -> is_ok (DecodeString enc s) = true -> hasByte c s = false.
Proof.
  intros Hc Hok. unfold DecodeString in Hok.
  assert (H10 : byte_is c 10 = false /\ byte_is c 13 = false).
  { unfold base64Byte in Hc. destruct (decodeMap enc c); [discriminate |].
    apply orb_false_iff in Hc as [Hc H13]. apply orb_false_iff in Hc as [_ H10]. auto. }
  destruct H10 as [H10 H13].
  rewrite <- (hasByte_dropNewlines c s H10 H13).
  apply (decodeQuanta_bytes enc c Hc (String.length (dropNewlines s))); [lia |].
  destruct (decodeQuanta enc (dropNewlines s)); [discriminate | discriminate].
Qed.

Lemma decodeCredentials_order segment decoded :
  (DecodeString StdEncoding segment = Ok decoded \/
   (is_ok (DecodeString StdEncoding segment) = false /\
    DecodeString URLEncoding segment = Ok decoded)) ->
  decodeCredentials segment = Ok decoded.
Proof.
  unfold decodeCredentials. intros [-> | [Hstd ->]]; [reflexivity |].
  destruct (DecodeString StdEncoding segment); [discriminate | reflexivity].
Qed.

(** C7.  Take a link [ss://<segment>@<server>:<port>], with or without a
    [#<fragment>], whose credential segment decodes in the standard alphabet
    or, that failing, in the URL-safe one, to [method:password] with no colon
    in [method].  [parseShadowsocksURL] tries the standard alphabet first and
    the URL-safe alphabet next, cuts the decoded text at its first colon, and
    returns a node of type [ss] with that method and that password. *)
Theorem parseShadowsocksURL_decodes_credentials
    (segment server portText fragment decoded method password : string)
    (withFragment : bool) :
  (DecodeString StdEncoding segment = Ok decoded \/
   (is_ok (DecodeString StdEncoding segment) = false /\
    DecodeString URLEncoding segment = Ok decoded)) ->
  decoded = method ++ ":" ++ password ->
  hasByte ":" method = false ->
  hasByte ":" server = false ->
  hasByte "#" server = false ->
  hasByte "#" portText = false ->
  decodeCredentials segment = Ok decoded /\
  parseShadowsocksURL
    ("ss://" ++ segment ++ "@" ++ server ++ ":" ++ portText ++
     (if withFragment then "#" ++ fragment else "")) =
  Ok (Node.mk (if withFragment then QueryUnescape_ fragment else "") "ss"
        server (Sscanf_d portText 0) "" password "" method "" "" 0).
Proof.
  intros Hdecode -> Hmethod Hserver Hserver' Hport.
  pose proof (decodeCredentials_order _ _ Hdecode) as Hcred.
  split; [exact Hcred |].
  assert (Hsegment : hasByte "@" segment = false /\ hasByte "#" segment = false).
  { destruct Hdecode as [Hstd | [_ Hurl]].
    - split; apply (DecodeString_bytes StdEncoding); try reflexivity; now rewrite Hstd.
    - split; apply (DecodeString_bytes URLEncoding); try reflexivity; now rewrite Hurl. }
  destruct Hsegment as [Hat Hhash].
  unfold parseShadowsocksURL.
  assert (Hprefix : forall rest, TrimPrefix ("ss://" ++ rest) "ss://" = rest)
    by reflexivity.
  rewrite Hprefix. clear Hprefix.
  set (body := segment ++ "@" ++ server ++ ":" ++ portText).
  assert (Hbody : hasByte "#" body = false).
  { subst body. rewrite !hasByte_app, Hhash, Hserver', Hport. reflexivity. }
  assert (Hparts : SplitN2 body "@" = [segment; server ++ ":" ++ portText]).
  { subst body. apply (SplitN2_first "@" segment). exact Hat. }
  assert (Hhost : SplitN2 (server ++ ":" ++ portText) ":" = [server; portText]).
  { apply (SplitN2_first ":" server). exact Hserver. }
  assert (Hcolon : SplitN2 (method ++ ":" ++ password) ":" = [method; password]).
  { apply (SplitN2_first ":" method). exact Hmethod. }
  destruct withFragment.
  - replace (segment ++ "@" ++ server ++ ":" ++ portText ++ "#" ++ fragment)
      with (body ++ String "#" fragment).
    2: { subst body. rewrite !append_assoc. reflexivity. }
    rewrite (SplitN2_first "#" body fragment Hbody).
    rewrite Hparts, Hcred, Hcolon, Hhost. reflexivity.
  - rewrite append_empty_r. fold body.
    unfold SplitN2 at 1. rewrite (Cut_absent "#" body Hbody).
    rewrite Hparts, Hcred, Hcolon, Hhost. reflexivity.
Qed.

(** A link whose credential segment is [aes-256-gcm:p?~>a] in the URL-safe
    alphabet: the standard alphabet rejects its [-]. *)
Lemma parseShadowsocksURL_decodes_credentials_witness :
  is_ok (DecodeString StdEncoding "YWVzLTI1Ni1nY206cD9-PmE=") = false /\
  DecodeString URLEncoding "YWVzLTI1Ni1nY206cD9-PmE=" = Ok "aes-256-gcm:p?~>a" /\
  parseShadowsocksURL "ss://YWVzLTI1Ni1nY206cD9-PmE=@example.com:8388#my%20node" =
    Ok (Node.mk "my node" "ss" "example.com" 8388 "" "p?~>a" "" "aes-256-gcm" "" "" 0).
Proof.
  assert (Hstd : is_ok (DecodeString StdEncoding "YWVzLTI1Ni1nY206cD9-PmE=") = false)
    by (vm_compute; reflexivity).
  assert (Hurl : DecodeString URLEncoding "YWVzLTI1Ni1nY206cD9-PmE=" = Ok "aes-256-gcm:p?~>a")
    by (vm_compute; reflexivity).
  split; [exact Hstd |]. split; [exact Hurl |].
  exact (proj2 (parseShadowsocksURL_decodes_credentials
                  "YWVzLTI1Ni1nY206cD9-PmE=" "example.com" "8388" "my%20node"
                  "aes-256-gcm:p?~>a" "aes-256-gcm" "p?~>a" true
                  (or_intror (conj Hstd Hurl)) eq_refl eq_refl eq_refl eq_refl eq_refl)).
Defined.

(** ** The configuration generator *)

Section GeneratorFacts.

Variable E : Env.

Lemma dispatchConfig_supported x node :
  dispatchConfig x node <> None <-> supportedType (Node.Type_ node) = true.
Proof.
  unfold dispatchConfig, supportedType.
  destruct (String.eqb (Node.Type_ node) "vmess"),
           (String.eqb (Node.Type_ node) "vless"),
           (String.eqb (Node.Type_ node) "trojan"),
           (String.eqb (Node.Type_ node) "ss"); simpl; split; congruence.
Qed.

(** [GenerateConfig] writes at most the configuration file. *)
Lemma GenerateConfig_cases x node fs :
  (dispatchConfig x node = None /\
   GenerateConfig E x node fs = (fs, Some (ErrUnsupportedType (Node.Type_ node)))) \/
  (exists config,
     dispatchConfig x node = Some config /\
     json_MarshalIndent E config = None /\
     GenerateConfig E x node fs =
       (fs, Some (Wrapf "failed to marshal config" (ErrLib "json.MarshalIndent")))) \/
  (exists config data,
     dispatchConfig x node = Some config /\
     json_MarshalIndent E config = Some data /\
     os_WriteFile_fails E (configPath x) = true /\
     GenerateConfig E x node fs =
       (fs, Some (Wrapf "failed to write config" (ErrLib "os.WriteFile")))) \/
  (exists config data,
     dispatchConfig x node = Some config /\
     json_MarshalIndent E config = Some data /\
     os_WriteFile_fails E (configPath x) = false /\
     GenerateConfig E x node fs = (<[configPath x := data]> fs, None)).
Proof.
  unfold GenerateConfig.
  destruct (dispatchConfig x node) as [config |]; [| left; auto].
  right. destruct (json_MarshalIndent E config) as [data |] eqn:Hdata.
  - right. destruct (os_WriteFile_fails E (configPath x)) eqn:Hwrite.
    + left. exists config, data. auto.
    + right. exists config, data. auto.
  - left. exists config. auto.
Qed.

(** C8.  For a node of type [trojan], [GenerateConfig] marshals the
    document of [generateTrojanConfig] and writes it to the configuration
    file, returning [failed to write config] and leaving the files alone
    when that write fails.  In that document the TLS settings of the proxy outbound have
    [serverName] equal to the SNI of the node when it is not empty and to its
    server otherwise, [alpn] equal to [h2, http/1.1],
    [enableSessionResumption] true and [allowInsecure] false. *)
Theorem generateTrojanConfig_tls (x : XrayManager) (node : Node) (fs : gmap string string) :
  Node.Type_ node = "trojan" ->
  let config := generateTrojanConfig x node in
  dispatchConfig x node = Some config /\
  (forall data, json_MarshalIndent E config = Some data ->
     GenerateConfig E x node fs =
       if os_WriteFile_fails E (configPath x)
       then (fs, Some (Wrapf "failed to write config" (ErrLib "os.WriteFile")))
       else (<[configPath x := data]> fs, None)) /\
  exists tls,
    tlsSettings config = Some tls /\
    field "serverName" tls =
      Some (JString (if String.eqb (Node.SNI node) "" then Node.Server node
                     else Node.SNI node)) /\
    field "alpn" tls = Some (JStrings ["h2"; "http/1.1"]) /\
    field "enableSessionResumption" tls = Some (JBool true) /\
    field "allowInsecure" tls = Some (JBool false).
Proof.
  intros Htype config.
  assert (Hdispatch : dispatchConfig x node = Some config).
  { unfold dispatchConfig. rewrite Htype. reflexivity. }
  split; [exact Hdispatch |]. split.
  - intros data Hdata. unfold GenerateConfig. rewrite Hdispatch, Hdata. reflexivity.
  - eexists. split; [reflexivity |]. repeat split.
Qed.

(** C10.  When the type of the node is none of the four types
    [GenerateConfig] has a case for, it returns the error
    [unsupported node type] and the files are what they were.  Whenever a
    call changes the files, the type was dispatched, its document was
    marshalled, and the only change is the configuration file holding the
    marshalled bytes. *)
Theorem GenerateConfig_unsupported_no_write (x : XrayManager) (node : Node)
    (fs : gmap string string) :
  (supportedType (Node.Type_ node) = false ->
     GenerateConfig E x node fs = (fs, Some (ErrUnsupportedType (Node.Type_ node)))) /\
  (fst (GenerateConfig E x node fs) <> fs ->
     exists config data,
       dispatchConfig x node = Some config /\
       json_MarshalIndent E config = Some data /\
       GenerateConfig E x node fs = (<[configPath x := data]> fs, None)).
Proof.
  split.
  - intros Htype.
    destruct (GenerateConfig_cases x node fs)
      as [[_ H] | [(config & Hd & _) | [(config & data & Hd & _) |
                                        (config & data & Hd & _)]]];
      [exact H | | |];
      assert (Hs : dispatchConfig x node <> None) by congruence;
      apply dispatchConfig_supported in Hs; congruence.
  - intros Hchanged.
    destruct (GenerateConfig_cases x node fs)
      as [[_ H] | [(config & _ & _ & H) | [(config & data & _ & _ & _ & H) |
                                           (config & data & Hd & Hm & _ & H)]]].
    + rewrite H in Hchanged. now contradiction Hchanged.
    + rewrite H in Hchanged. now contradiction Hchanged.
    + rewrite H in Hchanged. now contradiction Hchanged.
    + exists config, data. auto.
Qed.

(** C5, where the code departs from it.  A node the YAML parser makes of
    an entry of type [shadowsocks] keeps that type, for which
    [GenerateConfig] has no case: it returns the error
    [unsupported node type: shadowsocks] and writes nothing. *)
Theorem GenerateConfig_rejects_yaml_shadowsocks (x : XrayManager) (proxy : YAMLProxy)
    (node : Node) (fs : gmap string string) :
  yamlNode proxy = Some node ->
  YAMLProxy.Type_ proxy = "shadowsocks" ->
  Node.Security node = YAMLProxy.Cipher proxy /\
  Node.Password node = YAMLProxy.Password proxy /\
  GenerateConfig E x node fs = (fs, Some (ErrUnsupportedType "shadowsocks")).
Proof.
  intros Hnode Htype.
  destruct (yamlNode_checked _ _ Hnode) as (_ & _ & _ & Hkind).
  rewrite Htype in Hkind.
  assert (Hfields : Node.Security node = YAMLProxy.Cipher proxy /\
                    Node.Password node = YAMLProxy.Password proxy).
  { unfold yamlNode in Hnode. rewrite Htype in Hnode.
    destruct (String.eqb (YAMLProxy.Server proxy) "" || Z.eqb (YAMLProxy.Port proxy) 0);
      [discriminate |].
    simpl in Hnode. injection Hnode as <-. split; reflexivity. }
  destruct Hfields as [Hsec Hpw]. split; [exact Hsec |]. split; [exact Hpw |].
  unfold GenerateConfig, dispatchConfig. rewrite Hkind. reflexivity.
Qed.

End GeneratorFacts.

(** A trojan node without SNI, on a manager installed under [/opt/crosh]. *)
Lemma generateTrojanConfig_tls_witness :
  let node := Node.mk "t" "trojan" "t.example.com" 443 "" "pw" "" "" "" "" 0 in
  let x := NewXrayManager "/opt/crosh/xray" 1080 in
  Node.Type_ node = "trojan" /\
  exists tls,
    tlsSettings (generateTrojanConfig x node) = Some tls /\
    field "serverName" tls = Some (JString "t.example.com") /\
    field "alpn" tls = Some (JStrings ["h2"; "http/1.1"]) /\
    field "enableSessionResumption" tls = Some (JBool true) /\
    field "allowInsecure" tls = Some (JBool false).
Proof.
  intros node x. split; [reflexivity |].
  exact (proj2 (proj2 (generateTrojanConfig_tls sampleEnv x node ∅ eq_refl))).
Defined.

(** A node of a type the generator does not know. *)
Lemma GenerateConfig_unsupported_no_write_witness :
  let node := Node.mk "h" "hysteria2" "h.example.com" 443 "" "pw" "" "" "" "" 0 in
  let x := NewXrayManager "/opt/crosh/xray" 1080 in
  supportedType (Node.Type_ node) = false /\
  GenerateConfig sampleEnv x node {[ "/opt/crosh/config.json" := "old" ]} =
    ({[ "/opt/crosh/config.json" := "old" ]}, Some (ErrUnsupportedType "hysteria2")).
Proof.
  intros node x. split; [reflexivity |].
  exact (proj1 (GenerateConfig_unsupported_no_write sampleEnv x node
                  {[ "/opt/crosh/config.json" := "old" ]}) eq_refl).
Defined.

(** The first entry of the YAML document of the examples. *)
Lemma GenerateConfig_rejects_yaml_shadowsocks_witness :
  exists proxy node,
    sampleProxies !! 0%nat = Some proxy /\
    yamlNode proxy = Some node /\
    YAMLProxy.Type_ proxy = "shadowsocks" /\
    GenerateConfig sampleEnv (NewXrayManager "/opt/crosh/xray" 1080) node ∅ =
      (∅, Some (ErrUnsupportedType "shadowsocks")).
Proof.
  eexists. eexists. split; [reflexivity |].
  assert (Hnode : yamlNode
            (YAMLProxy.mk "hk" "hk.example.com" 8388 "shadowsocks" "pw" ""
               "aes-256-gcm" "" "" false false) =
          Some (Node.mk "hk" "shadowsocks" "hk.example.com" 8388 "" "pw" ""
                  "aes-256-gcm" "" "" 0)) by reflexivity.
  split; [exact Hnode |]. split; [reflexivity |].
  exact (proj2 (proj2 (GenerateConfig_rejects_yaml_shadowsocks sampleEnv
                         (NewXrayManager "/opt/crosh/xray" 1080) _ _ ∅ Hnode eq_refl))).
Defined.

(** ** Acquiring the binary *)

(** A source that fails before one that succeeds leaves its error in
    [lastErr] when the loop is left. *)
Lemma downloadLoop_keeps_first_error (E : Env) (x : XrayManager)
    (version assetName : string) (s1 s2 : XraySource) (rest : list XraySource)
    (fs fs1 fs2 : gmap string string) (e : error) :
  downloadFromURL E x (DownloadURL s1 ++ "/" ++ version ++ "/" ++ assetName) fs
    = (fs1, Some e) ->
  downloadFromURL E x (DownloadURL s2 ++ "/" ++ version ++ "/" ++ assetName) fs1
    = (fs2, None) ->
  downloadLoop E x version assetName (s1 :: s2 :: rest) fs None = (fs2, Some e).
Proof.
  intros H1 H2. cbn [downloadLoop]. rewrite H1, H2. reflexivity.
Qed.

(** In any environment: when the binary is absent, its directory can be
    created, the first source fails and the second one succeeds, [Download]
    returns the error of the first source, wrapped, with the files the second
    download left. *)
Lemma Download_error_after_fallback (E : Env) (x : XrayManager)
    (fs fs1 fs2 : gmap string string) (e : error) :
  fs !! xrayPath x = None ->
  os_MkdirAll_fails E (Dir (xrayPath x)) = false ->
  downloadFromURL E x
    ("https://crosh.boomyao.com/xray" ++ "/" ++ fst (releaseChoice E) ++ "/" ++
     snd (releaseChoice E)) fs = (fs1, Some e) ->
  downloadFromURL E x
    ("https://github.com/XTLS/Xray-core/releases/download" ++ "/" ++
     fst (releaseChoice E) ++ "/" ++ snd (releaseChoice E)) fs1 = (fs2, None) ->
  Download E x fs = (fs2, Some (Wrapf "failed to download from all sources" e)).
Proof.
  intros Habsent Hmkdir H1 H2. unfold Download. rewrite Habsent, Hmkdir.
  unfold releaseChoice in H1, H2.
  destruct (getLatestReleaseInfo E) as [[version assetName] [e0 |]];
    cbn [fst snd] in H1, H2;
    unfold xraySources;
    (erewrite downloadLoop_keeps_first_error; [reflexivity | exact H1 | exact H2]).
Qed.

(** C2, where the code departs from it.  In the environment of the
    examples the mirror answers 404 for the archive and the upstream site
    serves it.  [Download] installs the binary from the second source, leaves
    no temporary file, and still returns the error
    [failed to download from all sources], wrapping the 404 of the first
    source; the data files are not fetched. *)
Theorem Download_reports_error_after_fallback :
  let x := NewXrayManager "/opt/crosh/xray" 1080 in
  downloadFromURL sampleEnv x
    "https://crosh.boomyao.com/xray/v1.8.4/Xray-linux-64.zip" ∅
    = (∅, Some (ErrStatus "HTTP" 404)) /\
  downloadFromURL sampleEnv x
    "https://github.com/XTLS/Xray-core/releases/download/v1.8.4/Xray-linux-64.zip" ∅
    = ({[ "/opt/crosh/xray" := "ELF" ]}, None) /\
  Download sampleEnv x ∅ =
    ({[ "/opt/crosh/xray" := "ELF" ]},
     Some (Wrapf "failed to download from all sources" (ErrStatus "HTTP" 404))).
Proof.
  intros x. split_and!; vm_compute; reflexivity.
Qed.

(** ** Stopping the engine *)

Lemma Kill_outcome pid ps :
  ((pid ∈ ps) /\ Kill pid ps = (ps ∖ {[pid]}, None)) \/
  ((pid ∉ ps) /\ Kill pid ps = (ps, Some (ErrLib "os: process already finished"))).
Proof.
  unfold Kill. destruct (decide (pid ∈ ps)); [left | right]; auto.
Qed.

(** C6, as the code has it.  Whenever [Stop] returns no error, the files
    after the call are the files before it without the PID file.  Without a
    process handle in memory [Stop] returns no error, whether or not the
    PID file exists and whether or not the process it names can still be
    killed: a failure to kill it is dropped.  With a handle, [Stop] returns
    no error when the process is killed, and the handle is then forgotten;
    when the process cannot be killed it returns the error
    [failed to stop Xray-core]. *)
Theorem Stop_removes_pid_file (x : XrayManager) (os : OS) :
  (forall x' os', Stop x os = (x', os', None) ->
     files os' = delete (pidFile x) (files os) /\
     files os' !! pidFile x = None) /\
  (processHandle x = None ->
     exists ps, Stop x os = (x, mkOS (delete (pidFile x) (files os)) ps, None)) /\
  (forall pid, processHandle x = Some pid -> pid ∈ procs os ->
     exists x', Stop x os =
                  (x', mkOS (delete (pidFile x) (files os)) (procs os ∖ {[pid]}), None) /\
                cmd x' = None) /\
  (forall pid, processHandle x = Some pid -> pid ∉ procs os ->
     snd (Stop x os) =
       Some (Wrapf "failed to stop Xray-core" (ErrLib "os: process already finished"))).
Proof.
  unfold Stop. split_and!.
  - intros x' os'. destruct (processHandle x) as [pid |].
    + destruct (Kill_outcome pid (procs os)) as [[_ ->] | [_ ->]]; [| discriminate].
      intros [= <- <-]. simpl. split; [reflexivity | apply lookup_delete_eq].
    + intros [= <- <-]. simpl. split; [reflexivity | apply lookup_delete_eq].
  - intros ->. eexists. reflexivity.
  - intros pid -> Hin.
    destruct (Kill_outcome pid (procs os)) as [[_ ->] | [Hout _]]; [| contradiction].
    eexists. split; reflexivity.
  - intros pid -> Hout.
    destruct (Kill_outcome pid (procs os)) as [[Hin _] | [_ ->]]; [contradiction |].
    reflexivity.
Qed.

(** A later session: no handle, a PID file naming a process that is gone. *)
Lemma Stop_removes_pid_file_witness :
  let x := NewXrayManager "/opt/crosh/xray" 1080 in
  let os := mkOS {[ "/opt/crosh/xray.pid" := "4242" ]} ∅ in
  processHandle x = None /\
  files os !! pidFile x = Some "4242" /\
  exists ps, Stop x os = (x, mkOS (delete (pidFile x) (files os)) ps, None).
Proof.
  intros x os. split; [reflexivity |]. split; [vm_compute; reflexivity |].
  exact (proj1 (proj2 (Stop_removes_pid_file x os)) eq_refl).
Defined.

(** The claim that [Stop] always removes the PID file and tolerates a
    failure to terminate fails when the manager holds a handle on a process
    that is gone: [Stop] returns an error and the PID file stays. *)
Lemma Stop_with_handle_reports_kill_failure :
  let x := mkXrayManager "/opt/crosh/xray" "/opt/crosh/config.json"
             (Some (mkCmd (Some 4242))) 1080 in
  let os := mkOS {[ "/opt/crosh/xray.pid" := "4242" ]} ∅ in
  Stop x os =
    (x, os, Some (Wrapf "failed to stop Xray-core" (ErrLib "os: process already finished"))) /\
  files os !! pidFile x = Some "4242".
Proof.
  intros x os. split; vm_compute; reflexivity.
Qed.

(** * Further properties *)

(** ** The PID written and read back *)

Lemma parseDigits_uint_acc (d : Decimal.uint) : forall acc : positive,
  parseDigits (Z.pos acc) (NilEmpty.string_of_uint d) = Some (Z.pos (Pos.of_uint_acc d acc)).
Proof.
  induction d as [| d IH | d IH | d IH | d IH | d IH | d IH | d IH | d IH | d IH | d IH];
    intros acc; cbn [NilEmpty.string_of_uint Pos.of_uint_acc parseDigits];
    try reflexivity;
    (match goal with
     | |- context [if isDigit ?c then _ else _] =>
         change (isDigit c) with true; cbv iota
     end);
    (match goal with
     | |- parseDigits ?v _ = Some (Z.pos (Pos.of_uint_acc _ ?a)) =>
         replace v with (Z.pos a) by (unfold digitVal; simpl; lia)
     end);
    apply IH.
Qed.

Lemma parseDigits_uint (d : Decimal.uint) :
  parseDigits 0 (NilEmpty.string_of_uint d) = Some (Z.of_N (Pos.of_uint d)).
Proof.
  induction d as [| d IH | d IH | d IH | d IH | d IH | d IH | d IH | d IH | d IH | d IH];
    cbn [NilEmpty.string_of_uint Pos.of_uint parseDigits];
    try reflexivity;
    (match goal with
     | |- context [if isDigit ?c then _ else _] =>
         change (isDigit c) with true; cbv iota
     end).
  - exact IH.
  - apply (parseDigits_uint_acc d 1).
  - apply (parseDigits_uint_acc d 2).
  - apply (parseDigits_uint_acc d 3).
  - apply (parseDigits_uint_acc d 4).
  - apply (parseDigits_uint_acc d 5).
  - apply (parseDigits_uint_acc d 6).
  - apply (parseDigits_uint_acc d 7).
  - apply (parseDigits_uint_acc d 8).
  - apply (parseDigits_uint_acc d 9).
Qed.

Lemma scanNumber_uint (d : Decimal.uint) :
  scanNumber (NilEmpty.string_of_uint d) = (NilEmpty.string_of_uint d, "").
Proof.
  induction d as [| d IH | d IH | d IH | d IH | d IH | d IH | d IH | d IH | d IH | d IH];
    cbn [NilEmpty.string_of_uint scanNumber]; try reflexivity;
    (match goal with
     | |- context [if isDigit ?c || byte_is ?c 95 then _ else _] =>
         change (isDigit c || byte_is c 95) with true; cbv iota
     end);
    rewrite IH; reflexivity.
Qed.

Lemma digit_is_plain c :
  isDigit c = true ->
  byte_is c 45 = false /\ byte_is c 43 = false /\
  forall r, SkipSpace (String c r) = Some (String c r).
Proof.
  unfold isDigit. intros H.
  apply andb_true_iff in H as [Hlo Hhi].
  apply N.leb_le in Hlo. apply N.leb_le in Hhi.
  assert (Hne : forall n, (n < 48 \/ 57 < n)%N -> byte_is c n = false).
  { intros n Hn. unfold byte_is. apply N.eqb_neq. lia. }
  assert (Hsp : asciiSpace c = false).
  { unfold asciiSpace. apply orb_false_iff. split.
    - apply andb_false_iff. right. apply N.leb_gt. lia.
    - apply N.eqb_neq. lia. }
  split_and!; try (apply Hne; lia).
  intros r. cbn [SkipSpace]. rewrite (Hne 10%N), Hsp by lia.
  unfold spaceRune2, spaceRune3.
  rewrite (Hne 194%N), (Hne 225%N), (Hne 226%N), (Hne 227%N) by lia.
  destruct r as [| c1 [| c2 r2]]; reflexivity.
Qed.

Lemma uint_starts_with_digit (d : Decimal.uint) :
  d <> Decimal.Nil ->
  exists c r, NilEmpty.string_of_uint d = String c r /\ isDigit c = true.
Proof.
  intros Hd. destruct d; try congruence; eexists; eexists; split; reflexivity.
Qed.

(** A decimal numeral that is not empty starts with neither a space nor a
    sign, and is read to its end. *)
Lemma scanInt_uint (d : Decimal.uint) :
  d <> Decimal.Nil ->
  scanInt (NilEmpty.string_of_uint d) =
    (let z := Z.of_N (Pos.of_uint d) in
     if Z.leb minInt64 z && Z.leb z maxInt64 then Some z else None).
Proof.
  intros Hd. unfold scanInt.
  destruct (uint_starts_with_digit d Hd) as (c & r & Hstr & Hc).
  destruct (digit_is_plain c Hc) as (H45 & H43 & Hskip).
  pose proof (scanNumber_uint d) as Hscan.
  pose proof (parseDigits_uint d) as Hparse.
  rewrite Hstr in *. rewrite Hskip, H45, H43, Hscan, Hparse.
  reflexivity.
Qed.

Lemma to_uint_not_nil (p : positive) : Pos.to_uint p <> Decimal.Nil.
Proof.
  intros H. pose proof (DecimalPos.Unsigned.of_to p) as Hp.
  rewrite H in Hp. discriminate.
Qed.

Lemma Sscanf_d_Sprintf_d (v w0 : Z) :
  minInt64 <= v <= maxInt64 -> Sscanf_d (Sprintf_d v) w0 = v.
Proof.
  intros [Hlo Hhi]. unfold Sscanf_d, Sprintf_d.
  destruct v as [| p | p].
  - reflexivity.
  - cbn [Z.to_int NilEmpty.string_of_int].
    rewrite (scanInt_uint _ (to_uint_not_nil p)), DecimalPos.Unsigned.of_to.
    cbn zeta. cbn [Z.of_N].
    destruct (Z.leb_spec minInt64 (Z.pos p)); [| lia].
    destruct (Z.leb_spec (Z.pos p) maxInt64); [| lia]. reflexivity.
  - cbn [Z.to_int NilEmpty.string_of_int]. unfold scanInt.
    assert (Hskip : forall r, SkipSpace (String "-" r) = Some (String "-" r))
      by (intros [| c1 [| c2 r2]]; reflexivity).
    rewrite Hskip.
    assert (Hminus : byte_is "-" 45 = true) by reflexivity.
    rewrite Hminus. cbv beta iota zeta.
    destruct (uint_starts_with_digit _ (to_uint_not_nil p)) as (c & r & Hstr & Hc).
    pose proof (scanNumber_uint (Pos.to_uint p)) as Hscan.
    pose proof (parseDigits_uint (Pos.to_uint p)) as Hparse.
    rewrite DecimalPos.Unsigned.of_to in Hparse.
    rewrite Hstr in *. rewrite Hscan, Hparse. cbn [Z.of_N].
    change (- Z.pos p) with (Z.neg p).
    destruct (Z.leb_spec minInt64 (Z.neg p)); [| lia].
    destruct (Z.leb_spec (Z.neg p) maxInt64); [| lia]. reflexivity.
Qed.

(** X1.  What [fmt.Sprintf("%d", v)] writes, [fmt.Sscanf(s, "%d", &w)] reads
    back: for every [v] of the range of [int], the variable scanned from the
    decimal text of [v] holds [v], whatever it held before. *)
Theorem Sscanf_reads_Sprintf (v w0 : Z) :
  minInt64 <= v <= maxInt64 -> Sscanf_d (Sprintf_d v) w0 = v.
Proof. apply Sscanf_d_Sprintf_d. Qed.

Lemma Sscanf_reads_Sprintf_witness :
  minInt64 <= 4242 <= maxInt64 /\ Sscanf_d (Sprintf_d 4242) 0 = 4242.
Proof.
  assert (H : minInt64 <= 4242 <= maxInt64) by (unfold minInt64, maxInt64; lia).
  split; [exact H | exact (Sscanf_reads_Sprintf 4242 0 H)].
Defined.

(** ** Starting and stopping across invocations *)

Lemma pidFile_same_binary x y : xrayPath x = xrayPath y -> pidFile x = pidFile y.
Proof. unfold pidFile. now intros ->. Qed.

(** X2.  A start that succeeds leaves a PID file that a later invocation
    can act on.  After [Start] has spawned the process [pid], the PID file
    holds the decimal text of [pid]; a manager created afresh for the same
    binary, which has no handle in memory, asks the liveness probe about
    [pid] in [IsRunning], and its [Stop] kills [pid], removes the PID file and
    returns no error. *)
Theorem Start_then_later_Stop (signals : Z -> bool) (x x' : XrayManager)
    (os os' : OS) (pid port : Z) :
  Start signals (Some pid) x os = (x', os', None) ->
  0 < pid <= maxInt64 ->
  let later := NewXrayManager (xrayPath x) port in
  files os' !! pidFile x = Some (Sprintf_d pid) /\
  processHandle x' = Some pid /\
  IsRunning signals later os' = signals pid /\
  Stop later os' =
    (later, mkOS (delete (pidFile x) (files os')) (procs os' ∖ {[pid]}), None).
Proof.
  intros Hstart Hpid later. unfold Start in Hstart.
  destruct (files os !! xrayPath x); [| discriminate].
  destruct (IsRunning signals x os); [discriminate |].
  injection Hstart as <- <-.
  assert (Hfile : pidFile later = pidFile x) by (apply pidFile_same_binary; reflexivity).
  assert (Hscan : forall w0, Sscanf_d (Sprintf_d pid) w0 = pid).
  { intros w0. apply Sscanf_d_Sprintf_d. unfold minInt64. lia. }
  split_and!.
  - cbn [files]. apply lookup_insert_eq.
  - reflexivity.
  - unfold IsRunning. cbn [processHandle later NewXrayManager cmd files].
    rewrite Hfile, lookup_insert_eq, Hscan. reflexivity.
  - unfold Stop. cbn [processHandle later NewXrayManager cmd files procs].
    rewrite Hfile, lookup_insert_eq, Hscan.
    destruct (Z.ltb_spec 0 pid); [| lia].
    unfold Kill. rewrite decide_True by (apply elem_of_union_l, elem_of_singleton; reflexivity).
    reflexivity.
Qed.

Lemma Start_then_later_Stop_witness :
  let x := NewXrayManager "/opt/crosh/xray" 1080 in
  let os := mkOS {[ "/opt/crosh/xray" := "ELF" ]} ∅ in
  exists x' os',
    Start (fun _ => false) (Some 4242) x os = (x', os', None) /\
    0 < 4242 <= maxInt64 /\
    Stop (NewXrayManager "/opt/crosh/xray" 1080) os' =
      (NewXrayManager "/opt/crosh/xray" 1080,
       mkOS (delete (pidFile x) (files os')) (procs os' ∖ {[4242]}), None).
Proof.
  intros x os. eexists. eexists.
  assert (Hpid : 0 < 4242 <= maxInt64) by (unfold maxInt64; lia).
  assert (Hstart : Start (fun _ => false) (Some 4242) x os =
            (mkXrayManager "/opt/crosh/xray" "/opt/crosh/config.json"
               (Some (mkCmd (Some 4242))) 1080,
             mkOS (<[pidFile x := Sprintf_d 4242]>
                     (<[logFile x := ""]> {[ "/opt/crosh/xray" := "ELF" ]}))
                  ({[4242]} ∪ ∅),
             None)) by reflexivity.
  split; [exact Hstart |]. split; [exact Hpid |].
  exact (proj2 (proj2 (proj2
           (Start_then_later_Stop (fun _ => false) x _ os _ 4242 1080 Hstart Hpid)))).
Defined.

(** X3.  [Start] changes nothing when it refuses to start: when the binary
    is not there, or when [IsRunning] reports an instance, it returns an error
    and the manager, the files and the processes are what they were,
    whatever the spawn would have given. *)
Theorem Start_refusal_changes_nothing (signals : Z -> bool) (spawned : option Z)
    (x : XrayManager) (os : OS) :
  files os !! xrayPath x = None \/ IsRunning signals x os = true ->
  exists e, Start signals spawned x os = (x, os, Some e) /\
            (files os !! xrayPath x = None ->
             e = Errorf "xray-core not found, please run download first").
Proof.
  unfold Start. intros [Habsent | Hrunning].
  - rewrite Habsent. eexists. split; reflexivity.
  - destruct (files os !! xrayPath x) eqn:Hbin.
    + rewrite Hrunning. eexists. split; [reflexivity | discriminate].
    + eexists. split; reflexivity.
Qed.

Lemma Start_refusal_changes_nothing_witness :
  let x := NewXrayManager "/opt/crosh/xray" 1080 in
  let os := mkOS ∅ ∅ in
  files os !! xrayPath x = None /\
  exists e, Start (fun _ => true) (Some 7) x os = (x, os, Some e) /\
            (files os !! xrayPath x = None ->
             e = Errorf "xray-core not found, please run download first").
Proof.
  intros x os. split; [reflexivity |].
  exact (Start_refusal_changes_nothing (fun _ => true) (Some 7) x os (or_introl eq_refl)).
Defined.

(** X4.  [Stop] is idempotent: after a [Stop] that returned no error, a
    second [Stop] returns no error and changes neither the manager, nor the
    files, nor the processes. *)
Theorem Stop_twice (x x' : XrayManager) (os os' : OS) :
  Stop x os = (x', os', None) -> Stop x' os' = (x', os', None).
Proof.
  unfold Stop. destruct (processHandle x) as [pid |] eqn:Hhandle.
  - destruct (Kill_outcome pid (procs os)) as [[_ ->] | [_ ->]]; [| discriminate].
    intros [= <- <-]. cbn [processHandle cmd files procs].
    unfold pidFile. cbn [xrayPath]. rewrite lookup_delete_eq, delete_delete_eq.
    reflexivity.
  - intros [= <- <-]. rewrite Hhandle. cbn [files procs].
    rewrite lookup_delete_eq, delete_delete_eq. reflexivity.
Qed.

Lemma Stop_twice_witness :
  let x := NewXrayManager "/opt/crosh/xray" 1080 in
  let os := mkOS {[ "/opt/crosh/xray.pid" := "4242" ]} {[ 4242 ]} in
  Stop x os = (x, mkOS ∅ ∅, None) /\ Stop x (mkOS ∅ ∅) = (x, mkOS ∅ ∅, None).
Proof.
  intros x os.
  assert (H : Stop x os = (x, mkOS ∅ ∅, None)) by (vm_compute; reflexivity).
  split; [exact H | exact (Stop_twice x x os (mkOS ∅ ∅) H)].
Defined.

(** X5.  [Stop] kills at most one process, the one it was pointed at: a
    process that is gone after the call was designated by the handle in
    memory or, without a handle, by a positive number read from the PID
    file.  With no handle and no PID file, or a PID file that holds no
    positive number, no process is touched. *)
Theorem Stop_kills_only_the_designated (x : XrayManager) (os : OS) (q : Z) :
  q ∈ procs os -> q ∉ procs (snd (fst (Stop x os))) ->
  processHandle x = Some q \/
  (processHandle x = None /\
   exists data, files os !! pidFile x = Some data /\ Sscanf_d data 0 = q /\ 0 < q).
Proof.
  unfold Stop. intros Hin Hout.
  destruct (processHandle x) as [pid |].
  - left. destruct (Kill_outcome pid (procs os)) as [[_ Hk] | [_ Hk]];
      rewrite Hk in Hout; cbn [fst snd procs] in Hout.
    + destruct (decide (q = pid)) as [-> | Hne]; [reflexivity |].
      exfalso. apply Hout. apply elem_of_difference. split; [exact Hin |].
      rewrite elem_of_singleton. exact Hne.
    + contradiction.
  - right. split; [reflexivity |]. cbn [fst snd procs] in Hout.
    destruct (files os !! pidFile x) as [data |]; [| contradiction].
    exists data. split; [reflexivity |].
    destruct (Z.ltb_spec 0 (Sscanf_d data 0)) as [Hpos | Hneg]; [| contradiction].
    destruct (Kill_outcome (Sscanf_d data 0) (procs os)) as [[_ Hk] | [_ Hk]];
      rewrite Hk in Hout; cbn [fst] in Hout.
    + destruct (decide (q = Sscanf_d data 0)) as [-> | Hne]; [auto |].
      exfalso. apply Hout. apply elem_of_difference. split; [exact Hin |].
      rewrite elem_of_singleton. exact Hne.
    + contradiction.
Qed.

Lemma Stop_kills_only_the_designated_witness :
  let x := NewXrayManager "/opt/crosh/xray" 1080 in
  let os := mkOS {[ "/opt/crosh/xray.pid" := "4242" ]} {[ 4242; 17 ]} in
  (4242 ∈ procs os) /\ (4242 ∉ procs (snd (fst (Stop x os)))) /\
  (processHandle x = Some 4242 \/
   (processHandle x = None /\
    exists data, files os !! pidFile x = Some data /\ Sscanf_d data 0 = 4242 /\ 0 < 4242)).
Proof.
  intros x os.
  assert (Hin : 4242 ∈ procs os)
    by (apply (bool_decide_unpack _); vm_compute; exact I).
  assert (Hout : 4242 ∉ procs (snd (fst (Stop x os))))
    by (apply (bool_decide_unpack _); vm_compute; exact I).
  split; [exact Hin |]. split; [exact Hout |].
  exact (Stop_kills_only_the_designated x os 4242 Hin Hout).
Defined.

(** ** More on the link parsers *)

Lemma Cut_parts sep s a b : Cut sep s = Some (a, b) -> s = a ++ String sep b.
Proof.
  revert a b. induction s as [| c s IH]; intros a b; simpl; [discriminate |].
  destruct (Ascii.eqb c sep) eqn:Hc.
  - apply Ascii.eqb_eq in Hc. subst c. intros [= <- <-]. reflexivity.
  - destruct (Cut sep s) as [[u v] |]; [| discriminate].
    intros [= <- <-]. rewrite append_cons, (IH u v eq_refl). reflexivity.
Qed.

(** A piece cut off a text holds no byte the text does not hold. *)
Lemma Cut_absent_left c sep s a b :
  hasByte c s = false -> Cut sep s = Some (a, b) -> hasByte c a = false.
Proof.
  intros Hs Hcut. apply Cut_parts in Hcut. subst s.
  rewrite hasByte_app in Hs. now apply orb_false_iff in Hs as [Ha _].
Qed.

(** The text before the fragment and before the query, as the three URL
    parsers cut it. *)
Lemma SplitN2_cases s sep :
  (Cut sep s = None /\ SplitN2 s sep = [s]) \/
  (exists a b, Cut sep s = Some (a, b) /\ SplitN2 s sep = [a; b]).
Proof.
  unfold SplitN2. destruct (Cut sep s) as [[a b] |]; [right | left]; eauto.
Qed.

(** X6.  A link without [@] after its scheme is rejected by the three URL
    parsers, each with its own error, whatever else it holds. *)
Theorem links_without_at_are_rejected (rest : string) :
  hasByte "@" rest = false ->
  parseVLessURL ("vless://" ++ rest) = Err (Errorf "invalid vless URL format") /\
  parseTrojanURL ("trojan://" ++ rest) = Err (Errorf "invalid trojan URL format") /\
  parseShadowsocksURL ("ss://" ++ rest) = Err (Errorf "invalid shadowsocks URL format").
Proof.
  intros Hat.
  assert (Hcut : forall s, hasByte "@" s = false -> SplitN2 s "@" = [s]).
  { intros s Hs. unfold SplitN2. now rewrite (Cut_absent "@" s Hs). }
  assert (Hbody : forall sep, exists name body,
             hasByte "@" body = false /\
             match SplitN2 rest sep with
             | [p0; p1] => (QueryUnescape_ p1, p0)
             | _ => ("", rest)
             end = (name, body)).
  { intros sep. destruct (SplitN2_cases rest sep) as [[_ ->] | (a & b & Hc & ->)].
    - exists "", rest. auto.
    - exists (QueryUnescape_ b), a. split; [| reflexivity].
      eapply Cut_absent_left; eauto. }
  split_and!.
  - unfold parseVLessURL.
    change (TrimPrefix ("vless://" ++ rest) "vless://") with rest.
    destruct (Hbody "#"%char) as (name & body & Hb & ->).
    destruct (SplitN2_cases body "?") as [[_ ->] | (a & b & Hc & ->)].
    + now rewrite (Hcut body Hb).
    + now rewrite (Hcut a (Cut_absent_left _ _ _ _ _ Hb Hc)).
  - unfold parseTrojanURL.
    change (TrimPrefix ("trojan://" ++ rest) "trojan://") with rest.
    destruct (Hbody "#"%char) as (name & body & Hb & ->).
    destruct (SplitN2_cases body "?") as [[_ ->] | (a & b & Hc & ->)].
    + now rewrite (Hcut body Hb).
    + now rewrite (Hcut a (Cut_absent_left _ _ _ _ _ Hb Hc)).
  - unfold parseShadowsocksURL.
    change (TrimPrefix ("ss://" ++ rest) "ss://") with rest.
    destruct (Hbody "#"%char) as (name & body & Hb & ->).
    now rewrite (Hcut body Hb).
Qed.

Lemma links_without_at_are_rejected_witness :
  hasByte "@" "example.com:443#name" = false /\
  parseVLessURL "vless://example.com:443#name" = Err (Errorf "invalid vless URL format").
Proof.
  split; [reflexivity |].
  exact (proj1 (links_without_at_are_rejected "example.com:443#name" eq_refl)).
Defined.

(** The first step of the three URL parsers on a text with or without a
    fragment. *)
Lemma fragment_split (body fragment : string) (withFragment : bool) :
  hasByte "#" body = false ->
  match SplitN2 (body ++ (if withFragment then "#" ++ fragment else "")) "#" with
  | [p0; p1] => (QueryUnescape_ p1, p0)
  | _ => ("", body ++ (if withFragment then "#" ++ fragment else ""))
  end = ((if withFragment then QueryUnescape_ fragment else ""), body).
Proof.
  intros Hbody. destruct withFragment.
  - change ("#" ++ fragment) with (String "#" fragment).
    now rewrite (SplitN2_first "#" body fragment Hbody).
  - rewrite append_empty_r. unfold SplitN2. now rewrite (Cut_absent "#" body Hbody).
Qed.

(** X7.  A link [vless://<uuid>@<server>:<port>?<query>], with or without a
    [#<fragment>], gives a node of type [vless] with that UUID and that
    server, the port read from the text after the colon (0 when it holds no
    number), the name unescaped from the fragment, and the network and
    security taken from the first values of the query parameters [type] and
    [security], empty when the query has none. *)
Theorem parseVLessURL_fields
    (uuid server portText query fragment : string) (withFragment : bool) :
  hasByte "@" uuid = false -> hasByte "?" uuid = false -> hasByte "#" uuid = false ->
  hasByte ":" server = false -> hasByte "?" server = false -> hasByte "#" server = false ->
  hasByte "?" portText = false -> hasByte "#" portText = false ->
  hasByte "#" query = false ->
  let params := firstValues (ParseQuery query) in
  parseVLessURL
    ("vless://" ++ (uuid ++ "@" ++ server ++ ":" ++ portText ++ "?" ++ query) ++
     (if withFragment then "#" ++ fragment else "")) =
  Ok (Node.mk (if withFragment then QueryUnescape_ fragment else "") "vless"
        server (Sscanf_d portText 0) uuid ""
        (default "" (params !! "type")) (default "" (params !! "security")) "" "" 0).
Proof.
  intros Hu1 Hu2 Hu3 Hs1 Hs2 Hs3 Hp1 Hp2 Hq params.
  unfold parseVLessURL.
  match goal with
  | |- context [TrimPrefix ("vless://" ++ ?r) "vless://"] =>
      change (TrimPrefix ("vless://" ++ r) "vless://") with r
  end.
  rewrite fragment_split.
  2: { rewrite !hasByte_app. cbn [hasByte]. rewrite Hu3, Hs3, Hp2, Hq. reflexivity. }
  set (authority := uuid ++ "@" ++ server ++ ":" ++ portText).
  replace (uuid ++ "@" ++ server ++ ":" ++ portText ++ "?" ++ query)
    with (authority ++ String "?" query)
    by (subst authority; rewrite !append_assoc; reflexivity).
  rewrite (SplitN2_first "?" authority query).
  2: { subst authority. rewrite !hasByte_app. cbn [hasByte]. rewrite Hu2, Hs2, Hp1. reflexivity. }
  subst authority.
  change (uuid ++ "@" ++ server ++ ":" ++ portText)
    with (uuid ++ String "@" (server ++ String ":" portText)).
  rewrite (SplitN2_first "@" uuid _ Hu1), (SplitN2_first ":" server _ Hs1).
  fold params.
  destruct (params !! "type"), (params !! "security"); reflexivity.
Qed.

Lemma parseVLessURL_fields_witness :
  parseVLessURL "vless://uuid-1@host.example:443?type=ws&security=tls&type=grpc#n+1" =
    Ok (Node.mk "n 1" "vless" "host.example" 443 "uuid-1" "" "ws" "tls" "" "" 0).
Proof.
  exact (parseVLessURL_fields "uuid-1" "host.example" "443"
           "type=ws&security=tls&type=grpc" "n+1" true
           eq_refl eq_refl eq_refl eq_refl eq_refl eq_refl eq_refl eq_refl eq_refl).
Defined.

(** X8.  [parseTrojanURL] does not read the query: a trojan link with a
    query gives the node the same link gives without it. *)
Theorem parseTrojanURL_ignores_query (body query fragment : string) (withFragment : bool) :
  hasByte "?" body = false -> hasByte "#" body = false -> hasByte "#" query = false ->
  parseTrojanURL
    ("trojan://" ++ (body ++ "?" ++ query) ++ (if withFragment then "#" ++ fragment else "")) =
  parseTrojanURL
    ("trojan://" ++ body ++ (if withFragment then "#" ++ fragment else "")).
Proof.
  intros Hb1 Hb2 Hq. unfold parseTrojanURL.
  repeat match goal with
  | |- context [TrimPrefix ("trojan://" ++ ?r) "trojan://"] =>
      change (TrimPrefix ("trojan://" ++ r) "trojan://") with r
  end.
  rewrite (fragment_split body fragment withFragment Hb2).
  rewrite fragment_split.
  2: { rewrite !hasByte_app. cbn [hasByte]. rewrite Hb2, Hq. reflexivity. }
  change (body ++ "?" ++ query) with (body ++ String "?" query).
  rewrite (SplitN2_first "?" body query Hb1).
  assert (Hplain : SplitN2 body "?" = [body])
    by (unfold SplitN2; now rewrite (Cut_absent "?" body Hb1)).
  rewrite Hplain. reflexivity.
Qed.

Lemma parseTrojanURL_ignores_query_witness :
  parseTrojanURL "trojan://pw@t.example.com:443?sni=other.example.com&type=ws#t" =
    parseTrojanURL "trojan://pw@t.example.com:443#t" /\
  parseTrojanURL "trojan://pw@t.example.com:443#t" =
    Ok (Node.mk "t" "trojan" "t.example.com" 443 "" "pw" "" "" "" "" 0).
Proof.
  split; [| vm_compute; reflexivity].
  exact (parseTrojanURL_ignores_query "pw@t.example.com:443"
           "sni=other.example.com&type=ws" "t" true eq_refl eq_refl eq_refl).
Defined.

(** ** More on subscriptions *)

Ltac break_match :=
  repeat match goal with
         | |- context [match ?x with _ => _ end] => destruct x
         end.

Lemma parseVLessURL_type u n : parseVLessURL u = Ok n -> Node.Type_ n = "vless".
Proof.
  unfold parseVLessURL. break_match; try discriminate; intros [= <-]; reflexivity.
Qed.

Lemma parseTrojanURL_type u n : parseTrojanURL u = Ok n -> Node.Type_ n = "trojan".
Proof.
  unfold parseTrojanURL. break_match; try discriminate; intros [= <-]; reflexivity.
Qed.

Lemma parseShadowsocksURL_type u n : parseShadowsocksURL u = Ok n -> Node.Type_ n = "ss".
Proof.
  unfold parseShadowsocksURL. break_match; try discriminate; intros [= <-]; reflexivity.
Qed.

Section SubscriptionFacts.

Variable E : Env.

Lemma parseVMessURL_type u n : parseVMessURL E u = Ok n -> Node.Type_ n = "vmess".
Proof.
  unfold parseVMessURL. break_match; try discriminate; intros [= <-]; reflexivity.
Qed.

(** One line gives no node or one node, of the type of its scheme. *)
Lemma parseLine_one line :
  parseLine E [] line = [] \/
  exists n, parseLine E [] line = [n] /\ supportedType (Node.Type_ n) = true.
Proof.
  unfold parseLine.
  destruct (String.eqb (TrimSpace line) ""); [left; reflexivity |].
  destruct (HasPrefix (TrimSpace line) "vmess://").
  { destruct (parseVMessURL E (TrimSpace line)) as [n |] eqn:H; [right | left; reflexivity].
    exists n. split; [reflexivity |]. now rewrite (parseVMessURL_type _ _ H). }
  destruct (HasPrefix (TrimSpace line) "vless://").
  { destruct (parseVLessURL (TrimSpace line)) as [n |] eqn:H; [right | left; reflexivity].
    exists n. split; [reflexivity |]. now rewrite (parseVLessURL_type _ _ H). }
  destruct (HasPrefix (TrimSpace line) "trojan://").
  { destruct (parseTrojanURL (TrimSpace line)) as [n |] eqn:H; [right | left; reflexivity].
    exists n. split; [reflexivity |]. now rewrite (parseTrojanURL_type _ _ H). }
  destruct (HasPrefix (TrimSpace line) "ss://").
  { destruct (parseShadowsocksURL (TrimSpace line)) as [n |] eqn:H; [right | left; reflexivity].
    exists n. split; [reflexivity |]. now rewrite (parseShadowsocksURL_type _ _ H). }
  left. reflexivity.
Qed.

Lemma linkNodes_supported content :
  Forall (fun n => supportedType (Node.Type_ n) = true) (linkNodes E content).
Proof.
  rewrite linkNodes_in_line_order.
  induction (Split content LF) as [| line lines IH]; [constructor |].
  cbn [flat_map]. apply Forall_app. split; [| exact IH].
  destruct (parseLine_one line) as [-> | (n & -> & Hn)]; repeat constructor. exact Hn.
Qed.


(** X10.  The link list gives at most one node per line: a subscription of
    [k] lines yields at most [k] nodes, and a line that is blank, or whose
    text starts with none of the four schemes once the white space around it
    is removed, adds nothing. *)
Theorem link_list_one_node_per_line (content : string) :
  (length (linkNodes E content) <= length (Split content LF))%nat /\
  (forall nodes line,
     String.eqb (TrimSpace line) "" = true \/
     (HasPrefix (TrimSpace line) "vmess://" = false /\
      HasPrefix (TrimSpace line) "vless://" = false /\
      HasPrefix (TrimSpace line) "trojan://" = false /\
      HasPrefix (TrimSpace line) "ss://" = false) ->
     parseLine E nodes line = nodes).
Proof.
  split.
  - rewrite linkNodes_in_line_order.
    induction (Split content LF) as [| line lines IH]; [reflexivity |].
    cbn [flat_map]. rewrite length_app. cbn [length].
    destruct (parseLine_one line) as [-> | (n & -> & _)]; simpl; lia.
  - intros nodes line [Hblank | (H1 & H2 & H3 & H4)]; unfold parseLine.
    + now rewrite Hblank.
    + rewrite H1, H2, H3, H4. now destruct (String.eqb (TrimSpace line) "").
Qed.

Lemma parseSubscription_not_empty content nodes :
  parseSubscription E content = Ok nodes -> nodes <> [].
Proof.
  unfold parseSubscription. rewrite parseLinkList_nodes.
  destruct (looksLikeYAML content);
    destruct (parseYAMLSubscription E content) as [[| n rest] | e];
    destruct (linkNodes E content); intros [= <-]; discriminate.
Qed.

Lemma SelectFastestNode_on_nodes dial s :
  Nodes s <> [] ->
  snd (SelectFastestNode dial s) <> Err (Errorf "no nodes available").
Proof.
  unfold SelectFastestNode. destruct (Nodes s) as [| n rest]; [congruence |].
  intros _. destruct (selectLoop dial 0 (n :: rest) maxInt None) as [nodes' [k |]];
    simpl; discriminate.
Qed.

(** X11.  A subscription that [FetchSubscription] or [LoadFromFile] returns
    carries the address it was asked for and at least one node, so
    [SelectFastestNode] never answers [no nodes available] on it. *)
Theorem loaded_subscriptions_have_nodes (source : string) (fs : gmap string string)
    (sub : Subscription) (dial : nat -> DialOutcome) :
  FetchSubscription E source = Ok sub \/ LoadFromFile E source fs = Ok sub ->
  URL sub = source /\ Nodes sub <> [] /\
  snd (SelectFastestNode dial sub) <> Err (Errorf "no nodes available").
Proof.
  intros H.
  assert (Hsub : URL sub = source /\ Nodes sub <> []).
  { destruct H as [H | H].
    - unfold FetchSubscription in H.
      destruct (http_Get E source) as [| status body fails]; [discriminate |].
      destruct (negb (Z.eqb status 200)); [discriminate |].
      destruct fails; [discriminate |].
      destruct (parseSubscription E _) as [nodes |] eqn:Hparse; [| discriminate].
      injection H as <-. split; [reflexivity |].
      exact (parseSubscription_not_empty _ _ Hparse).
    - unfold LoadFromFile in H.
      destruct (fs !! source) as [data |]; [| discriminate].
      destruct (parseYAMLSubscription E data) as [nodes |] eqn:Hparse; [| discriminate].
      injection H as <-. split; [reflexivity |].
      unfold parseYAMLSubscription in Hparse.
      destruct (yaml_Unmarshal E data) as [[| p ps] |]; try discriminate.
      destruct (omap yamlNode (p :: ps)); [discriminate |].
      injection Hparse as <-. discriminate. }
  destruct Hsub as [Hurl Hnodes]. split; [exact Hurl |]. split; [exact Hnodes |].
  now apply SelectFastestNode_on_nodes.
Qed.

(** X12.  Once the text after [vmess://] decodes as base64 and as a JSON
    object, [parseVMessURL] does not fail: it returns a node of type [vmess]
    whose fields are the values of the keys [ps], [add], [port], [id], [net]
    and [tls] that have the expected JSON type, and the zero value for every
    key that is missing or has another type. *)
Theorem parseVMessURL_defaults (encoded decoded : string) (vmessConfig : gmap string iface) :
  DecodeString StdEncoding encoded = Ok decoded ->
  json_Unmarshal E decoded = Some vmessConfig ->
  parseVMessURL E ("vmess://" ++ encoded) =
    Ok (Node.mk (default "" (assertString (vmessConfig !! "ps"))) "vmess"
          (default "" (assertString (vmessConfig !! "add")))
          (default 0 (assertFloat64 (vmessConfig !! "port")))
          (default "" (assertString (vmessConfig !! "id"))) ""
          (default "" (assertString (vmessConfig !! "net"))) ""
          (default "" (assertString (vmessConfig !! "tls"))) "" 0).
Proof.
  intros Hdecode Hjson. unfold parseVMessURL.
  change (TrimPrefix ("vmess://" ++ encoded) "vmess://") with encoded.
  rewrite Hdecode, Hjson.
  destruct (assertString (vmessConfig !! "ps")),
           (assertString (vmessConfig !! "add")),
           (assertFloat64 (vmessConfig !! "port")),
           (assertString (vmessConfig !! "id")),
           (assertString (vmessConfig !! "net")),
           (assertString (vmessConfig !! "tls")); reflexivity.
Qed.

End SubscriptionFacts.

(** X13.  A trojan node of the YAML parser always has an SNI: the one of
    the entry or, when the entry has none, its server; the configuration
    generated for it names that SNI as the TLS server name. *)
Theorem yaml_trojan_has_sni (proxy : YAMLProxy) (node : Node) (x : XrayManager) :
  yamlNode proxy = Some node ->
  YAMLProxy.Type_ proxy = "trojan" ->
  Node.SNI node <> "" /\
  Node.SNI node =
    (if String.eqb (YAMLProxy.SNI proxy) "" then YAMLProxy.Server proxy
     else YAMLProxy.SNI proxy) /\
  Node.Password node = YAMLProxy.Password proxy /\
  (tlsSettings (generateTrojanConfig x node) ≫= field "serverName") =
    Some (JString (Node.SNI node)).
Proof.
  destruct proxy as [name server port t pw uuid cipher sni net skip udp].
  cbn [YAMLProxy.Type_ YAMLProxy.SNI YAMLProxy.Server YAMLProxy.Password].
  intros Hnode ->. unfold yamlNode in Hnode.
  cbn [YAMLProxy.Type_ YAMLProxy.SNI YAMLProxy.Server YAMLProxy.Password
       YAMLProxy.Port YAMLProxy.Name] in Hnode.
  destruct (String.eqb server "") eqn:Hserver; [discriminate |].
  destruct (Z.eqb port 0); [discriminate |].
  change (String.eqb "trojan" "trojan") with true in Hnode.
  cbn [orb] in Hnode. cbv iota in Hnode.
  assert (Htls : forall n, Node.SNI n <> "" ->
            (tlsSettings (generateTrojanConfig x n) ≫= field "serverName") =
              Some (JString (Node.SNI n))).
  { intros n Hn. apply String.eqb_neq in Hn.
    unfold tlsSettings, generateTrojanConfig. rewrite Hn. reflexivity. }
  apply String.eqb_neq in Hserver.
  destruct (String.eqb sni "") eqn:Hsni; injection Hnode as <-.
  - split_and!; [exact Hserver | reflexivity | reflexivity |].
    apply Htls. exact Hserver.
  - apply String.eqb_neq in Hsni.
    split_and!; [exact Hsni | reflexivity | reflexivity |].
    apply Htls. exact Hsni.
Qed.

Lemma yaml_trojan_has_sni_witness :
  exists proxy node,
    sampleProxies !! 1%nat = Some proxy /\
    yamlNode proxy = Some node /\
    YAMLProxy.Type_ proxy = "trojan" /\
    Node.SNI node = "far.example.com".
Proof.
  eexists. eexists. split; [reflexivity |].
  assert (Hnode : yamlNode
            (YAMLProxy.mk "far" "far.example.com" 70000 "trojan" "pw" "" "" "" "" false false) =
          Some (Node.mk "far" "trojan" "far.example.com" 70000 "" "pw" "" "" ""
                  "far.example.com" 0)) by reflexivity.
  split; [exact Hnode |]. split; [reflexivity |].
  exact (proj1 (proj2 (yaml_trojan_has_sni _ _ (NewXrayManager "/opt/crosh/xray" 1080)
                         Hnode eq_refl))).
Defined.


(** A line of white space, with an ideographic space in it. *)
Lemma link_list_one_node_per_line_witness :
  String.eqb (TrimSpace (" " ++ ideographicSpace ++ " ")) "" = true /\
  parseLine sampleEnv [Node.zero] (" " ++ ideographicSpace ++ " ") = [Node.zero].
Proof.
  split; [reflexivity |].
  exact (proj2 (link_list_one_node_per_line sampleEnv "") [Node.zero]
           (" " ++ ideographicSpace ++ " ") (or_introl eq_refl)).
Defined.

(** The YAML document of the examples, read from a file. *)
Lemma loaded_subscriptions_have_nodes_witness :
  LoadFromFile sampleEnv "/home/u/sub.yaml" {[ "/home/u/sub.yaml" := sampleYAML ]} =
    Ok (mkSubscription "/home/u/sub.yaml" sampleNodes) /\
  Nodes (mkSubscription "/home/u/sub.yaml" sampleNodes) <> [].
Proof.
  assert (H : LoadFromFile sampleEnv "/home/u/sub.yaml"
                {[ "/home/u/sub.yaml" := sampleYAML ]} =
              Ok (mkSubscription "/home/u/sub.yaml" sampleNodes))
    by (vm_compute; reflexivity).
  split; [exact H |].
  exact (proj1 (proj2 (loaded_subscriptions_have_nodes sampleEnv "/home/u/sub.yaml" _ _
                         (fun _ => DialError) (or_intror H)))).
Defined.

(** The empty JSON object: every field keeps its zero value. *)
Lemma parseVMessURL_defaults_witness :
  DecodeString StdEncoding "e30=" = Ok "{}" /\
  json_Unmarshal sampleEnv "{}" = Some ∅ /\
  parseVMessURL sampleEnv "vmess://e30=" = Ok (Node.with_Type "vmess" Node.zero).
Proof.
  assert (Hd : DecodeString StdEncoding "e30=" = Ok "{}") by (vm_compute; reflexivity).
  assert (Hj : json_Unmarshal sampleEnv "{}" = Some ∅) by reflexivity.
  split; [exact Hd |]. split; [exact Hj |].
  exact (parseVMessURL_defaults sampleEnv "e30=" "{}" ∅ Hd Hj).
Defined.

(** ** More on the selector *)

Lemma TestLatency_forgets n1 n2 o :
  forgetLatency n1 = forgetLatency n2 -> TestLatency n1 o = TestLatency n2 o.
Proof.
  destruct n1, n2. unfold forgetLatency, Node.with_Latency. cbn.
  intros [= -> -> -> -> -> -> -> -> -> ->]. reflexivity.
Qed.

Lemma selectLoop_forgets dial nodes1 : forall nodes2 i minLatency fastest,
  map forgetLatency nodes1 = map forgetLatency nodes2 ->
  selectLoop dial i nodes1 minLatency fastest = selectLoop dial i nodes2 minLatency fastest.
Proof.
  induction nodes1 as [| n1 rest1 IH]; intros [| n2 rest2] i minLatency fastest Hmap;
    try discriminate; [reflexivity |].
  cbn [map] in Hmap.
  pose proof (f_equal (fun l => nth 0 l (forgetLatency n1)) Hmap) as Hn.
  pose proof (f_equal (@tl Node) Hmap) as Hrest. cbn [nth tl] in Hn, Hrest.
  cbn [selectLoop]. rewrite (TestLatency_forgets n1 n2 (dial i) Hn).
  destruct (TestLatency n2 (dial i)) as [n' err].
  destruct (match err with
            | Some _ => (minLatency, fastest)
            | None =>
                if Z.leb 0 (Node.Latency n') && Z.ltb (Node.Latency n') minLatency
                then (Node.Latency n', Some i)
                else (minLatency, fastest)
            end) as [m f].
  now rewrite (IH rest2 (S i) m f Hrest).
Qed.

Lemma probeAll_forget dial nodes : forall i,
  map forgetLatency (probeAll dial i nodes) = map forgetLatency nodes.
Proof.
  induction nodes as [| n rest IH]; intros i; [reflexivity |].
  cbn [probeAll map]. rewrite IH. f_equal. destruct n, (dial i); reflexivity.
Qed.

(** X14.  [SelectFastestNode] writes latencies and nothing else, and the
    latencies it finds in the nodes play no part: apart from the latency the
    nodes after the call are the nodes before it, in the same order; and two
    subscriptions that differ only by the latencies recorded in their nodes
    give the same selection and the same nodes after the call. *)
Theorem SelectFastestNode_overwrites_latencies (dial : nat -> DialOutcome)
    (s1 s2 : Subscription) :
  map forgetLatency (Nodes (fst (SelectFastestNode dial s1))) = map forgetLatency (Nodes s1) /\
  (map forgetLatency (Nodes s1) = map forgetLatency (Nodes s2) ->
     snd (SelectFastestNode dial s1) = snd (SelectFastestNode dial s2) /\
     Nodes (fst (SelectFastestNode dial s1)) = Nodes (fst (SelectFastestNode dial s2))).
Proof.
  split.
  - rewrite SelectFastestNode_probes. apply probeAll_forget.
  - intros Hmap. unfold SelectFastestNode.
    destruct (Nodes s1) as [| n1 rest1] eqn:H1, (Nodes s2) as [| n2 rest2] eqn:H2;
      try discriminate.
    + cbn [fst snd]. rewrite H1, H2. split; reflexivity.
    + rewrite (selectLoop_forgets dial (n1 :: rest1) (n2 :: rest2) 0 maxInt None Hmap).
      destruct (selectLoop dial 0 (n2 :: rest2) maxInt None) as [nodes' [k |]];
        split; reflexivity.
Qed.

(** Two subscriptions with the same nodes, probed before or not. *)
Lemma SelectFastestNode_overwrites_latencies_witness :
  let fresh := Node.mk "a" "vless" "a.example" 443 "u" "" "" "" "" "" 0 in
  let stale := Node.with_Latency 5 fresh in
  let dial := dialOf [after_ms 30] in
  map forgetLatency [fresh] = map forgetLatency [stale] /\
  snd (SelectFastestNode dial (mkSubscription "feed" [fresh])) =
    snd (SelectFastestNode dial (mkSubscription "feed" [stale])).
Proof.
  intros fresh stale dial. split; [reflexivity |].
  exact (proj1 (proj2 (SelectFastestNode_overwrites_latencies dial
                         (mkSubscription "feed" [fresh]) (mkSubscription "feed" [stale]))
                 eq_refl)).
Defined.

Lemma probeAll_lookup dial nodes : forall i k n,
  nodes !! k = Some n ->
  probeAll dial i nodes !! k = Some (fst (TestLatency n (dial (i + k)%nat))).
Proof.
  induction nodes as [| n0 rest IH]; intros i k n Hk; [discriminate |].
  destruct k as [| k]; cbn [probeAll].
  - injection Hk as ->. now rewrite Nat.add_0_r.
  - simpl in Hk. simpl. rewrite (IH (S i) k n Hk).
    replace (S i + k)%nat with (i + S k)%nat by lia. reflexivity.
Qed.

(** X15.  One reachable node is enough: when the probe of some node of the
    subscription connects, after a duration that is not negative,
    [SelectFastestNode] returns a node, and the latency of that node is at
    most the latency measured for the node that connected. *)
Theorem SelectFastestNode_succeeds_when_reachable (dial : nat -> DialOutcome)
    (s : Subscription) (k : nat) (n : Node) (d : Z) :
  (forall j, validDial (dial j)) ->
  Nodes s !! k = Some n -> dial k = Connected d -> 0 <= d ->
  exists i best,
    snd (SelectFastestNode dial s) = Ok i /\
    Nodes (fst (SelectFastestNode dial s)) !! i = Some best /\
    0 <= Node.Latency best <= Milliseconds d.
Proof.
  intros Hdial Hk Hconn Hd.
  pose proof (probeAll_lookup dial (Nodes s) 0 k n Hk) as Hprobed.
  rewrite Nat.add_0_l, Hconn in Hprobed. cbn [TestLatency fst] in Hprobed.
  assert (Hlat : 0 <= Milliseconds d) by (unfold Milliseconds; apply Z.quot_pos; lia).
  rewrite SelectFastestNode_probes. unfold SelectFastestNode.
  destruct (Nodes s) as [| n0 rest] eqn:Hnodes; [discriminate |].
  pose proof (selectLoop_scan dial (n0 :: rest) 0 maxInt None) as [_ Hscan].
  pose proof (probeAll_latency_bound dial (n0 :: rest) 0) as Hbound.
  destruct (selectLoop dial 0 (n0 :: rest) maxInt None) as [nodes' r].
  cbn [snd] in Hscan.
  destruct Hscan as [[-> Hall] | (i & best & -> & Hi & Hbest & Hmin & _)].
  - exfalso.
    assert (Hin : Node.with_Latency (Milliseconds d) n ∈ probeAll dial 0 (n0 :: rest))
      by (eapply list_elem_of_lookup_2; eauto).
    specialize (Hall _ Hin). specialize (Hbound _ Hdial Hin).
    cbn [Node.Latency Node.with_Latency] in Hall, Hbound. lia.
  - exists i, best. cbn [snd]. split; [reflexivity |]. split; [exact Hi |].
    specialize (Hmin k _ Hprobed). cbn [Node.Latency Node.with_Latency] in Hmin. lia.
Qed.

Lemma SelectFastestNode_succeeds_when_reachable_witness :
  let dial := dialOf [DialError; after_ms 30] in
  (forall j, validDial (dial j)) /\
  exists i best,
    snd (SelectFastestNode dial (mkSubscription "feed" [Node.zero; Node.zero])) = Ok i /\
    Nodes (fst (SelectFastestNode dial (mkSubscription "feed" [Node.zero; Node.zero]))) !! i
      = Some best /\
    0 <= Node.Latency best <= Milliseconds 30000000.
Proof.
  intros dial.
  assert (H : forall j, validDial (dial j)).
  { intros [| [| j]]; simpl; unfold minInt64, maxInt64; try lia; exact I. }
  split; [exact H |].
  exact (SelectFastestNode_succeeds_when_reachable dial
           (mkSubscription "feed" [Node.zero; Node.zero]) 1 Node.zero 30000000
           H eq_refl eq_refl ltac:(lia)).
Defined.

(** ** More on the configuration generator *)

Lemma dispatchConfig_cases x node config :
  dispatchConfig x node = Some config ->
  (Node.Type_ node = "vmess" /\ config = generateVMessConfig x node) \/
  (Node.Type_ node = "vless" /\ config = generateVLessConfig x node) \/
  (Node.Type_ node = "trojan" /\ config = generateTrojanConfig x node) \/
  (Node.Type_ node = "ss" /\ config = generateShadowsocksConfig x node).
Proof.
  unfold dispatchConfig.
  destruct (String.eqb (Node.Type_ node) "vmess") eqn:H1.
  { apply String.eqb_eq in H1. intros [= <-]. auto. }
  destruct (String.eqb (Node.Type_ node) "vless") eqn:H2.
  { apply String.eqb_eq in H2. intros [= <-]. auto. }
  destruct (String.eqb (Node.Type_ node) "trojan") eqn:H3.
  { apply String.eqb_eq in H3. intros [= <-]. auto. }
  destruct (String.eqb (Node.Type_ node) "ss") eqn:H4; [| discriminate].
  apply String.eqb_eq in H4. intros [= <-]. auto 6.
Qed.

(** X16.  The frame of the document is the same for the four node types:
    one inbound, a SOCKS listener on the local port of the manager with UDP
    enabled; two outbounds, the first tagged [proxy] with the protocol of the
    node type ([shadowsocks] for [ss]) and the second tagged [direct] with the
    protocol [freedom]; and three routing rules, each sending its traffic to
    [direct], under the domain strategy [IPIfNonMatch]. *)
Theorem generated_config_frame (x : XrayManager) (node : Node) (config : JValue) :
  dispatchConfig x node = Some config ->
  socksInbound config =
    Some (object [ ("port", JInt (localPort x)); ("protocol", JString "socks");
                   ("settings", object [ ("udp", JBool true) ]) ]) /\
  (field "inbounds" config ≫= item 1%nat) = None /\
  (proxyOutbound config ≫= field "tag") = Some (JString "proxy") /\
  (proxyOutbound config ≫= field "protocol") =
    Some (JString (protocolOf (Node.Type_ node))) /\
  directOutbound config =
    Some (object [ ("tag", JString "direct"); ("protocol", JString "freedom");
                   ("settings", object []) ]) /\
  (field "outbounds" config ≫= item 2%nat) = None /\
  ruleTags config =
    [ Some (JString "direct"); Some (JString "direct"); Some (JString "direct") ] /\
  (field "routing" config ≫= field "domainStrategy") = Some (JString "IPIfNonMatch").
Proof.
  intros Hd.
  destruct (dispatchConfig_cases x node config Hd)
    as [[-> ->] | [[-> ->] | [[-> ->] | [-> ->]]]]; repeat split.
Qed.

Lemma generated_config_frame_witness :
  let node := Node.mk "s" "ss" "s.example.com" 8388 "" "pw" "" "aes-256-gcm" "" "" 0 in
  let x := NewXrayManager "/opt/crosh/xray" 1080 in
  dispatchConfig x node = Some (generateShadowsocksConfig x node) /\
  (proxyOutbound (generateShadowsocksConfig x node) ≫= field "protocol") =
    Some (JString "shadowsocks").
Proof.
  intros node x.
  assert (H : dispatchConfig x node = Some (generateShadowsocksConfig x node)) by reflexivity.
  split; [exact H |].
  exact (proj1 (proj2 (proj2 (proj2 (generated_config_frame x node _ H))))).
Defined.

(** X17.  Whatever the node type, the proxy outbound points at the node:
    its single server entry, under [vnext] for vmess and vless and under
    [servers] for trojan and shadowsocks, has the server of the node as
    [address] and the port of the node as [port]. *)
Theorem generated_config_targets_node (x : XrayManager) (node : Node) (config : JValue) :
  dispatchConfig x node = Some config ->
  let key := if String.eqb (Node.Type_ node) "vmess" || String.eqb (Node.Type_ node) "vless"
             then "vnext" else "servers" in
  (proxyServer key config ≫= field "address") = Some (JString (Node.Server node)) /\
  (proxyServer key config ≫= field "port") = Some (JInt (Node.Port node)) /\
  (((proxyOutbound config ≫= field "settings") ≫= field key) ≫= item 1%nat) = None.
Proof.
  intros Hd.
  destruct (dispatchConfig_cases x node config Hd)
    as [[-> ->] | [[-> ->] | [[-> ->] | [-> ->]]]]; repeat split.
Qed.

Lemma generated_config_targets_node_witness :
  let node := Node.mk "v" "vmess" "v.example.com" 443 "uuid-1" "" "ws" "" "tls" "" 0 in
  let x := NewXrayManager "/opt/crosh/xray" 1080 in
  dispatchConfig x node = Some (generateVMessConfig x node) /\
  (proxyServer "vnext" (generateVMessConfig x node) ≫= field "address") =
    Some (JString "v.example.com").
Proof.
  intros node x.
  assert (H : dispatchConfig x node = Some (generateVMessConfig x node)) by reflexivity.
  split; [exact H |].
  exact (proj1 (generated_config_targets_node x node _ H)).
Defined.

(** X18.  The generator reads seven fields of a node and no other: the
    document does not depend on the name, the network, the TLS mode or the
    latency of the node, so two nodes that differ only there, a vmess node
    over [ws] with TLS and one over plain TCP for instance, get the same
    document. *)
Theorem generated_config_ignores_transport (x : XrayManager)
    (name name' network network' tls tls' : string) (latency latency' : Z)
    (type server uuid password security sni : string) (port : Z) :
  dispatchConfig x
    (Node.mk name type server port uuid password network security tls sni latency) =
  dispatchConfig x
    (Node.mk name' type server port uuid password network' security tls' sni latency').
Proof. reflexivity. Qed.

Section WritingFacts.

Variable E : Env.

(** X19.  A call of [GenerateConfig] that returns no error has written the
    marshalled document of the node to the configuration file and touched no
    other file; on the files it leaves, the same call returns no error and
    changes nothing. *)
Theorem GenerateConfig_writes_only_the_config (x : XrayManager) (node : Node)
    (fs fs' : gmap string string) :
  GenerateConfig E x node fs = (fs', None) ->
  (exists config,
     dispatchConfig x node = Some config /\
     fs' !! configPath x = json_MarshalIndent E config) /\
  (forall path, path <> configPath x -> fs' !! path = fs !! path) /\
  GenerateConfig E x node fs' = (fs', None).
Proof.
  intros H.
  destruct (GenerateConfig_cases E x node fs)
    as [[_ H'] | [(config & _ & _ & H') | [(config & data & _ & _ & _ & H') |
                                           (config & data & Hd & Hm & Hw & H')]]];
    rewrite H' in H; try discriminate.
  injection H as <-. split_and!.
  - exists config. split; [exact Hd |]. now rewrite lookup_insert_eq.
  - intros path Hpath. now rewrite lookup_insert_ne.
  - unfold GenerateConfig. rewrite Hd, Hm, Hw, insert_insert_eq. reflexivity.
Qed.

End WritingFacts.

Lemma GenerateConfig_writes_only_the_config_witness :
  let node := Node.mk "t" "trojan" "t.example.com" 443 "" "pw" "" "" "" "" 0 in
  let x := NewXrayManager "/opt/crosh/xray" 1080 in
  let fs : gmap string string := {[ "/opt/crosh/xray" := "ELF" ]} in
  GenerateConfig sampleEnv x node fs = (<[ "/opt/crosh/config.json" := "{ }" ]> fs, None) /\
  (forall path, path <> configPath x ->
     (<[ "/opt/crosh/config.json" := "{ }" ]> fs) !! path = fs !! path).
Proof.
  intros node x fs.
  assert (H : GenerateConfig sampleEnv x node fs =
              (<[ "/opt/crosh/config.json" := "{ }" ]> fs, None)) by reflexivity.
  split; [exact H |].
  exact (proj1 (proj2 (GenerateConfig_writes_only_the_config sampleEnv x node fs _ H))).
Defined.

(** ** More on acquiring the binary *)

Lemma length_append (a b : string) :
  String.length (a ++ b) = (String.length a + String.length b)%nat.
Proof.
  induction a as [| c a IH]; [reflexivity |].
  rewrite append_cons. cbn [String.length]. now rewrite IH.
Qed.

Lemma append_ne_self (p suffix : string) : suffix <> "" -> p ++ suffix <> p.
Proof.
  intros Hs Heq. apply (f_equal String.length) in Heq. rewrite length_append in Heq.
  destruct suffix; [congruence | cbn [String.length] in Heq; lia].
Qed.

Lemma append_inj_r (p a b : string) : p ++ a = p ++ b -> a = b.
Proof.
  induction p as [| c p IH]; [trivial |].
  rewrite !append_cons. intros [= H]. auto.
Qed.

(** The binary and the two temporary files of a download are three
    different paths. *)
Lemma download_paths_differ (p : string) :
  p ++ ".tmp" <> p /\ p ++ ".tmp.zip" <> p /\ p ++ ".tmp.zip" <> p ++ ".tmp".
Proof.
  split_and!.
  - apply append_ne_self. discriminate.
  - apply append_ne_self. discriminate.
  - intros H. apply append_inj_r in H. discriminate.
Qed.

(** [find] returns the first element that passes the test. *)
Lemma find_first {A : Type} (f : A -> bool) (l : list A) (x : A) :
  find f l = Some x ->
  exists before after,
    l = (before ++ x :: after)%list /\ f x = true /\
    Forall (fun y => f y = false) before.
Proof.
  induction l as [| y l IH]; [discriminate |].
  cbn [find]. destruct (f y) eqn:Hy.
  - intros [= <-]. exists [], l. split_and!; auto.
  - intros H. destruct (IH H) as (before & after & -> & Hx & Hall).
    exists (y :: before), after. split_and!; auto.
Qed.

Section DownloadFacts.

Variable E : Env.

Lemma extractXrayFromZip_cases x zipPath fs :
  (exists e, extractXrayFromZip E x zipPath fs = (fs, Some e)) \/
  (exists e, extractXrayFromZip E x zipPath fs = (delete (xrayPath x ++ ".tmp") fs, Some e)) \/
  (exists content members f bytes,
     fs !! zipPath = Some content /\ zip_OpenReader E content = Some members /\
     find isXrayMember members = Some f /\ zipData f = Data bytes /\
     extractXrayFromZip E x zipPath fs =
       (<[xrayPath x := bytes]> (delete (xrayPath x ++ ".tmp") fs), None)).
Proof.
  unfold extractXrayFromZip.
  destruct (fs !! zipPath) as [content |] eqn:Hzip; cbn [mbind option_bind]; [| eauto].
  destruct (zip_OpenReader E content) as [members |] eqn:Hopen; [| eauto].
  change (find _ members) with (find isXrayMember members).
  destruct (find isXrayMember members) as [f |] eqn:Hfind; [| eauto].
  destruct (zipData f) as [| | bytes] eqn:Hdata; [eauto | eauto |].
  right. right. exists content, members, f, bytes. auto.
Qed.

Lemma downloadFromURL_frame (x : XrayManager) (url : string)
    (fs fs' : gmap string string) (err : option error) :
  downloadFromURL E x url fs = (fs', err) ->
  (err <> None -> fs' !! xrayPath x = fs !! xrayPath x) /\
  (fs !! (xrayPath x ++ ".tmp.zip") = None -> fs' !! (xrayPath x ++ ".tmp.zip") = None) /\
  (fs !! (xrayPath x ++ ".tmp") = None -> fs' !! (xrayPath x ++ ".tmp") = None).
Proof.
  destruct (download_paths_differ (xrayPath x)) as (Htmp & Hzip & Hzt).
  unfold downloadFromURL.
  destruct (http_Get E url) as [| status body fails].
  { intros [= <- <-]. auto. }
  destruct (negb (Z.eqb status 200)).
  { intros [= <- <-]. auto. }
  destruct fails.
  { intros [= <- <-]. split_and!.
    - intros _. now rewrite lookup_delete_ne.
    - intros _. apply lookup_delete_eq.
    - intros H. now rewrite lookup_delete_ne. }
  set (fs1 := <[xrayPath x ++ ".tmp.zip" := body]> fs).
  assert (Hbin : fs1 !! xrayPath x = fs !! xrayPath x)
    by (subst fs1; now rewrite lookup_insert_ne).
  assert (Htmp1 : fs1 !! (xrayPath x ++ ".tmp") = fs !! (xrayPath x ++ ".tmp"))
    by (subst fs1; now rewrite lookup_insert_ne).
  destruct (extractXrayFromZip_cases x (xrayPath x ++ ".tmp.zip") fs1)
    as [[e ->] | [[e ->] | (c & ms & f & bytes & _ & _ & _ & _ & ->)]];
    intros [= <- <-]; split_and!; try (intros _; apply lookup_delete_eq).
  - intros _. now rewrite lookup_delete_ne.
  - intros H. rewrite lookup_delete_ne by auto. congruence.
  - intros _. rewrite lookup_delete_ne, lookup_delete_ne by auto. exact Hbin.
  - intros _. rewrite lookup_delete_ne by auto. apply lookup_delete_eq.
  - congruence.
  - intros _. rewrite lookup_delete_ne, lookup_insert_ne by auto. apply lookup_delete_eq.
Qed.

(** X20.  A download that fails leaves the installed binary alone, and no
    download leaves a temporary file behind: when [downloadFromURL] returns
    an error the file at the path of the binary is what it was, an older
    binary or none; and whatever it returns, the temporary archive and the
    temporary binary do not exist after the call if they did not before. *)
Theorem downloadFromURL_is_atomic (x : XrayManager) (url : string)
    (fs fs' : gmap string string) (err : option error) :
  downloadFromURL E x url fs = (fs', err) ->
  (err <> None -> fs' !! xrayPath x = fs !! xrayPath x) /\
  (fs !! (xrayPath x ++ ".tmp.zip") = None -> fs' !! (xrayPath x ++ ".tmp.zip") = None) /\
  (fs !! (xrayPath x ++ ".tmp") = None -> fs' !! (xrayPath x ++ ".tmp") = None).
Proof. apply downloadFromURL_frame. Qed.

(** X21.  A download that succeeds installs the first member of the archive
    whose base name is [xray] or [xray-core]: the response had the status
    200 and a body that reads as a zip archive, and the file at the path of
    the binary holds the bytes of that member. *)
Theorem downloadFromURL_installs_first_match (x : XrayManager) (url : string)
    (fs fs' : gmap string string) :
  downloadFromURL E x url fs = (fs', None) ->
  exists body members f bytes,
    http_Get E url = Response 200 body false /\
    zip_OpenReader E body = Some members /\
    find isXrayMember members = Some f /\
    zipData f = Data bytes /\
    fs' !! xrayPath x = Some bytes.
Proof.
  destruct (download_paths_differ (xrayPath x)) as (Htmp & Hzip & Hzt).
  unfold downloadFromURL.
  destruct (http_Get E url) as [| status body fails]; [discriminate |].
  destruct (Z.eqb status 200) eqn:Hstatus; [| discriminate].
  apply Z.eqb_eq in Hstatus. subst status. cbn [negb].
  destruct fails; [discriminate |].
  destruct (extractXrayFromZip_cases x (xrayPath x ++ ".tmp.zip")
              (<[xrayPath x ++ ".tmp.zip" := body]> fs))
    as [[e ->] | [[e ->] | (c & ms & f & bytes & Hc & Hopen & Hfind & Hdata & ->)]];
    try discriminate.
  intros [= <-]. rewrite lookup_insert_eq in Hc. injection Hc as <-.
  exists body, ms, f, bytes. split_and!; auto.
  rewrite lookup_delete_ne by auto. apply lookup_insert_eq.
Qed.

(** X22.  [Download] returns an error only for the binary: when the binary
    is already there it returns no error, whatever the network does and
    whatever becomes of the data files.  When it returns an error the binary
    was not there before the call, and the error is one of two: [failed to
    create directory] when the directory of the binary cannot be created,
    and then no file is touched and no source is asked; or [failed to
    download from all sources], wrapping the error of a source, when the
    directory was created. *)
Theorem Download_errors_only_for_the_binary (x : XrayManager) (fs : gmap string string) :
  (fs !! xrayPath x <> None -> snd (Download E x fs) = None) /\
  (forall e, snd (Download E x fs) = Some e ->
     fs !! xrayPath x = None /\
     ((os_MkdirAll_fails E (Dir (xrayPath x)) = true /\
       e = Wrapf "failed to create directory" (ErrLib "os.MkdirAll")) \/
      (os_MkdirAll_fails E (Dir (xrayPath x)) = false /\
       exists cause, e = Wrapf "failed to download from all sources" cause))) /\
  (fs !! xrayPath x = None -> os_MkdirAll_fails E (Dir (xrayPath x)) = true ->
   Download E x fs =
     (fs, Some (Wrapf "failed to create directory" (ErrLib "os.MkdirAll")))).
Proof.
  unfold Download. destruct (fs !! xrayPath x) as [b |].
  - split_and!.
    + intros _. destruct (downloadGeoData E x fs). reflexivity.
    + intros e. destruct (downloadGeoData E x fs). discriminate.
    + discriminate.
  - split_and!; [congruence | |].
    + intros e. destruct (os_MkdirAll_fails E (Dir (xrayPath x))).
      { intros [= <-]. split; [reflexivity |]. left. split; reflexivity. }
      destruct (getLatestReleaseInfo E) as [[version assetName] [e0 |]];
        match goal with
        | |- context [downloadLoop E x ?v ?a xraySources fs None] =>
            destruct (downloadLoop E x v a xraySources fs None) as [fs1 [e1 |]]
        end;
        try (destruct (downloadGeoData E x fs1); discriminate);
        intros [= <-]; split; [reflexivity | right; eauto | reflexivity | right; eauto].
    + intros _ ->. reflexivity.
Qed.

(** X23.  When the directory of the binary is created and both sources
    fail, [Download] reports the error of the last one, wrapped in [failed to
    download from all sources], and the binary is still missing; when the
    directory cannot be created [Download] reports that instead, without a
    change to the files. *)
Theorem Download_fails_when_all_sources_fail (x : XrayManager)
    (fs fs1 fs2 : gmap string string) (e1 e2 : error) :
  fs !! xrayPath x = None ->
  downloadFromURL E x
    ("https://crosh.boomyao.com/xray" ++ "/" ++ fst (releaseChoice E) ++ "/" ++
     snd (releaseChoice E)) fs = (fs1, Some e1) ->
  downloadFromURL E x
    ("https://github.com/XTLS/Xray-core/releases/download" ++ "/" ++
     fst (releaseChoice E) ++ "/" ++ snd (releaseChoice E)) fs1 = (fs2, Some e2) ->
  Download E x fs =
    (if os_MkdirAll_fails E (Dir (xrayPath x))
     then (fs, Some (Wrapf "failed to create directory" (ErrLib "os.MkdirAll")))
     else (fs2, Some (Wrapf "failed to download from all sources" e2))) /\
  fs2 !! xrayPath x = None.
Proof.
  intros Habsent H1 H2. split.
  - unfold Download. rewrite Habsent.
    destruct (os_MkdirAll_fails E (Dir (xrayPath x))); [reflexivity |].
    unfold releaseChoice in H1, H2.
    destruct (getLatestReleaseInfo E) as [[version assetName] [e0 |]];
      cbn [fst snd] in H1, H2; unfold xraySources; cbn [downloadLoop DownloadURL];
      rewrite H1, H2; reflexivity.
  - destruct (downloadFromURL_frame x _ _ _ _ H1) as (Hb1 & _).
    destruct (downloadFromURL_frame x _ _ _ _ H2) as (Hb2 & _).
    rewrite Hb2, Hb1 by discriminate. exact Habsent.
Qed.

(** X24.  The asset [fetchReleaseInfo] returns is the first one the
    release lists whose name contains [Xray-<os>-<arch>] for the platform and
    ends in [.zip]: it is in the list, it passes the test, and no asset
    listed before it does; the version returned is the tag of the release. *)
Theorem fetchReleaseInfo_asset (apiURL version assetName : string) :
  fetchReleaseInfo E apiURL = Ok (version, assetName) ->
  let pattern :=
    "Xray-" ++ fst (getXrayPlatformNames E) ++ "-" ++ snd (getXrayPlatformNames E) in
  exists body release before after,
    http_Get E apiURL = Response 200 body false /\
    json_DecodeRelease E body = Some release /\
    version = TagName release /\
    Assets release = (before ++ assetName :: after)%list /\
    Forall (fun name => Contains name pattern && HasSuffix name ".zip" = false) before /\
    Contains assetName pattern = true /\
    HasSuffix assetName ".zip" = true.
Proof.
  unfold fetchReleaseInfo.
  destruct (http_Get E apiURL) as [| status body fails]; [discriminate |].
  destruct (Z.eqb status 200) eqn:Hstatus; [| discriminate].
  apply Z.eqb_eq in Hstatus. subst status. cbn [negb].
  destruct fails; [discriminate |].
  destruct (json_DecodeRelease E body) as [release |] eqn:Hrel; [| discriminate].
  destruct (getXrayPlatformNames E) as [osName archName]. cbn [fst snd].
  destruct (find _ (Assets release)) as [name |] eqn:Hfind; [| discriminate].
  intros [= <- <-].
  apply find_first in Hfind as (before & after & Hsplit & Hname & Hbefore).
  apply andb_true_iff in Hname as [Hc Hs].
  exists body, release, before, after. split_and!; auto.
Qed.

(** X25.  The mirror is asked first and believed: when its version file is
    served, the version is the text of that file without the white space
    around it, the asset name is the default one for the platform, and the
    upstream site is not consulted. *)
Theorem getLatestReleaseInfo_prefers_mirror (body : string) :
  http_Get E "https://crosh.boomyao.com/xray/VERSION" = Response 200 body false ->
  getLatestReleaseInfo E = (TrimSpace body, getDefaultAssetName E, None) /\
  releaseChoice E = (TrimSpace body, getDefaultAssetName E).
Proof.
  intros Hget.
  assert (H : getLatestReleaseInfo E = (TrimSpace body, getDefaultAssetName E, None)).
  { unfold getLatestReleaseInfo, xraySources. cbn [releaseInfoLoop SourceName].
    change (Contains "Cloudflare CDN (crosh mirror)" "Cloudflare") with true. cbv iota.
    unfold getVersionFromCDN. cbn [APIURL]. rewrite Hget. cbn [Z.eqb negb Pos.eqb].
    unfold getDefaultAssetName. destruct (getXrayPlatformNames E). reflexivity. }
  split; [exact H |]. unfold releaseChoice. now rewrite H.
Qed.

End DownloadFacts.

(** The mirror answers 404: nothing is installed and nothing is left. *)
Lemma downloadFromURL_is_atomic_witness :
  let x := NewXrayManager "/opt/crosh/xray" 1080 in
  let fs : gmap string string := {[ "/opt/crosh/xray" := "old" ]} in
  exists fs',
    downloadFromURL sampleEnv x
      "https://crosh.boomyao.com/xray/v1.8.4/Xray-linux-64.zip" fs
      = (fs', Some (ErrStatus "HTTP" 404)) /\
    fs' !! xrayPath x = fs !! xrayPath x.
Proof.
  intros x fs. eexists.
  assert (H : downloadFromURL sampleEnv x
                "https://crosh.boomyao.com/xray/v1.8.4/Xray-linux-64.zip" fs
              = (fs, Some (ErrStatus "HTTP" 404))) by reflexivity.
  split; [exact H |].
  exact (proj1 (downloadFromURL_is_atomic sampleEnv x _ fs fs _ H) ltac:(discriminate)).
Defined.

(** The upstream site serves the archive of the examples. *)
Lemma downloadFromURL_installs_first_match_witness :
  let x := NewXrayManager "/opt/crosh/xray" 1080 in
  downloadFromURL sampleEnv x
    "https://github.com/XTLS/Xray-core/releases/download/v1.8.4/Xray-linux-64.zip" ∅
    = ({[ "/opt/crosh/xray" := "ELF" ]}, None) /\
  exists body members f bytes,
    http_Get sampleEnv
      "https://github.com/XTLS/Xray-core/releases/download/v1.8.4/Xray-linux-64.zip"
      = Response 200 body false /\
    zip_OpenReader sampleEnv body = Some members /\
    find isXrayMember members = Some f /\
    zipData f = Data bytes /\
    ({[ "/opt/crosh/xray" := "ELF" ]} : gmap string string) !! xrayPath x = Some bytes.
Proof.
  intros x.
  assert (H : downloadFromURL sampleEnv x
                "https://github.com/XTLS/Xray-core/releases/download/v1.8.4/Xray-linux-64.zip" ∅
              = ({[ "/opt/crosh/xray" := "ELF" ]}, None)) by (vm_compute; reflexivity).
  split; [exact H |].
  exact (downloadFromURL_installs_first_match sampleEnv x _ ∅ _ H).
Defined.

(** The binary is there and the machine has no network; the binary is
    missing and its directory cannot be created. *)
Lemma Download_errors_only_for_the_binary_witness :
  let x := NewXrayManager "/opt/crosh/xray" 1080 in
  let fs : gmap string string := {[ "/opt/crosh/xray" := "ELF" ]} in
  fs !! xrayPath x <> None /\ snd (Download offlineEnv x fs) = None /\
  Download lockedEnv x ∅ =
    (∅, Some (Wrapf "failed to create directory" (ErrLib "os.MkdirAll"))).
Proof.
  intros x fs.
  assert (H : fs !! xrayPath x <> None) by (vm_compute; discriminate).
  split; [exact H |]. split.
  - exact (proj1 (Download_errors_only_for_the_binary offlineEnv x fs) H).
  - exact (proj2 (proj2 (Download_errors_only_for_the_binary lockedEnv x ∅))
             eq_refl eq_refl).
Defined.

(** No network and no binary. *)
Lemma Download_fails_when_all_sources_fail_witness :
  let x := NewXrayManager "/opt/crosh/xray" 1080 in
  Download offlineEnv x ∅ =
    (∅, Some (Wrapf "failed to download from all sources"
                (Wrapf "request failed" (ErrLib "http.Client.Get")))) /\
  (∅ : gmap string string) !! xrayPath x = None.
Proof.
  intros x.
  exact (Download_fails_when_all_sources_fail offlineEnv x ∅ ∅ ∅
           (Wrapf "request failed" (ErrLib "http.Client.Get"))
           (Wrapf "request failed" (ErrLib "http.Client.Get"))
           eq_refl eq_refl eq_refl).
Defined.

(** The release of [upstreamEnv]: the digest is passed over, and of the two
    archives for the platform the one listed first is taken. *)
Lemma fetchReleaseInfo_asset_witness :
  fetchReleaseInfo upstreamEnv "https://api.github.com/repos/XTLS/Xray-core/releases/latest"
    = Ok ("v1.8.6", "Xray-linux-64.zip") /\
  Contains "Xray-linux-64-v2.zip" "Xray-linux-64" && HasSuffix "Xray-linux-64-v2.zip" ".zip"
    = true /\
  exists body release before after,
    json_DecodeRelease upstreamEnv body = Some release /\
    Assets release = (before ++ "Xray-linux-64.zip" :: after)%list /\
    Forall (fun name => Contains name "Xray-linux-64" && HasSuffix name ".zip" = false)
      before.
Proof.
  assert (H : fetchReleaseInfo upstreamEnv
                "https://api.github.com/repos/XTLS/Xray-core/releases/latest"
              = Ok ("v1.8.6", "Xray-linux-64.zip")) by (vm_compute; reflexivity).
  split; [exact H |]. split; [reflexivity |].
  destruct (fetchReleaseInfo_asset upstreamEnv _ _ _ H)
    as (body & release & before & after & _ & Hrel & _ & Hsplit & Hbefore & _).
  exists body, release, before, after. split_and!; [exact Hrel | exact Hsplit | exact Hbefore].
Defined.

(** The version file of the mirror of the examples ends with a line feed;
    the one of [paddedEnv] has white space of three kinds around the
    version. *)
Lemma getLatestReleaseInfo_prefers_mirror_witness :
  http_Get sampleEnv "https://crosh.boomyao.com/xray/VERSION" = Response 200 "v1.8.4
" false /\
  getLatestReleaseInfo sampleEnv = ("v1.8.4", "Xray-linux-64.zip", None) /\
  getLatestReleaseInfo paddedEnv = ("v1.8.6", "Xray-linux-64.zip", None).
Proof.
  split; [reflexivity |]. split.
  - exact (proj1 (getLatestReleaseInfo_prefers_mirror sampleEnv _ eq_refl)).
  - exact (proj1 (getLatestReleaseInfo_prefers_mirror paddedEnv _ eq_refl)).
Defined.

(** ** More on the life of the engine *)

(** X26.  On a complete installation [Download] does nothing: when the
    binary and the two data files are there it returns no error and leaves
    the files as they are, without a look at the network. *)
Theorem Download_complete_installation (E : Env) (x : XrayManager)
    (fs : gmap string string) :
  fs !! xrayPath x <> None ->
  fs !! Join (Dir (xrayPath x)) "geoip.dat" <> None ->
  fs !! Join (Dir (xrayPath x)) "geosite.dat" <> None ->
  Download E x fs = (fs, None).
Proof.
  intros Hbin Hip Hsite. unfold Download.
  destruct (fs !! xrayPath x); [| congruence].
  unfold downloadGeoData, geoFiles. cbn [geoFileLoop geoFilename].
  destruct (fs !! Join (Dir (xrayPath x)) "geoip.dat"); [| congruence].
  destruct (fs !! Join (Dir (xrayPath x)) "geosite.dat"); [| congruence].
  reflexivity.
Qed.

Lemma Download_complete_installation_witness :
  let x := NewXrayManager "/opt/crosh/xray" 1080 in
  let fs : gmap string string :=
    {[ "/opt/crosh/xray" := "ELF"; "/opt/crosh/geoip.dat" := "ip";
       "/opt/crosh/geosite.dat" := "site" ]} in
  Download offlineEnv x fs = (fs, None).
Proof.
  intros x fs.
  apply (Download_complete_installation offlineEnv x fs);
    vm_compute; discriminate.
Defined.

(** X27.  Start and stop in one session: after [Start] has spawned a
    process that did not exist before, [Stop] on the manager that holds its
    handle kills it, forgets the handle and removes the PID file; the
    processes are then those of before the start. *)
Theorem Start_then_Stop (signals : Z -> bool) (x x' : XrayManager) (os os' : OS) (pid : Z) :
  Start signals (Some pid) x os = (x', os', None) ->
  pid ∉ procs os ->
  exists x'',
    Stop x' os' = (x'', mkOS (delete (pidFile x) (files os')) (procs os), None) /\
    processHandle x'' = None /\
    xrayPath x'' = xrayPath x /\ configPath x'' = configPath x /\ localPort x'' = localPort x.
Proof.
  intros Hstart Hfresh. unfold Start in Hstart.
  destruct (files os !! xrayPath x); [| discriminate].
  destruct (IsRunning signals x os); [discriminate |].
  injection Hstart as <- <-.
  unfold Stop. cbn [processHandle cmd Process procs files].
  unfold Kill. rewrite decide_True by (apply elem_of_union_l, elem_of_singleton; reflexivity).
  eexists. split.
  - unfold pidFile. cbn [xrayPath]. f_equal. f_equal. f_equal.
    apply set_eq. intros q. rewrite elem_of_difference, elem_of_union, elem_of_singleton.
    split.
    + intros [[-> | Hq] Hne]; [now contradiction Hne | exact Hq].
    + intros Hq. split; [right; exact Hq |]. intros ->. contradiction.
  - repeat split.
Qed.

Lemma Start_then_Stop_witness :
  let x := NewXrayManager "/opt/crosh/xray" 1080 in
  let os := mkOS {[ "/opt/crosh/xray" := "ELF" ]} {[ 17 ]} in
  exists x' os' x'',
    Start (fun _ => false) (Some 4242) x os = (x', os', None) /\
    (4242 ∉ procs os) /\
    Stop x' os' = (x'', mkOS (delete (pidFile x) (files os')) (procs os), None).
Proof.
  intros x os.
  assert (Hstart : Start (fun _ => false) (Some 4242) x os =
            (mkXrayManager "/opt/crosh/xray" "/opt/crosh/config.json"
               (Some (mkCmd (Some 4242))) 1080,
             mkOS (<[pidFile x := Sprintf_d 4242]>
                     (<[logFile x := ""]> {[ "/opt/crosh/xray" := "ELF" ]}))
                  ({[4242]} ∪ {[ 17 ]}),
             None)) by reflexivity.
  assert (Hfresh : 4242 ∉ procs os)
    by (apply (bool_decide_unpack _); vm_compute; exact I).
  destruct (Start_then_Stop (fun _ => false) x _ os _ 4242 Hstart Hfresh)
    as (x'' & Hstop & _).
  eexists. eexists. exists x''. split; [exact Hstart |]. split; [exact Hfresh |].
  exact Hstop.
Defined.

(** X28.  When the engine cannot be spawned, [Start] returns the error
    [failed to start Xray-core]; the processes and the PID file are what they
    were, the only file that may have appeared is the log, and the manager is
    left without a process handle, so that a later [Stop] goes by the PID
    file. *)
Theorem Start_spawn_failure (signals : Z -> bool) (x : XrayManager) (os : OS) :
  files os !! xrayPath x <> None -> IsRunning signals x os = false ->
  exists x' os',
    Start signals None x os =
      (x', os', Some (Wrapf "failed to start Xray-core" (ErrLib "exec.Cmd.Start"))) /\
    processHandle x' = None /\
    procs os' = procs os /\
    (forall path, path <> logFile x -> files os' !! path = files os !! path) /\
    files os' !! logFile x <> None.
Proof.
  intros Hbin Hrun. unfold Start. rewrite Hrun.
  destruct (files os !! xrayPath x); [| congruence].
  eexists. eexists. split; [reflexivity |]. cbn [processHandle cmd Process procs files].
  split; [reflexivity |]. split; [reflexivity |].
  destruct (files os !! logFile x) eqn:Hlog.
  - split; [reflexivity |]. rewrite Hlog. discriminate.
  - split.
    + intros path Hpath. now rewrite lookup_insert_ne.
    + rewrite lookup_insert_eq. discriminate.
Qed.

Lemma Start_spawn_failure_witness :
  let x := NewXrayManager "/opt/crosh/xray" 1080 in
  let os := mkOS {[ "/opt/crosh/xray" := "ELF" ]} ∅ in
  files os !! xrayPath x <> None /\ IsRunning (fun _ => false) x os = false /\
  exists x' os',
    Start (fun _ => false) None x os =
      (x', os', Some (Wrapf "failed to start Xray-core" (ErrLib "exec.Cmd.Start"))) /\
    processHandle x' = None.
Proof.
  intros x os.
  assert (Hbin : files os !! xrayPath x <> None) by (vm_compute; discriminate).
  assert (Hrun : IsRunning (fun _ => false) x os = false) by reflexivity.
  split; [exact Hbin |]. split; [exact Hrun |].
  destruct (Start_spawn_failure (fun _ => false) x os Hbin Hrun)
    as (x' & os' & Hstart & Hhandle & _).
  exists x', os'. split; [exact Hstart | exact Hhandle].
Defined.

(** X29.  [GetProxyEnvVars] sets six variables, [HTTP_PROXY],
    [HTTPS_PROXY] and [ALL_PROXY] in upper and in lower case, and gives every
    one of them the same value, the SOCKS5 address of the local listener. *)
Theorem GetProxyEnvVars_one_address (x : XrayManager) (key value : string) :
  GetProxyEnvVars x !! key = Some value <->
  key ∈ [ "HTTP_PROXY"; "HTTPS_PROXY"; "ALL_PROXY"; "http_proxy"; "https_proxy"; "all_proxy" ]
  /\ value = "socks5://127.0.0.1:" ++ Sprintf_d (localPort x).
Proof.
  unfold GetProxyEnvVars. cbn [list_to_map foldr fst snd curry uncurry].
  rewrite !elem_of_cons, elem_of_nil.
  repeat (rewrite lookup_insert; case_decide;
          [subst key; split; [intros [= <-]; split; [auto 10 | reflexivity] | intros [_ ->]; reflexivity] |]).
  rewrite lookup_empty. split; [discriminate |].
  intros [Hkey _]. repeat (destruct Hkey as [Hkey | Hkey]; [congruence |]).
  contradiction.
Qed.

Lemma GetProxyEnvVars_one_address_witness :
  GetProxyEnvVars (NewXrayManager "/opt/crosh/xray" 1080) !! "all_proxy" =
    Some "socks5://127.0.0.1:1080".
Proof.
  apply (proj2 (GetProxyEnvVars_one_address (NewXrayManager "/opt/crosh/xray" 1080)
                  "all_proxy" "socks5://127.0.0.1:1080")).
  split; [| reflexivity].
  apply (bool_decide_unpack _). vm_compute. exact I.
Defined.
